(** * Agent orchestration engine: decoder, router, broker, run loop

    A shallow embedding of the orchestration core of the cost-discovery
    agent, and the properties of it that are proved or refuted:

    - [agent/schemas/action_schema.py]  ([AgentAction], [validate_action])
    - [agent/nodes/specialists.py]      ([sanitize_history],
      [smart_fuzzy_parse], [try_constrained_decoding], [run_specialist],
      [_convert_action_to_message])
    - [agent/graph.py]                  ([route_specialist], [route_tools],
      the conditional edges of [build_graph])
    - [core/task_broker.py]             ([TaskBroker._task_key],
      [TaskBroker.submit], [is_dir_visited], [mark_dir_visited])
    - [agent/tools/search.py]           ([execute_safe_grep],
      [execute_list_files])
    - [core/ignore_handler.py]          ([IgnoreHandler.is_ignored])
    - [core/pricing.py]                 ([fuzzy_match_metric])
    - [core/llm.py]                     ([get_llm])
    - [lambda_entrypoint.py]            ([update_scan_status],
      [handle_scan], [handle_resume], the name of the repository)
    - [local_runner.py]                 (the answer [LocalRunner.run_scan]
      puts into a resumed run)

    Conventions of the model.

    - Python values are [PyValue]; a [str] is a [string] of ASCII
      characters, so [lower], [capitalize] and slicing act on single
      bytes; a [dict] is an association list in insertion order.
    - An exception is a value of [exn]; [is_ValueError] and its
      companions are the [isinstance] tests of the [except] clauses, with
      the subclass relations of Python and pydantic.  A function that may
      raise returns a [result].
    - The library functions the code calls are written out where their
      result matters ([json.dumps], [json.loads], [hashlib.md5], the one
      regular expression of the parser, the functions of [os.path] on a
      POSIX system).  What lies outside the process
      (the model's replies, the file system, the clock, [uuid4]) is an
      argument: a record [Env] for a specialist node, three functions for
      the broker, a list of events for the run loop.
    - Printing to the console is left out.
    - The cache of the broker is a [gmap]. *)

From Stdlib Require Import ZArith Ascii String List Lia Bool Permutation.
From stdpp Require Import base option list strings gmap.

Import ListNotations.
Local Open Scope string_scope.
Local Open Scope Z_scope.

(* ===================================================================== *)
(** * Python strings *)
(* ===================================================================== *)

Module Py.

Definition ord (c : ascii) : nat := nat_of_ascii c.

Definition is_upper (c : ascii) : bool :=
  (65 <=? ord c)%nat && (ord c <=? 90)%nat.
Definition is_lower (c : ascii) : bool :=
  (97 <=? ord c)%nat && (ord c <=? 122)%nat.
Definition is_digit (c : ascii) : bool :=
  (48 <=? ord c)%nat && (ord c <=? 57)%nat.

Definition lower_char (c : ascii) : ascii :=
  if is_upper c then ascii_of_nat (ord c + 32) else c.
Definition upper_char (c : ascii) : ascii :=
  if is_lower c then ascii_of_nat (ord c - 32) else c.

(** [str.lower()] *)
Fixpoint lower (s : string) : string :=
  match s with
  | EmptyString => EmptyString
  | String c r => String (lower_char c) (lower r)
  end.

(** [str.upper()] *)
Fixpoint upper (s : string) : string :=
  match s with
  | EmptyString => EmptyString
  | String c r => String (upper_char c) (upper r)
  end.

(** [str.capitalize()]: first character upper-cased, the rest lower-cased. *)
Definition capitalize (s : string) : string :=
  match s with
  | EmptyString => EmptyString
  | String c r => String (upper_char c) (lower r)
  end.

(** The characters [str.strip()] removes: tab, line feed, vertical tab,
    form feed, carriage return, the separators 0x1c-0x1f, and space. *)
Definition is_space (c : ascii) : bool :=
  ((9 <=? ord c)%nat && (ord c <=? 13)%nat)
  || ((28 <=? ord c)%nat && (ord c <=? 32)%nat).

Fixpoint lstrip (s : string) : string :=
  match s with
  | EmptyString => EmptyString
  | String c r => if is_space c then lstrip r else s
  end.

(** [rstrip] keeps a character when it is not a space or something that
    survives follows it. *)
Fixpoint rstrip (s : string) : string :=
  match s with
  | EmptyString => EmptyString
  | String c r =>
      match rstrip r with
      | EmptyString => if is_space c then EmptyString else String c EmptyString
      | r' => String c r'
      end
  end.

Definition strip (s : string) : string := rstrip (lstrip s).

Definition len (s : string) : Z := Z.of_nat (String.length s).

(** [s.startswith(p)] *)
Fixpoint startswith (s p : string) : bool :=
  match p, s with
  | EmptyString, _ => true
  | String a p', String b s' => if Ascii.eqb a b then startswith s' p' else false
  | String _ _, EmptyString => false
  end.

(** [s[:n]] for [n >= 0] *)
Fixpoint take (n : nat) (s : string) : string :=
  match n, s with
  | O, _ => EmptyString
  | S n', String c r => String c (take n' r)
  | S _, EmptyString => EmptyString
  end.

(** [s[n:]] for [n >= 0] *)
Fixpoint drop (n : nat) (s : string) : string :=
  match n, s with
  | O, _ => s
  | S n', String _ r => drop n' r
  | S _, EmptyString => EmptyString
  end.

(** [s[:-n]] for [n > 0] *)
Definition drop_end (n : nat) (s : string) : string :=
  take (String.length s - n) s.

(** [s.endswith(p)] *)
Definition endswith (s p : string) : bool :=
  (String.length p <=? String.length s)%nat
  && String.eqb (drop (String.length s - String.length p) s) p.

(** [p in s] for strings: [p] occurs as a contiguous run of [s]. *)
Fixpoint contains (s p : string) : bool :=
  startswith s p ||
  match s with
  | EmptyString => false
  | String _ r => contains r p
  end.

(** [sep.join(parts)] *)
Fixpoint join (sep : string) (parts : list string) : string :=
  match parts with
  | [] => EmptyString
  | [x] => x
  | x :: rest => x ++ sep ++ join sep rest
  end.

(** The line feed. *)
Definition nl : string := String (ascii_of_nat 10) EmptyString.

(** The double-quote character. *)
Definition dquote : ascii := ascii_of_nat 34.

(** [s.split(sep)[0]] for the line feed: the text before the first one. *)
Fixpoint first_line (s : string) : string :=
  match s with
  | EmptyString => EmptyString
  | String c r => if (ord c =? 10)%nat then EmptyString else String c (first_line r)
  end.

(** [s.replace(old, "")] for a non-empty [old]. *)
Fixpoint remove_all (fuel : nat) (s old : string) : string :=
  match fuel with
  | O => s
  | S f =>
      match s with
      | EmptyString => EmptyString
      | String c r =>
          if startswith s old then remove_all f (drop (String.length old) s) old
          else String c (remove_all f r old)
      end
  end.

Definition digit_char (d : nat) : ascii := ascii_of_nat (48 + d).

Fixpoint nat_digits (fuel n : nat) (acc : string) : string :=
  match fuel with
  | O => acc
  | S f =>
      let acc' := String (digit_char (n mod 10)) acc in
      if (n <? 10)%nat then acc' else nat_digits f (n / 10) acc'
  end.

(** [str(n)] for an [int] *)
Definition str_of_Z (z : Z) : string :=
  match z with
  | Z0 => "0"
  | Zpos p => nat_digits (S (Pos.to_nat p)) (Pos.to_nat p) EmptyString
  | Zneg p => String "-" (nat_digits (S (Pos.to_nat p)) (Pos.to_nat p) EmptyString)
  end.

End Py.

(* ===================================================================== *)
(** * Python values and exceptions *)
(* ===================================================================== *)

(** The values that travel through tool arguments, broker payloads and
    decoded JSON.  A [dict] keeps its items in insertion order; a [float]
    is carried as its [repr]. *)
#[warnings="-register-all"]
Inductive PyValue : Type :=
| PNone
| PBool (b : bool)
| PInt (z : Z)
| PFloat (repr : string)
| PStr (s : string)
| PList (items : list PyValue)
| PDict (items : list (string * PyValue)).

(** The exception classes the engine raises or handles.  [is_ValueError]
    is the [isinstance(e, ValueError)] test made by [except ValueError]:
    [json.JSONDecodeError] and pydantic's [ValidationError] both derive
    from [ValueError]; [RecursionError] derives from [RuntimeError] and is
    no [ValueError]. *)
Inductive exn : Type :=
| ValueError (msg : string)
| ValidationError (msg : string)
| JSONDecodeError
| RecursionError
| ImportError (msg : string)
| TypeError
| AttributeError
| UnboundLocalError
| OSError (msg : string)
| HumanInputNeeded (question : string)
| OtherException (msg : string).

(** [str(e)] *)
Definition exn_str (e : exn) : string :=
  match e with
  | ValueError m | ValidationError m | ImportError m | OSError m
  | OtherException m => m
  | JSONDecodeError => "Expecting value"
  | RecursionError => "maximum recursion depth exceeded"
  | TypeError => "TypeError"
  | AttributeError => "AttributeError"
  | UnboundLocalError => "cannot access local variable"
  | HumanInputNeeded q => "Human input required: " ++ q
  end.

Definition is_ValueError (e : exn) : bool :=
  match e with
  | ValueError _ | ValidationError _ | JSONDecodeError => true
  | _ => false
  end.

Definition is_ValidationError (e : exn) : bool :=
  match e with ValidationError _ => true | _ => false end.

Definition is_ImportError (e : exn) : bool :=
  match e with ImportError _ => true | _ => false end.

(** A computation that returns or raises. *)
Inductive result (A : Type) : Type :=
| Ok (a : A)
| Raise (e : exn).
Arguments Ok {A} a.
Arguments Raise {A} e.

#[global] Instance result_bind : MBind result :=
  fun A B (k : A -> result B) (m : result A) =>
    match m with
    | Ok a => k a
    | Raise e => Raise e
    end.

#[global] Instance result_ret : MRet result := fun A a => Ok a.

Module Dict.

(** [d.get(k)] *)
Fixpoint get {V} (d : list (string * V)) (k : string) : option V :=
  match d with
  | [] => None
  | (k', v) :: rest => if String.eqb k' k then Some v else get rest k
  end.

(** [d.get(k, dflt)] *)
Definition get_default {V} (d : list (string * V)) (k : string) (dflt : V) : V :=
  match get d k with Some v => v | None => dflt end.

(** [k in d] *)
Definition mem {V} (d : list (string * V)) (k : string) : bool :=
  match get d k with Some _ => true | None => false end.

Definition keys {V} (d : list (string * V)) : list string := map fst d.

(** [d[k] = v]: overwrite in place or append at the end. *)
Fixpoint set {V} (d : list (string * V)) (k : string) (v : V) : list (string * V) :=
  match d with
  | [] => [(k, v)]
  | (k', v') :: rest =>
      if String.eqb k' k then (k', v) :: rest else (k', v') :: set rest k v
  end.

End Dict.

(** Python truthiness, [bool(v)]. *)
Definition truthy (v : PyValue) : bool :=
  match v with
  | PNone => false
  | PBool b => b
  | PInt z => negb (z =? 0)
  | PFloat r => negb (String.eqb r "0.0" || String.eqb r "-0.0")
  | PStr s => negb (String.eqb s "")
  | PList l => match l with [] => false | _ => true end
  | PDict d => match d with [] => false | _ => true end
  end.

(* ===================================================================== *)
(** * The [json] module *)
(* ===================================================================== *)

Module Json.

Definition hex_char (d : nat) : ascii :=
  if (d <? 10)%nat then ascii_of_nat (48 + d) else ascii_of_nat (87 + d).

(** One character inside a JSON string literal, as [json.dumps] writes it
    with [ensure_ascii] on. *)
Definition escape_char (c : ascii) : string :=
  let n := Py.ord c in
  if (n =? 34)%nat then String "\" (String Py.dquote "")
  else if (n =? 92)%nat then "\\"
  else if (n =? 10)%nat then "\n"
  else if (n =? 13)%nat then "\r"
  else if (n =? 9)%nat then "\t"
  else if (n =? 8)%nat then "\b"
  else if (n =? 12)%nat then "\f"
  else if ((n <? 32)%nat || (126 <? n)%nat)
    then "\u00" ++ String (hex_char (n / 16)) (String (hex_char (n mod 16)) "")
  else String c "".

Fixpoint escape (s : string) : string :=
  match s with
  | EmptyString => EmptyString
  | String c r => escape_char c ++ escape r
  end.

Definition quote (s : string) : string :=
  String Py.dquote (escape s ++ String Py.dquote "").

(** [sorted(items)] on the items of a dict: insertion by key, an item
    going after the items whose key is not greater. *)
Fixpoint insert_item {V} (x : string * V) (l : list (string * V)) : list (string * V) :=
  match l with
  | [] => [x]
  | y :: rest =>
      if String.ltb (fst x) (fst y) then x :: y :: rest
      else y :: insert_item x rest
  end.

Fixpoint sort_items {V} (l : list (string * V)) : list (string * V) :=
  match l with
  | [] => []
  | x :: rest => insert_item x (sort_items rest)
  end.

Definition render_item (kv : string * string) : string :=
  quote (fst kv) ++ ": " ++ snd kv.

(** [json.dumps(v, sort_keys=True)] with the default separators.  The
    values of a dict are encoded before its items are put in key order;
    the order of the two steps does not change the text. *)
Fixpoint dumps (v : PyValue) : string :=
  match v with
  | PNone => "null"
  | PBool true => "true"
  | PBool false => "false"
  | PInt z => Py.str_of_Z z
  | PFloat r =>
      if String.eqb r "nan" then "NaN"
      else if String.eqb r "inf" then "Infinity"
      else if String.eqb r "-inf" then "-Infinity"
      else r
  | PStr s => quote s
  | PList l => "[" ++ Py.join ", " (map dumps l) ++ "]"
  | PDict d =>
      "{" ++ Py.join ", "
               (map render_item
                  (sort_items (map (fun kv => (fst kv, dumps (snd kv))) d)))
          ++ "}"
  end.

(** ** [json.loads]

    A reader for JSON texts: objects, arrays, strings with their escapes,
    numbers, [true], [false], [null].  A repeated key keeps its first
    position and its last value, as a Python dict does.  A number with a
    fraction or an exponent becomes a [PFloat] holding the literal. *)

Definition is_ws (c : ascii) : bool :=
  let n := Py.ord c in
  (n =? 32)%nat || (n =? 9)%nat || (n =? 10)%nat || (n =? 13)%nat.

Fixpoint skip_ws (s : string) : string :=
  match s with
  | String c r => if is_ws c then skip_ws r else s
  | EmptyString => EmptyString
  end.

Definition hex_val (c : ascii) : option nat :=
  let n := Py.ord c in
  if Py.is_digit c then Some (n - 48)%nat
  else if ((97 <=? n)%nat && (n <=? 102)%nat) then Some (n - 87)%nat
  else if ((65 <=? n)%nat && (n <=? 70)%nat) then Some (n - 55)%nat
  else None.

(** The UTF-8 bytes of a code point below 0x10000. *)
Definition utf8 (n : nat) : string :=
  if (n <? 128)%nat then String (ascii_of_nat n) ""
  else if (n <? 2048)%nat then
    String (ascii_of_nat (192 + n / 64)) (String (ascii_of_nat (128 + n mod 64)) "")
  else
    String (ascii_of_nat (224 + n / 4096))
      (String (ascii_of_nat (128 + (n / 64) mod 64))
         (String (ascii_of_nat (128 + n mod 64)) "")).

(** The body of a string literal, after its opening quote. *)
Fixpoint read_string (s : string) : option (string * string) :=
  match s with
  | EmptyString => None
  | String c r =>
      let n := Py.ord c in
      if (n =? 34)%nat then Some (EmptyString, r)
      else if (n <? 32)%nat then None
      else if (n =? 92)%nat then
        match r with
        | String e r' =>
            let plain (ch : nat) :=
              match read_string r' with
              | Some (body, rest) => Some (String (ascii_of_nat ch) body, rest)
              | None => None
              end in
            match Py.ord e with
            | 34%nat => plain 34%nat
            | 92%nat => plain 92%nat
            | 47%nat => plain 47%nat
            | 98%nat => plain 8%nat
            | 102%nat => plain 12%nat
            | 110%nat => plain 10%nat
            | 114%nat => plain 13%nat
            | 116%nat => plain 9%nat
            | 117%nat =>
                match r' with
                | String h1 (String h2 (String h3 (String h4 r'')) as t3) =>
                    match hex_val h1, hex_val h2, hex_val h3, hex_val h4 with
                    | Some a, Some b, Some c', Some d =>
                        match read_string r'' with
                        | Some (body, rest) =>
                            Some (utf8 (((a * 16 + b) * 16 + c') * 16 + d) ++ body, rest)
                        | None => None
                        end
                    | _, _, _, _ => None
                    end
                | _ => None
                end
            | _ => None
            end
        | EmptyString => None
        end
      else
        match read_string r with
        | Some (body, rest) => Some (String c body, rest)
        | None => None
        end
  end.

Fixpoint read_digits (s : string) : string * string :=
  match s with
  | String c r =>
      if Py.is_digit c then let '(d, rest) := read_digits r in (String c d, rest)
      else (EmptyString, s)
  | EmptyString => (EmptyString, EmptyString)
  end.

Fixpoint digits_value (s : string) (acc : Z) : Z :=
  match s with
  | String c r => digits_value r (acc * 10 + Z.of_nat (Py.ord c - 48))
  | EmptyString => acc
  end.

(** The integer part of a number: [0] or a run of digits not starting
    with [0]. *)
Definition read_int_part (s : string) : option (string * string) :=
  match s with
  | String c r =>
      if Ascii.eqb c "0" then Some ("0", r)
      else if Py.is_digit c then Some (read_digits s)
      else None
  | EmptyString => None
  end.

Definition read_frac (s : string) : string * string :=
  match s with
  | String "." r =>
      match read_digits r with
      | (EmptyString, _) => (EmptyString, s)
      | (d, rest) => (String "." d, rest)
      end
  | _ => (EmptyString, s)
  end.

Definition read_exp (s : string) : string * string :=
  match s with
  | String e r =>
      if Ascii.eqb e "e" || Ascii.eqb e "E" then
        let '(sign, r1) :=
          match r with
          | String sg r1 =>
              if Ascii.eqb sg "+" || Ascii.eqb sg "-" then (String sg "", r1) else ("", r)
          | EmptyString => ("", r)
          end in
        match read_digits r1 with
        | (EmptyString, _) => (EmptyString, s)
        | (d, rest) => (String e (sign ++ d), rest)
        end
      else (EmptyString, s)
  | EmptyString => (EmptyString, s)
  end.

Definition read_number (s : string) : option (PyValue * string) :=
  let '(neg, s1) :=
    match s with
    | String "-" r => (true, r)
    | _ => (false, s)
    end in
  match read_int_part s1 with
  | None => None
  | Some (ip, s2) =>
      let '(fp, s3) := read_frac s2 in
      let '(ep, s4) := read_exp s3 in
      match fp, ep with
      | EmptyString, EmptyString =>
          let z := digits_value ip 0 in
          Some (PInt (if neg then - z else z), s4)
      | _, _ => Some (PFloat ((if neg then "-" else "") ++ ip ++ fp ++ ep), s4)
      end
  end.

(** The reader of one value.  [room] is the number of nested containers
    the interpreter still has room for: every array and every object
    takes one level when it is entered, and entering one with no room
    left raises [RecursionError].  The text is read from left to right,
    so the first failure met decides which exception is raised.  [fuel]
    bounds the steps; more than twice the length of the text is never
    used. *)
Fixpoint read_value (fuel room : nat) (s : string) : result (PyValue * string) :=
  match fuel with
  | O => Raise JSONDecodeError
  | S f =>
      match s with
      | EmptyString => Raise JSONDecodeError
      | String c r =>
          if Ascii.eqb c Py.dquote then
            match read_string r with
            | Some (body, rest) => Ok (PStr body, rest)
            | None => Raise JSONDecodeError
            end
          else if Ascii.eqb c "[" then
            match room with
            | O => Raise RecursionError
            | S room' =>
                match skip_ws r with
                | String "]" rest => Ok (PList [], rest)
                | r1 =>
                    match read_elems f room' r1 with
                    | Ok (items, rest) => Ok (PList items, rest)
                    | Raise e => Raise e
                    end
                end
            end
          else if Ascii.eqb c "{" then
            match room with
            | O => Raise RecursionError
            | S room' =>
                match skip_ws r with
                | String "}" rest => Ok (PDict [], rest)
                | r1 =>
                    match read_members f room' r1 [] with
                    | Ok (items, rest) => Ok (PDict items, rest)
                    | Raise e => Raise e
                    end
                end
            end
          else if Py.startswith s "null" then Ok (PNone, Py.drop 4 s)
          else if Py.startswith s "true" then Ok (PBool true, Py.drop 4 s)
          else if Py.startswith s "false" then Ok (PBool false, Py.drop 5 s)
          else if Py.startswith s "NaN" then Ok (PFloat "nan", Py.drop 3 s)
          else if Py.startswith s "Infinity" then Ok (PFloat "inf", Py.drop 8 s)
          else if Py.startswith s "-Infinity" then Ok (PFloat "-inf", Py.drop 9 s)
          else
            match read_number s with
            | Some r => Ok r
            | None => Raise JSONDecodeError
            end
      end
  end

(** The elements of an array, from the first element on. *)
with read_elems (fuel room : nat) (s : string) : result (list PyValue * string) :=
  match fuel with
  | O => Raise JSONDecodeError
  | S f =>
      match read_value f room s with
      | Raise e => Raise e
      | Ok (v, rest) =>
          match skip_ws rest with
          | String "]" rest' => Ok ([v], rest')
          | String "," rest' =>
              match read_elems f room (skip_ws rest') with
              | Ok (vs, rest'') => Ok (v :: vs, rest'')
              | Raise e => Raise e
              end
          | _ => Raise JSONDecodeError
          end
      end
  end

(** The members of an object, from the first key on; [acc] is the dict
    built so far. *)
with read_members (fuel room : nat) (s : string) (acc : list (string * PyValue))
  : result (list (string * PyValue) * string) :=
  match fuel with
  | O => Raise JSONDecodeError
  | S f =>
      match s with
      | String c r =>
          if negb (Ascii.eqb c Py.dquote) then Raise JSONDecodeError else
          match read_string r with
          | None => Raise JSONDecodeError
          | Some (k, r1) =>
              match skip_ws r1 with
              | String ":" r2 =>
                  match read_value f room (skip_ws r2) with
                  | Raise e => Raise e
                  | Ok (v, r3) =>
                      let acc' := Dict.set acc k v in
                      match skip_ws r3 with
                      | String "}" rest => Ok (acc', rest)
                      | String "," rest => read_members f room (skip_ws rest) acc'
                      | _ => Raise JSONDecodeError
                      end
                  end
              | _ => Raise JSONDecodeError
              end
          end
      | EmptyString => Raise JSONDecodeError
      end
  end.

(** [json.loads(s)] in an interpreter with room for [room] nested
    containers: the value, [JSONDecodeError] for a text that is not JSON,
    or [RecursionError] for one that nests deeper than the room before
    any other fault shows.  (Within the last three levels below the
    limit CPython 3.11 reports some faults of the text as
    [RecursionError] too, for lack of room to build the error; that
    margin is not modelled.) *)
Definition loads_within (room : nat) (s : string) : result PyValue :=
  match read_value (2 * String.length s + 2) room (skip_ws s) with
  | Ok (v, rest) =>
      match skip_ws rest with
      | EmptyString => Ok v
      | _ => Raise JSONDecodeError
      end
  | Raise e => Raise e
  end.

(** [json.loads] called a few frames below the top of a process that
    runs with the default recursion limit of 1000. *)
Definition loads : string -> result PyValue := loads_within 990.

End Json.

(* ===================================================================== *)
(** * [hashlib.md5] *)
(* ===================================================================== *)

Module Md5.

Definition mask32 : Z := 4294967295.

Definition add32 (x y : Z) : Z := Z.land (x + y) mask32.

(** Rotation to the left of a 32-bit word. *)
Definition rotl32 (x c : Z) : Z :=
  Z.land (Z.lor (Z.shiftl x c) (Z.shiftr x (32 - c))) mask32.

Definition not32 (x : Z) : Z := Z.lxor x mask32.

(** The per-round shift amounts. *)
Definition shifts : list Z :=
  [
   7; 12; 17; 22; 7; 12; 17; 22; 7; 12; 17; 22; 7; 12; 17; 22;
   5; 9; 14; 20; 5; 9; 14; 20; 5; 9; 14; 20; 5; 9; 14; 20;
   4; 11; 16; 23; 4; 11; 16; 23; 4; 11; 16; 23; 4; 11; 16; 23;
   6; 10; 15; 21; 6; 10; 15; 21; 6; 10; 15; 21; 6; 10; 15; 21].

(** The constants [floor(2^32 * abs(sin(i + 1)))]. *)
Definition sines : list Z :=
  [
   3614090360; 3905402710; 606105819; 3250441966; 4118548399; 1200080426;
   2821735955; 4249261313; 1770035416; 2336552879; 4294925233; 2304563134;
   1804603682; 4254626195; 2792965006; 1236535329; 4129170786; 3225465664;
   643717713; 3921069994; 3593408605; 38016083; 3634488961; 3889429448;
   568446438; 3275163606; 4107603335; 1163531501; 2850285829; 4243563512;
   1735328473; 2368359562; 4294588738; 2272392833; 1839030562; 4259657740;
   2763975236; 1272893353; 4139469664; 3200236656; 681279174; 3936430074;
   3572445317; 76029189; 3654602809; 3873151461; 530742520; 3299628645;
   4096336452; 1126891415; 2878612391; 4237533241; 1700485571; 2399980690;
   4293915773; 2240044497; 1873313359; 4264355552; 2734768916; 1309151649;
   4149444226; 3174756917; 718787259; 3951481745].

Definition bytes_of (s : string) : list Z :=
  map (fun c => Z.of_nat (nat_of_ascii c)) (list_ascii_of_string s).

(** [n] as [k] bytes, least significant first. *)
Fixpoint le_bytes (k : nat) (n : Z) : list Z :=
  match k with
  | O => []
  | S k' => Z.land n 255 :: le_bytes k' (Z.shiftr n 8)
  end.

(** The message with its padding: a one bit, zeros up to 56 modulo 64, and
    the length in bits on eight bytes. *)
Definition pad (msg : list Z) : list Z :=
  let len := Z.of_nat (length msg) in
  let zeros := Z.to_nat ((55 - len) mod 64) in
  (msg ++ [128] ++ repeat 0 zeros ++ le_bytes 8 (Z.land (8 * len) 18446744073709551615))%list.

(** The sixteen little-endian words of a block of 64 bytes. *)
Fixpoint words (k : nat) (block : list Z) : list Z :=
  match k with
  | O => []
  | S k' =>
      match block with
      | b0 :: b1 :: b2 :: b3 :: rest =>
          (b0 + Z.shiftl b1 8 + Z.shiftl b2 16 + Z.shiftl b3 24) :: words k' rest
      | _ => []
      end
  end.

Definition state : Type := (Z * Z * Z * Z)%type.

(** One of the 64 operations on a block. *)
Definition step (m : list Z) (st : state) (i : Z) : state :=
  let '(a, b, c, d) := st in
  let '(f, g) :=
    if i <? 16 then (Z.lor (Z.land b c) (Z.land (not32 b) d), i)
    else if i <? 32 then (Z.lor (Z.land d b) (Z.land (not32 d) c), (5 * i + 1) mod 16)
    else if i <? 48 then (Z.lxor (Z.lxor b c) d, (3 * i + 5) mod 16)
    else (Z.lxor c (Z.lor b (not32 d)), (7 * i) mod 16) in
  let f' :=
    add32 (add32 (add32 f a) (nth (Z.to_nat i) sines 0)) (nth (Z.to_nat g) m 0) in
  (d, add32 b (rotl32 f' (nth (Z.to_nat i) shifts 0)), b, c).

Definition process_block (st : state) (block : list Z) : state :=
  let m := words 16 block in
  let '(a, b, c, d) := fold_left (step m) (map Z.of_nat (seq 0 64)) st in
  let '(a0, b0, c0, d0) := st in
  (add32 a0 a, add32 b0 b, add32 c0 c, add32 d0 d).

Fixpoint blocks (n : nat) (bytes : list Z) : list (list Z) :=
  match n with
  | O => []
  | S n' => firstn 64 bytes :: blocks n' (skipn 64 bytes)
  end.

Definition initial : state := (1732584193, 4023233417, 2562383102, 271733878).

Definition digest (msg : string) : list Z :=
  let padded := pad (bytes_of msg) in
  let '(a, b, c, d) :=
    fold_left process_block (blocks (length padded / 64) padded) initial in
  (le_bytes 4 a ++ le_bytes 4 b ++ le_bytes 4 c ++ le_bytes 4 d)%list.

Definition hex_byte (b : Z) : string :=
  String (Json.hex_char (Z.to_nat (b / 16)))
    (String (Json.hex_char (Z.to_nat (b mod 16))) EmptyString).

(** [hashlib.md5(msg.encode()).hexdigest()] *)
Definition hexdigest (msg : string) : string :=
  fold_right (fun b acc => hex_byte b ++ acc) EmptyString (digest msg).

End Md5.

(* ===================================================================== *)
(** * [agent/schemas/action_schema.py] *)
(* ===================================================================== *)

Module Schema.

Inductive ActionType : Type := call_tool | ask_human | finish_phase.

(** The validated model [AgentAction]. *)
Record AgentAction : Type := {
  thought : string;
  action_type : ActionType;
  tool_name : option string;
  tool_args : option (list (string * PyValue));
  human_question : option string;
  phase_summary : option string
}.

(** [not s] for an [Optional[str]]. *)
Definition falsy_str (s : option string) : bool :=
  match s with
  | None => true
  | Some s => String.eqb s ""
  end.

(** [not d] for an [Optional[dict]]. *)
Definition falsy_dict {V} (d : option (list (string * V))) : bool :=
  match d with
  | None | Some [] => true
  | Some _ => false
  end.

Definition is_list (v : PyValue) : bool :=
  match v with PList _ => true | _ => false end.

(** [not patterns or not isinstance(patterns, list) or len(patterns) == 0],
    for [patterns = self.tool_args.get("patterns")]. *)
Definition bad_patterns (patterns : option PyValue) : bool :=
  match patterns with
  | None => true
  | Some v =>
      negb (truthy v) || negb (is_list v)
      || match v with PList [] => true | _ => false end
  end.

(** [validate_action], the [model_validator(mode='after')].  The texts
    of the errors are shortened to their first sentence. *)
Definition validate_action (a : AgentAction) : result AgentAction :=
  match action_type a with
  | call_tool =>
      if falsy_str (tool_name a) then
        Raise (ValueError "You selected 'call_tool' but forgot 'tool_name'.")
      else if String.eqb (default "" (tool_name a)) "grep_codebase"
              && falsy_dict (tool_args a) then
        Raise (ValueError "You selected 'grep_codebase' but tool_args is missing or invalid.")
      else if String.eqb (default "" (tool_name a)) "grep_codebase"
              && bad_patterns (Dict.get (default [] (tool_args a)) "patterns") then
        Raise (ValueError "You selected 'grep_codebase' but 'patterns' is missing, empty, or not a list.")
      else if falsy_dict (tool_args a) then
        Ok {| thought := thought a; action_type := call_tool;
              tool_name := tool_name a; tool_args := Some [];
              human_question := human_question a;
              phase_summary := phase_summary a |}
      else Ok a
  | ask_human =>
      if falsy_str (human_question a) then
        Raise (ValueError "You selected 'ask_human' but forgot to write the 'human_question'.")
      else Ok a
  | finish_phase =>
      if falsy_str (phase_summary a) then
        Raise (ValueError "You selected 'finish_phase' but forgot the 'phase_summary'.")
      else Ok a
  end.

(** Field validation: a [str] field takes a [str] only. *)
Definition field_str (v : PyValue) : result string :=
  match v with
  | PStr s => Ok s
  | _ => Raise (ValidationError "Input should be a valid string")
  end.

Definition field_opt_str (v : option PyValue) : result (option string) :=
  match v with
  | None | Some PNone => Ok None
  | Some (PStr s) => Ok (Some s)
  | Some _ => Raise (ValidationError "Input should be a valid string")
  end.

Definition field_opt_dict (v : option PyValue)
  : result (option (list (string * PyValue))) :=
  match v with
  | None | Some PNone => Ok None
  | Some (PDict d) => Ok (Some d)
  | Some _ => Raise (ValidationError "Input should be a valid dictionary")
  end.

Definition field_action_type (v : option PyValue) : result ActionType :=
  match v with
  | None => Raise (ValidationError "Field required")
  | Some (PStr s) =>
      if String.eqb s "call_tool" then Ok call_tool
      else if String.eqb s "ask_human" then Ok ask_human
      else if String.eqb s "finish_phase" then Ok finish_phase
      else Raise (ValidationError "Input should be 'call_tool', 'ask_human' or 'finish_phase'")
  | Some _ => Raise (ValidationError "Input should be 'call_tool', 'ask_human' or 'finish_phase'")
  end.

(** What pydantic does with an error raised by a validator: a
    [ValueError] comes out as a [ValidationError]. *)
Definition wrap_validator {A} (r : result A) : result A :=
  match r with
  | Raise (ValueError msg) => Raise (ValidationError msg)
  | r => r
  end.

(** The constructor [AgentAction] called with keyword arguments: the fields are type-checked, the defaults
    filled in, then [validate_action] runs. *)
Definition AgentAction_init (kwargs : list (string * PyValue)) : result AgentAction :=
  th ← field_str (Dict.get_default kwargs "thought" (PStr "Processing action..."));
  at_ ← field_action_type (Dict.get kwargs "action_type");
  tn ← field_opt_str (Dict.get kwargs "tool_name");
  ta ← field_opt_dict (Dict.get kwargs "tool_args");
  hq ← field_opt_str (Dict.get kwargs "human_question");
  ps ← field_opt_str (Dict.get kwargs "phase_summary");
  wrap_validator
    (validate_action {| thought := th; action_type := at_; tool_name := tn;
                        tool_args := ta; human_question := hq;
                        phase_summary := ps |}).

(** The tools registered in [SPECIALIST_TOOLS]
    ([agent/tools/specialist_tools.py]). *)
Definition SPECIALIST_TOOLS : list string :=
  ["grep_codebase"; "read_file"; "ask_human"; "check_price_knowledge";
   "calculate_cost"; "complete_validation"].

End Schema.

(* ===================================================================== *)
(** * Messages and workflow state *)
(* ===================================================================== *)

(** A tool-call descriptor of an [AIMessage]. *)
Record ToolCall : Type := {
  tc_name : string;
  tc_args : list (string * PyValue);
  tc_id : string
}.

Inductive Message : Type :=
| SystemMessage (content : string)
| HumanMessage (content : string)
| AIMessage (content : string) (tool_calls : list ToolCall)
| ToolMessage (content : string) (tool_call_id : string).

Definition content_of (m : Message) : string :=
  match m with
  | SystemMessage c | HumanMessage c | AIMessage c _ | ToolMessage c _ => c
  end.

(** [msg.tool_calls] where the attribute exists, the empty list otherwise:
    [not hasattr(msg, "tool_calls") or not msg.tool_calls] is
    [tool_calls_of msg = []]. *)
Definition tool_calls_of (m : Message) : list ToolCall :=
  match m with
  | AIMessage _ tcs => tcs
  | _ => []
  end.

Definition no_tool_calls (m : Message) : bool :=
  match tool_calls_of m with [] => true | _ => false end.

(** The fields of [AgentState] that the engine reads. *)
Record AgentState : Type := {
  messages : list Message;
  active_specialist : string;
  fuzzy_parse_count : Z;
  ledger : PyValue;
  structure_map : string;
  verbose : bool
}.

(** The dict a node returns: the keys it sets. *)
Record Update : Type := {
  u_messages : list Message;
  u_active_specialist : string;
  u_fuzzy_parse_count : option Z
}.

(** Modelled from the spec: the state type [agent/state.py] and the merge
    of a node's update into the state are not part of the sources at
    hand.  The message log is append-only and the other keys the update
    carries overwrite, as the comments of [run_specialist] say of the
    counter it writes ([Reset]).  A key the update does not carry is left
    as it is; a statement that depends on this last rule does not take it
    from here but states it as a hypothesis on the merge. *)
Definition apply_update (st : AgentState) (u : Update) : AgentState :=
  {| messages := (messages st ++ u_messages u)%list;
     active_specialist := u_active_specialist u;
     fuzzy_parse_count := default (fuzzy_parse_count st) (u_fuzzy_parse_count u);
     ledger := ledger st;
     structure_map := structure_map st;
     verbose := verbose st |}.

(* ===================================================================== *)
(** * [agent/nodes/specialists.py] *)
(* ===================================================================== *)

Module Specialists.
Import Schema.

(** ** The collaborators of a specialist node

    Everything a node reaches outside the module: the process
    environment read by [get_llm], the model client, the [outlines]
    library, the serialisers, and [uuid.uuid4].  A reply of the model may
    depend on the attempt and on the messages sent. *)

(** The [content] of a raw reply: a [str], a list of blocks, or neither. *)
Inductive RawContent : Type :=
| ContentStr (s : string)
| ContentBlocks (blocks : list PyValue)
| NoContent.

(** - [GOOGLE_API_KEY]: the environment variable read by [get_llm];
    - [client_model_name]: the [model_name] attribute of the client, when
      it has one;
    - [model_dump_json]: the ledger's [model_dump_json(indent=2)];
    - [str_format]: [prompt_template.format] with the keywords
      [ledger_dump], [last_summary] and [structure_map], in this order
      after the template;
    - [outlines_generate]: the import of [outlines] and the constrained
      generation for a model name and a prompt text, as the keyword
      arguments of the generated action; [ImportError] when the library
      is missing;
    - [with_structured_output_invoke]: the reply to
      [llm_with_schema.invoke(messages)] at an attempt, as the keyword
      arguments the action is built from, [None] for an empty reply;
    - [invoke]: the reply to the raw [invoke(messages)];
    - [uuid4]: the id [uuid.uuid4] gives the tool call of this step. *)
Record Env : Type := {
  GOOGLE_API_KEY : option string;
  client_model_name : option string;
  model_dump_json : PyValue -> string;
  str_format : string -> string -> string -> string -> string;
  outlines_generate : string -> string -> result (list (string * PyValue));
  with_structured_output_invoke :
    nat -> list Message -> result (option (list (string * PyValue)));
  invoke : list Message -> result RawContent;
  uuid4 : string
}.

(** What a node asked of the model side, in order. *)
Inductive OracleCall : Type :=
| CallGetLlm
| CallConstrained (model prompt_text : string)
| CallStructured (attempt : nat) (sent : list Message)
| CallRaw (sent : list Message).

(** The tier that produced the returned update. *)
Inductive Tier : Type := Guard | T1 | T2 | T3 | T4.

(** [get_llm] of [core/llm.py]: without an API key it raises
    [ValueError]; otherwise it returns the client. *)
Definition get_llm (env : Env) : result (option string) :=
  if falsy_str (GOOGLE_API_KEY env) then
    Raise (ValueError "GOOGLE_API_KEY not found in environment variables. Please check your .env file.")
  else Ok (client_model_name env).

(** [sanitize_history] *)
Fixpoint drop_until_human (ms : list Message) : list Message :=
  match ms with
  | [] => []
  | HumanMessage _ :: _ => ms
  | _ :: rest => drop_until_human rest
  end.

Definition sanitize_history (ms : list Message) : list Message :=
  match ms with
  | [] => [HumanMessage "Resume analysis."]
  | _ =>
      match drop_until_human ms with
      | [] => [HumanMessage "Resume analysis."]
      | clean => clean
      end
  end.

(** [tool_name.split(":")[-1]]: the text after the last colon. *)
Fixpoint after_last_colon (s : string) : string :=
  match s with
  | EmptyString => EmptyString
  | String c r =>
      if Py.contains r ":" then after_last_colon r
      else if Ascii.eqb c ":" then r
      else s
  end.

Definition string_or (o : option string) (dflt : string) : string :=
  if falsy_str o then dflt else default dflt o.

(** [_convert_action_to_message] *)
Definition _convert_action_to_message (id : string) (action : AgentAction)
    (role : string) : Update :=
  let tool_calls :=
    match action_type action with
    | call_tool =>
        if falsy_str (tool_name action) then []
        else
          let name := default "" (tool_name action) in
          let clean_tool_name :=
            if Py.contains name ":" then after_last_colon name else name in
          [ {| tc_name := clean_tool_name;
               tc_args := if falsy_dict (tool_args action) then []
                          else default [] (tool_args action);
               tc_id := id |} ]
    | ask_human =>
        [ {| tc_name := "ask_human";
             tc_args := [("question",
                          PStr (string_or (human_question action) "Confirm finding?"))];
             tc_id := id |} ]
    | finish_phase =>
        [ {| tc_name := "complete_phase";
             tc_args := [("summary",
                          PStr (string_or (phase_summary action) "Phase Complete."))];
             tc_id := id |} ]
    end in
  {| u_messages := [AIMessage (thought action) tool_calls];
     u_active_specialist := role;
     u_fuzzy_parse_count := None |}.

(** ** The heuristic parser *)

Definition infrastructure_keywords : list string :=
  ["docker"; "kubernetes"; "lambda"; "ec2"; "s3"; "dynamodb";
   "openai"; "anthropic"; "bedrock"; "stripe"; "twilio"; "sendgrid"].

Definition finish_keywords : list string :=
  ["complete"; "finish"; "done"; "phase 1"; "phase 2"; "phase 3"].

(** The search of the file-name pattern
    [([a-zA-Z0-9_/\-\.]+\.(?:py|js|ts|yml|yaml|json|txt))]. *)
Definition is_path_char (c : ascii) : bool :=
  Py.is_lower c || Py.is_upper c || Py.is_digit c
  || Ascii.eqb c "_" || Ascii.eqb c "/" || Ascii.eqb c "-" || Ascii.eqb c ".".

Definition extensions : list string :=
  ["py"; "js"; "ts"; "yml"; "yaml"; "json"; "txt"].

(** A dot and the first alternative that fits, at the head of [s]. *)
Definition ext_at (s : string) : option string :=
  match s with
  | String "." r =>
      match List.filter (fun e => Py.startswith r e) extensions with
      | e :: _ => Some (String "." e)
      | [] => None
      end
  | _ => None
  end.

(** A match starting at the head of [s]: the run of path characters is
    taken as long as possible and given back one character at a time. *)
Fixpoint match_at (s : string) : option string :=
  match s with
  | String c r =>
      if is_path_char c then
        match match_at r with
        | Some m => Some (String c m)
        | None =>
            match ext_at r with
            | Some e => Some (String c e)
            | None => None
            end
        end
      else None
  | EmptyString => None
  end.

(** [re.search(...)]: the leftmost match; its group 1. *)
Fixpoint re_search_file (s : string) : option string :=
  match match_at s with
  | Some m => Some m
  | None =>
      match s with
      | String _ r => re_search_file r
      | EmptyString => None
      end
  end.

(** [v[:500]] on a decoded JSON value.  A value that cannot be sliced
    raises [TypeError] (for a dict, [KeyError] from Python 3.12 on). *)
Definition slice_500 (v : PyValue) : result PyValue :=
  match v with
  | PStr s => Ok (PStr (Py.take 500 s))
  | PList l => Ok (PList (firstn 500 l))
  | _ => Raise TypeError
  end.

(** How a tier ends: it returns the node's result, or control passes
    on to the code after it. *)
Inductive TierEnd (A : Type) : Type :=
| Returned (r : result Update)
| Passed (a : A).
Arguments Returned {A} r.
Arguments Passed {A} a.

Section Parser.

(** [json.loads]: the decoded value, or the exception raised
    ([JSONDecodeError] for a text that is not JSON, [RecursionError] for
    one that nests too deeply). *)
Variable json_loads : string -> result PyValue.

(** The text handed to [json.loads]: the reply without its code fence. *)
Definition json_candidate (response_text : string) : string :=
  let cleaned := Py.strip response_text in
  let cleaned :=
    if Py.startswith cleaned "```json" then Py.drop 7 cleaned
    else if Py.startswith cleaned "```" then Py.drop 3 cleaned
    else cleaned in
  let cleaned :=
    if Py.endswith cleaned "```" then Py.drop_end 3 cleaned else cleaned in
  Py.strip cleaned.

(** The first tier of [smart_fuzzy_parse]: the [try] block around
    [json.loads] and the reconstruction of the action.  [None]: the block
    ended without a [return] (the text did not decode to an object with a
    [thought], or the exception was one the [except] clause absorbs, an
    instance of [ValueError]); any other exception leaves the parser. *)
Definition json_tier (response_text role : string) : option (result AgentAction) :=
  let attempt : result (option AgentAction) :=
    data ← json_loads (json_candidate response_text);
    match data with
    | PDict data =>
        if Dict.mem data "thought" then
          th ← slice_500 (Dict.get_default data "thought" (PStr "Continuing analysis"));
          action ←
            AgentAction_init
              [("thought", th);
               ("action_type", Dict.get_default data "action_type" (PStr "finish_phase"));
               ("tool_name", Dict.get_default data "tool_name" PNone);
               ("tool_args", Dict.get_default data "tool_args" (PDict []));
               ("human_question", Dict.get_default data "human_question" PNone);
               ("phase_summary",
                Dict.get_default data "phase_summary" (PStr (role ++ " complete")))];
          Ok (Some action)
        else Ok None
    | _ => Ok None
    end in
  match attempt with
  | Ok (Some action) => Some (Ok action)
  | Ok None => None
  | Raise e => if is_ValueError e then None else Some (Raise e)
  end.

(** The second tier: heuristics on the text. *)
Definition heuristic_tier (response_text role : string) : result AgentAction :=
  let thought := Py.take 300 response_text in
  let text_lower := Py.lower response_text in
  let found_patterns :=
    List.filter (fun kw => Py.contains text_lower kw) infrastructure_keywords in
  let grep_hit :=
    (Py.contains text_lower "grep" || Py.contains text_lower "search for")
    && Py.contains text_lower "pattern"
    && match found_patterns with [] => false | _ => true end in
  let file_match :=
    if Py.contains text_lower "read"
       && (Py.contains response_text ".py" || Py.contains response_text ".txt"
           || Py.contains response_text ".yml")
    then re_search_file response_text else None in
  if grep_hit then
    AgentAction_init
      [("thought", PStr thought); ("action_type", PStr "call_tool");
       ("tool_name", PStr "grep_codebase");
       ("tool_args", PDict [("patterns", PList (map PStr (firstn 5 found_patterns)))])]
  else
    match file_match with
    | Some path =>
        AgentAction_init
          [("thought", PStr thought); ("action_type", PStr "call_tool");
           ("tool_name", PStr "read_file");
           ("tool_args", PDict [("file_path", PStr path)])]
    | None =>
        if existsb (fun kw => Py.contains text_lower kw) finish_keywords then
          let summary :=
            if (100 <? String.length response_text)%nat
            then Py.take 500 response_text
            else Py.capitalize role ++ " analysis complete" in
          AgentAction_init
            [("thought", PStr thought); ("action_type", PStr "finish_phase");
             ("phase_summary", PStr summary)]
        else
          AgentAction_init
            [("thought", PStr ("Unable to parse " ++ role ++ " output clearly"));
             ("action_type", PStr "finish_phase");
             ("phase_summary",
              PStr (Py.capitalize role ++ " completed. Output: "
                    ++ Py.take 200 response_text))]
    end.

(** [smart_fuzzy_parse] *)
Definition smart_fuzzy_parse (response_text role : string) : result AgentAction :=
  if String.eqb response_text ""
     || (String.length (Py.strip response_text) <? 5)%nat then
    AgentAction_init
      [("thought", PStr ("Empty response from " ++ role));
       ("action_type", PStr "finish_phase");
       ("phase_summary",
        PStr (Py.capitalize role ++ " completed with limited findings"))]
  else
    match json_tier response_text role with
    | Some r => r
    | None => heuristic_tier response_text role
    end.

(** ** The decoder *)

(** [try_constrained_decoding]: a failed import of [outlines] is raised
    again as [ImportError], every other failure as a plain
    [Exception]. *)
Definition try_constrained_decoding (env : Env) (llm_model_name : string)
    (msgs : list Message) : result AgentAction * list OracleCall :=
  let label m :=
    match m with
    | SystemMessage _ => "System"
    | HumanMessage _ => "Human"
    | _ => "Assistant"
    end in
  let prompt_text :=
    Py.join (Py.nl ++ Py.nl) (map (fun m => label m ++ ": " ++ content_of m) msgs) in
  let generated :=
    kwargs ← outlines_generate env llm_model_name prompt_text;
    AgentAction_init kwargs in
  (match generated with
   | Ok action => Ok action
   | Raise e =>
       if is_ImportError e then Raise (ImportError "outlines library not available")
       else Raise (OtherException ("Constrained decoding failed: " ++ exn_str e))
   end,
   [CallConstrained llm_model_name prompt_text]).

(** The recursion guard's update. *)
Definition guard_update (env : Env) (role : string) : Update :=
  {| u_messages :=
       [AIMessage (role ++ " exhausted retry budget")
          [ {| tc_name := "complete_phase";
               tc_args :=
                 [("summary",
                   PStr (Py.capitalize role
                         ++ " completed with partial findings due to parsing errors."))];
               tc_id := uuid4 env |} ]];
     u_active_specialist := role;
     u_fuzzy_parse_count := Some 0 |}.

(** The messages sent to the model: the formatted system prompt, then
    the sanitized history. *)
#[warnings="-abstract-large-number"]
Definition prepare_messages (env : Env) (state : AgentState)
    (prompt_template : string) : list Message :=
  let ledger_dump := model_dump_json env (ledger state) in
  let structure_map :=
    if String.eqb (structure_map state) "" then "No structure map available."
    else structure_map state in
  let tree_context := Py.take 20000 structure_map in
  let last_summary :=
    match last (messages state) with
    | Some last_msg =>
        if Py.contains (content_of last_msg) "PHASE_COMPLETE"
        then content_of last_msg else "No previous summary."
    | None => "No previous summary."
    end in
  let formatted_system :=
    str_format env prompt_template ledger_dump last_summary tree_context in
  SystemMessage formatted_system :: sanitize_history (messages state).

(** Tier 1.  On passing on, [llm_instance] is bound only if [get_llm]
    returned. *)
Definition tier1 (env : Env) (msgs : list Message) (role : string)
  : TierEnd (option (option string)) * list OracleCall :=
  match get_llm env with
  | Raise e =>
      (if is_ValueError e then Returned (Raise e) else Passed None, [CallGetLlm])
  | Ok llm_instance =>
      let model_name := default "gemini-2.5-flash-lite" llm_instance in
      let '(decoded, calls) := try_constrained_decoding env model_name msgs in
      (match decoded with
       | Ok action =>
           Returned (Ok (_convert_action_to_message (uuid4 env) action role))
       | Raise e =>
           if is_ValueError e then Returned (Raise e)
           else Passed (Some llm_instance)
       end,
       CallGetLlm :: calls)
  end.

(** [llm_with_schema.invoke(messages)]: the reply is built into an
    [AgentAction]; no reply is [None]. *)
Definition structured_invoke (env : Env) (attempt : nat) (msgs : list Message)
  : result (option AgentAction) :=
  reply ← with_structured_output_invoke env attempt msgs;
  match reply with
  | None => Ok None
  | Some kwargs => action ← AgentAction_init kwargs; Ok (Some action)
  end.

(** Tier 2: the loop over [range(3)].  The handlers are tried in the
    order of the source; [messages] grows by the feedback appended. *)
Fixpoint tier2 (env : Env) (role : string) (attempts : list nat)
    (msgs : list Message) : TierEnd (list Message) * list OracleCall :=
  match attempts with
  | [] => (Passed msgs, [])
  | attempt :: rest =>
      let continue_with msgs' :=
        let '(out, calls) := tier2 env role rest msgs' in
        (out, CallStructured attempt msgs :: calls) in
      match structured_invoke env attempt msgs with
      | Ok None =>
          continue_with
            (msgs ++ [HumanMessage "Your response was empty. Output valid AgentAction JSON."])%list
      | Ok (Some action) =>
          (Returned (Ok (_convert_action_to_message (uuid4 env) action role)),
           [CallStructured attempt msgs])
      | Raise e =>
          if is_ValueError e then
            (Returned (Raise e), [CallStructured attempt msgs])
          else if is_ValidationError e then
            let error_msg :=
              Py.remove_all (String.length (exn_str e))
                (Py.first_line (exn_str e)) "default_api:" in
            continue_with
              (msgs ++ [HumanMessage ("VALIDATION ERROR: " ++ error_msg ++ Py.nl
                                      ++ "Fix and output valid JSON.")])%list
          else continue_with msgs
      end
  end.

(** The text of a raw reply. *)
Fixpoint block_texts (blocks : list PyValue) : result (list string) :=
  match blocks with
  | [] => Ok []
  | PDict b :: rest =>
      match Dict.get_default b "text" (PStr "") with
      | PStr t => ts ← block_texts rest; Ok (t :: ts)
      | _ => Raise TypeError
      end
  | _ :: rest => block_texts rest
  end.

Definition response_text_of (c : RawContent) : result string :=
  match c with
  | ContentStr s => Ok s
  | ContentBlocks blocks => ts ← block_texts blocks; Ok (Py.join " " ts)
  | NoContent => Ok ""
  end.

(** Tier 3: every exception of the block is absorbed. *)
Definition tier3 (env : Env) (fuzzy_count : Z) (role : string)
    (msgs : list Message) : TierEnd unit * list OracleCall :=
  match get_llm env with
  | Raise _ => (Passed tt, [CallGetLlm])
  | Ok _ =>
      let attempt :=
        raw_response ← invoke env msgs;
        response_text ← response_text_of raw_response;
        if String.eqb response_text "" then Ok None
        else
          action ← smart_fuzzy_parse response_text role;
          let new_state := _convert_action_to_message (uuid4 env) action role in
          Ok (Some {| u_messages := u_messages new_state;
                      u_active_specialist := u_active_specialist new_state;
                      u_fuzzy_parse_count := Some (fuzzy_count + 1) |}) in
      (match attempt with
       | Ok (Some new_state) => Returned (Ok new_state)
       | Ok None | Raise _ => Passed tt
       end,
       [CallGetLlm; CallRaw msgs])
  end.

(** Tier 4: the forced finish. *)
Definition tier4 (env : Env) (role : string) : result Update :=
  fallback_action ←
    AgentAction_init
      [("thought", PStr ("Technical difficulties in " ++ role));
       ("action_type", PStr "finish_phase");
       ("phase_summary", PStr (Py.capitalize role ++ " completed with partial findings."))];
  let result := _convert_action_to_message (uuid4 env) fallback_action role in
  Ok {| u_messages := u_messages result;
        u_active_specialist := u_active_specialist result;
        u_fuzzy_parse_count := Some 0 |}.

(** [run_specialist], with the tier that answered and the calls made
    to the model side. *)
Definition run_specialist_traced (env : Env) (state : AgentState)
    (prompt_template role : string) : result Update * Tier * list OracleCall :=
  let fuzzy_count := fuzzy_parse_count state in
  if 3 <=? fuzzy_count then (Ok (guard_update env role), Guard, [])
  else
    let msgs := prepare_messages env state prompt_template in
    match tier1 env msgs role with
    | (Returned r, calls1) => (r, T1, calls1)
    | (Passed None, calls1) => (Raise UnboundLocalError, T2, calls1)
    | (Passed (Some llm_instance), calls1) =>
        match tier2 env role [0; 1; 2]%nat msgs with
        | (Returned r, calls2) => (r, T2, (calls1 ++ calls2)%list)
        | (Passed msgs', calls2) =>
            match tier3 env fuzzy_count role msgs' with
            | (Returned r, calls3) => (r, T3, (calls1 ++ calls2 ++ calls3)%list)
            | (Passed _, calls3) =>
                (tier4 env role, T4, (calls1 ++ calls2 ++ calls3)%list)
            end
        end
    end.

Definition run_specialist (env : Env) (state : AgentState)
    (prompt_template role : string) : result Update :=
  fst (fst (run_specialist_traced env state prompt_template role)).

Definition oracle_calls (env : Env) (state : AgentState)
    (prompt_template role : string) : list OracleCall :=
  snd (run_specialist_traced env state prompt_template role).

Definition answering_tier (env : Env) (state : AgentState)
    (prompt_template role : string) : Tier :=
  snd (fst (run_specialist_traced env state prompt_template role)).

End Parser.

End Specialists.

(* ===================================================================== *)
(** * [agent/graph.py] *)
(* ===================================================================== *)

Module Graph.

(** [messages[-n:]] *)
Definition last_messages (n : nat) (ms : list Message) : list Message :=
  skipn (length ms - n) ms.

(** The loop over [reversed(...)]: messages without tool calls are
    counted until one with tool calls is met. *)
Fixpoint count_non_tool (reversed : list Message) : nat :=
  match reversed with
  | [] => O
  | msg :: rest => if no_tool_calls msg then S (count_non_tool rest) else O
  end.

Definition non_tool_count (ms : list Message) : nat :=
  count_non_tool (rev (last_messages 10 ms)).

(** The forced transition of the loop protection. *)
Definition force_transition (active : string) : string :=
  if String.eqb active "architect" then "intelligence"
  else if String.eqb active "intelligence" then "integrator"
  else if String.eqb active "integrator" then "validator"
  else if String.eqb active "validator" then "reporter"
  else "reporter".

(** The transition on [complete_phase]. *)
Definition phase_transition (active : string) : string :=
  if String.eqb active "architect" then "intelligence"
  else if String.eqb active "intelligence" then "integrator"
  else if String.eqb active "integrator" then "validator"
  else if String.eqb active "validator" then "reporter"
  else "reporter".

(** The loop over [last_msg.tool_calls]. *)
Fixpoint scan_tool_calls (active : string) (tcs : list ToolCall) : string :=
  match tcs with
  | [] => "tools"
  | tc :: rest =>
      let tool_name := tc_name tc in
      if String.eqb tool_name "complete_phase" then phase_transition active
      else if String.eqb tool_name "complete_validation" then "reporter"
      else if String.eqb tool_name "emergency_exit" then "reporter"
      else scan_tool_calls active rest
  end.

(** [route_specialist] *)
Definition route_specialist (state : AgentState) : string :=
  match last (messages state) with
  | None => "recon"
  | Some last_msg =>
      if (5 <=? non_tool_count (messages state))%nat then
        force_transition (active_specialist state)
      else if no_tool_calls last_msg then active_specialist state
      else scan_tool_calls (active_specialist state) (tool_calls_of last_msg)
  end.

Definition valid_specialists : list string :=
  ["architect"; "intelligence"; "integrator"; "validator"].

(** [route_tools] *)
Definition route_tools (state : AgentState) : string :=
  if existsb (String.eqb (active_specialist state)) valid_specialists
  then active_specialist state else "architect".

(** The four specialist phases and the fixed chain of the graph. *)
Inductive Phase : Type := ARCHITECT | INTELLIGENCE | INTEGRATOR | VALIDATOR.

Definition phase_name (p : Phase) : string :=
  match p with
  | ARCHITECT => "architect"
  | INTELLIGENCE => "intelligence"
  | INTEGRATOR => "integrator"
  | VALIDATOR => "validator"
  end.

(** The node a phase hands over to in [build_graph]. *)
Definition successor (p : Phase) : string :=
  match p with
  | ARCHITECT => "intelligence"
  | INTELLIGENCE => "integrator"
  | INTEGRATOR => "validator"
  | VALIDATOR => "reporter"
  end.

End Graph.

(* ===================================================================== *)
(** * [agent/tools/search.py] and [core/task_broker.py] *)
(* ===================================================================== *)

Module Broker.

(** [str.splitlines()] on ASCII text. *)
Definition is_linebreak (c : ascii) : bool :=
  let n := Py.ord c in
  ((10 <=? n)%nat && (n <=? 13)%nat) || ((28 <=? n)%nat && (n <=? 30)%nat).

Fixpoint splitlines_aux (s cur : string) (started : bool) : list string :=
  match s with
  | EmptyString => if started then [cur] else []
  | String c r =>
      if is_linebreak c then
        let r' :=
          match r with
          | String c2 r2 =>
              if ((Py.ord c =? 13)%nat && (Py.ord c2 =? 10)%nat) then r2 else r
          | EmptyString => r
          end in
        cur :: splitlines_aux r' EmptyString false
      else splitlines_aux r (cur ++ String c EmptyString) true
  end.

Definition splitlines (s : string) : list string := splitlines_aux s EmptyString false.

Section TaskBroker.

(** The file system under the repository root, as the search tools see
    it:
    - [load_ignore_patterns]: the lines [IgnoreHandler] reads from
      [config/system.ignore] and the repository's [.gitignore] when it is
      constructed; reading may raise;
    - [re_compile_error]: [Some] the text of the [re.error] when a
      pattern does not compile;
    - [grep_walk]: the walk of [execute_safe_grep], giving the matches
      recorded for each raw pattern and the number of files scanned;
    - [dir_error]: the message [execute_list_files] returns early when
      the directory is outside the root or does not exist;
    - [list_dir]: the text its [try] block returns, the listing or the
      message of the error caught there. *)
Variable load_ignore_patterns : string -> result (list string).
Variable re_compile_error : string -> option string.
Variable grep_walk :
  string -> list string -> list string -> (string -> list PyValue) * Z.
Variable dir_error : string -> string -> option string.
Variable list_dir : string -> string -> list string -> string.

(** [execute_list_files]: joining the root with anything but a [str]
    raises [TypeError]; the [IgnoreHandler] is built after the two early
    returns. *)
Definition execute_list_files (directory : PyValue) (root_path : string)
  : result string :=
  match directory with
  | PStr d =>
      match dir_error d root_path with
      | Some message => Ok message
      | None =>
          ignore_patterns ← load_ignore_patterns root_path;
          Ok (list_dir d root_path ignore_patterns)
      end
  | _ => Raise TypeError
  end.

(** The first loop of [execute_safe_grep]: the patterns that compile,
    and an error entry for each one that does not.  A pattern that is
    not a [str] has no [strip]. *)
Fixpoint compile_patterns (patterns : list PyValue)
  : result (list string * list PyValue) :=
  match patterns with
  | [] => Ok ([], [])
  | PStr p :: rest =>
      '(valid, errors) ← compile_patterns rest;
      if (0 <? String.length (Py.strip p))%nat then
        match re_compile_error p with
        | None => Ok (p :: valid, errors)
        | Some err =>
            Ok (valid,
                PDict [("pattern", PStr p); ("matches", PList []);
                       ("error", PStr err)] :: errors)
        end
      else Ok (valid, errors)
  | _ :: _ => Raise AttributeError
  end.

(** [execute_safe_grep]: a single [str] becomes a list of one pattern,
    the [IgnoreHandler] is built, then the patterns are iterated (a dict
    gives its keys; a value that is not iterable raises [TypeError]). *)
Definition execute_safe_grep (patterns : PyValue) (root_path : string)
  : result PyValue :=
  let patterns := match patterns with PStr p => PList [PStr p] | _ => patterns end in
  ignore_patterns ← load_ignore_patterns root_path;
  items ←
    match patterns with
    | PList l => Ok l
    | PDict d => Ok (map (fun kv => PStr (fst kv)) d)
    | _ => Raise TypeError
    end;
  '(valid_patterns, results) ← compile_patterns items;
  match valid_patterns with
  | [] =>
      Ok (PDict [("results", PList results); ("error", PStr "No valid patterns");
                 ("files_scanned", PInt 0)])
  | _ =>
      let '(matches_by_pattern, files_scanned) :=
        grep_walk root_path ignore_patterns valid_patterns in
      let found :=
        map (fun raw => PDict [("pattern", PStr raw);
                               ("matches", PList (matches_by_pattern raw));
                               ("error", PNone)]) valid_patterns in
      Ok (PDict [("results", PList (results ++ found)%list);
                 ("files_scanned", PInt files_scanned)])
  end.

(** [TaskBroker]: the root and the [SharedCache] store. *)
Record TaskBroker : Type := {
  repo_root : string;
  cache : gmap string PyValue
}.

(** [TaskBroker(repo_root=...)] *)
Definition new_broker (root : string) : TaskBroker :=
  {| repo_root := root; cache := ∅ |}.

(** [_task_key] *)
Definition _task_key (task_type : string) (payload : list (string * PyValue))
  : string :=
  let base :=
    Json.dumps (PDict [("type", PStr task_type); ("payload", PDict payload)]) in
  Md5.hexdigest base.

(** An entry into the execute branch of [submit]. *)
Inductive Execution : Type :=
| Executed (task_type : string) (payload : list (string * PyValue)).

(** The execute branch of [submit]. *)
Definition execute (b : TaskBroker) (task_type : string)
    (payload : list (string * PyValue)) : result PyValue :=
  if String.eqb task_type "grep" then
    let patterns := Dict.get_default payload "patterns" (PList []) in
    execute_safe_grep patterns (repo_root b)
  else if String.eqb task_type "list_files" then
    let directory := Dict.get_default payload "directory" (PStr ".") in
    raw_text ← execute_list_files directory (repo_root b);
    Ok (PDict [("files", PList (map PStr (splitlines raw_text)))])
  else Ok (PDict [("error", PStr ("Unknown task type: " ++ task_type))]).

(** [submit]: the result or the exception, the broker afterwards, and
    the executions made.  [if cached] is a truth test, so an entry
    holding a falsy value counts as a miss.  An exception leaves the
    cache as it was. *)
Definition submit (b : TaskBroker) (task_type : string)
    (payload : list (string * PyValue))
  : result PyValue * TaskBroker * list Execution :=
  let key := _task_key task_type payload in
  let cached := cache b !! key in
  if from_option truthy false cached then (Ok (default PNone cached), b, [])
  else
    match execute b task_type payload with
    | Ok result =>
        (Ok result,
         {| repo_root := repo_root b; cache := <[key := result]> (cache b) |},
         [Executed task_type payload])
    | Raise e => (Raise e, b, [Executed task_type payload])
    end.

End TaskBroker.

End Broker.

(* ===================================================================== *)
(** * [lambda_entrypoint.py] *)
(* ===================================================================== *)

Module Lambda.

(** One write of [update_scan_status] to the scan-state table. *)
Record StatusRecord : Type := {
  status : string;
  message : string;
  current_question : string
}.

(** [update_scan_status]: the write is appended to the history of the
    table. *)
Definition update_scan_status (table : list StatusRecord)
    (status message current_question : string) : list StatusRecord :=
  (table ++ [ {| status := status; message := message;
                 current_question := current_question |} ])%list.

(** What the stream of graph steps does next: it yields a state, seen
    at some number of seconds since the start, or an exception comes out
    of a node. *)
Inductive StepEvent : Type :=
| Yield (elapsed : Z) (step_messages : list Message)
| Raises (e : exn).

(** One scan request and what the world does with it. *)
Record Scan : Type := {
  repo_url : string;
  clone_ok : bool;
  setup : result unit;
  steps : list StepEvent
}.

Record Response : Type := {
  statusCode : Z;
  body_status : string
}.

Definition max_runtime : Z := 840.

(** The handlers of the [try] block of [handle_scan]. *)
Definition on_exception (table : list StatusRecord) (e : exn)
  : Response * list StatusRecord :=
  match e with
  | HumanInputNeeded question =>
      ({| statusCode := 202; body_status := "paused" |},
       update_scan_status table "PAUSED" "Waiting for user input" question)
  | _ =>
      ({| statusCode := 500; body_status := "error" |},
       update_scan_status table "FAILED" ("Error: " ++ Py.take 200 (exn_str e)) "")
  end.

(** The loop over [app.stream(...)] and what follows it. *)
Fixpoint stream_loop (table : list StatusRecord) (events : list StepEvent)
  : Response * list StatusRecord :=
  match events with
  | [] =>
      ({| statusCode := 200; body_status := "completed" |},
       update_scan_status table "COMPLETED" "Scan complete" "")
  | Raises e :: _ => on_exception table e
  | Yield elapsed step_messages :: rest =>
      if max_runtime <? elapsed then
        ({| statusCode := 202; body_status := "timeout_pause" |},
         update_scan_status table "PAUSED" "Timeout - will auto-resume" "")
      else
        match last step_messages with
        | Some last_msg =>
            let preview := Py.take 60 (content_of last_msg) in
            stream_loop (update_scan_status table "RUNNING" preview "") rest
        | None => stream_loop table rest
        end
  end.

(** [handle_scan] *)
Definition handle_scan (table : list StatusRecord) (scan : Scan)
  : Response * list StatusRecord :=
  if String.eqb (repo_url scan) "" then
    ({| statusCode := 400; body_status := "Missing repo_url" |}, table)
  else
    let table := update_scan_status table "RUNNING" "Cloning repository..." "" in
    if negb (clone_ok scan) then
      ({| statusCode := 500; body_status := "Clone failed" |},
       update_scan_status table "FAILED" "Failed to clone repository" "")
    else
      match setup scan with
      | Raise e => on_exception table e
      | Ok _ => stream_loop table (steps scan)
      end.

(** One resume request and what the world does with it. *)
Record Resume : Type := {
  scan_id : string;
  answer : string;
  repo_name : string;
  resume_repo_url : string;
  repo_dir_exists : bool;
  resume_clone_ok : bool;
  resume_setup : result unit;
  snapshot_found : bool;
  resume_steps : list StepEvent
}.

(** The handlers of the [try] block of [handle_resume]. *)
Definition on_resume_exception (table : list StatusRecord) (e : exn)
  : Response * list StatusRecord :=
  match e with
  | HumanInputNeeded question =>
      ({| statusCode := 202; body_status := "paused_again" |},
       update_scan_status table "PAUSED" "Paused again" question)
  | _ =>
      ({| statusCode := 500; body_status := "error" |},
       update_scan_status table "FAILED"
         ("Resume error: " ++ Py.take 200 (exn_str e)) "")
  end.

(** The loop over the resumed stream: no look at the clock here. *)
Fixpoint resume_loop (table : list StatusRecord) (events : list StepEvent)
  : Response * list StatusRecord :=
  match events with
  | [] =>
      ({| statusCode := 200; body_status := "resumed" |},
       update_scan_status table "COMPLETED" "Scan complete after resume" "")
  | Raises e :: _ => on_resume_exception table e
  | Yield _ step_messages :: rest =>
      match last step_messages with
      | Some last_msg =>
          let preview := Py.take 60 (content_of last_msg) in
          resume_loop (update_scan_status table "RUNNING" preview "") rest
      | None => resume_loop table rest
      end
  end.

(** [handle_resume] *)
Definition handle_resume (table : list StatusRecord) (req : Resume)
  : Response * list StatusRecord :=
  if String.eqb (scan_id req) "" || String.eqb (answer req) ""
     || String.eqb (repo_name req) "" then
    ({| statusCode := 400; body_status := "Missing scan_id, answer, or repo_name" |},
     table)
  else
    let table :=
      update_scan_status table "RUNNING"
        ("Resuming with answer: " ++ Py.take 50 (answer req) ++ "...") "" in
    if negb (repo_dir_exists req) && String.eqb (resume_repo_url req) "" then
      ({| statusCode := 400; body_status := "Cannot resume without repo_url" |}, table)
    else if negb (repo_dir_exists req) && negb (resume_clone_ok req) then
      ({| statusCode := 500; body_status := "Failed to restore repo for resume" |},
       table)
    else
      match resume_setup req with
      | Raise e => on_resume_exception table e
      | Ok _ =>
          if negb (snapshot_found req) then
            ({| statusCode := 404; body_status := "Scan state not found" |}, table)
          else resume_loop table (resume_steps req)
      end.

(** The status names of the checkpoint record as the specification
    lists them. *)
Definition spec_statuses : list string :=
  ["RUNNING"; "PAUSED_HUMAN"; "PAUSED_TIMEOUT"; "COMPLETED"; "FAILED"].

(** The status names the handlers write. *)
Definition code_statuses : list string :=
  ["RUNNING"; "PAUSED"; "COMPLETED"; "FAILED"].

End Lambda.

(* ===================================================================== *)
(** * Notions used in the statements *)
(* ===================================================================== *)

Module Notions.
Import Schema Specialists Graph Lambda.

(** A merge of a node's update into the state that leaves the retry
    counter as it is when the update does not carry the key.  The merge
    is made by the graph library from the declarations of
    [agent/state.py], neither of which is among the sources; this is the
    one rule about it that a statement below assumes. *)
Definition keeps_absent_counter (merge : AgentState -> Update -> AgentState) : Prop :=
  forall st u,
    u_fuzzy_parse_count u = None ->
    fuzzy_parse_count (merge st u) = fuzzy_parse_count st.

(** The names the router reads as completion signals. *)
Definition is_signal (name : string) : bool :=
  String.eqb name "complete_phase" || String.eqb name "complete_validation"
  || String.eqb name "emergency_exit".

Definition no_signal (tcs : list ToolCall) : bool :=
  forallb (fun tc => negb (is_signal (tc_name tc))) tcs.

(** A result a structured tier can return: the conversion of a decoded
    action, or a re-raised instance of [ValueError]. *)
Definition structured_result (env : Env) (role : string) (r : result Update) : Prop :=
  (exists action, r = Ok (_convert_action_to_message (uuid4 env) action role))
  \/ (exists e, r = Raise e /\ is_ValueError e = true).

(** Two values are the same up to the insertion order of the dicts inside
    them.  A dict has each key once; two dicts are the same map when every
    item of one has an item of the other with its key and the same value.
    Scalars are compared with their type: [True] is not [1], and [1] is
    not [1.0].  This is narrower than Python's [==], see [py_eq]. *)
#[warnings="-register-all"]
Inductive py_equiv : PyValue -> PyValue -> Prop :=
| equiv_none : py_equiv PNone PNone
| equiv_bool (b : bool) : py_equiv (PBool b) (PBool b)
| equiv_int (z : Z) : py_equiv (PInt z) (PInt z)
| equiv_float (r : string) : py_equiv (PFloat r) (PFloat r)
| equiv_str (s : string) : py_equiv (PStr s) (PStr s)
| equiv_list (l1 l2 : list PyValue) :
    Forall2 py_equiv l1 l2 -> py_equiv (PList l1) (PList l2)
| equiv_dict (d1 d2 : list (string * PyValue)) :
    List.NoDup (map fst d1) -> List.NoDup (map fst d2) ->
    (forall k v1, In (k, v1) d1 -> exists v2, In (k, v2) d2 /\ py_equiv v1 v2) ->
    (forall k v2, In (k, v2) d2 -> exists v1, In (k, v1) d1 /\ py_equiv v1 v2) ->
    py_equiv (PDict d1) (PDict d2).

(** Values that Python's [==] holds equal, as far as [None], booleans,
    integers, strings, lists and dicts go: a boolean equals the integer 0
    or 1 it stands for, lists are compared item by item, dicts as maps.
    Floats are left out; every pair related here is equal in Python. *)
#[warnings="-register-all"]
Inductive py_eq : PyValue -> PyValue -> Prop :=
| eq_none : py_eq PNone PNone
| eq_bool (b : bool) : py_eq (PBool b) (PBool b)
| eq_int (z : Z) : py_eq (PInt z) (PInt z)
| eq_bool_int (b : bool) : py_eq (PBool b) (PInt (Z.b2z b))
| eq_int_bool (b : bool) : py_eq (PInt (Z.b2z b)) (PBool b)
| eq_str (s : string) : py_eq (PStr s) (PStr s)
| eq_list (l1 l2 : list PyValue) :
    Forall2 py_eq l1 l2 -> py_eq (PList l1) (PList l2)
| eq_dict (d1 d2 : list (string * PyValue)) :
    List.NoDup (map fst d1) -> List.NoDup (map fst d2) ->
    (forall k v1, In (k, v1) d1 -> exists v2, In (k, v2) d2 /\ py_eq v1 v2) ->
    (forall k v2, In (k, v2) d2 -> exists v1, In (k, v1) d1 /\ py_eq v1 v2) ->
    py_eq (PDict d1) (PDict d2).

(** An item of a dict with its value serialised. *)
Definition encode_item (kv : string * PyValue) : string * string :=
  (fst kv, Json.dumps (snd kv)).

(** The record carries one of the status names the handlers write. *)
Definition writes_code_status (r : StatusRecord) : Prop :=
  In (status r) code_statuses.

End Notions.

(* ===================================================================== *)
(** * Concrete states, replies, payloads and runs *)
(* ===================================================================== *)

Module Inputs.
Import Schema Specialists Graph Broker Lambda.

(** The architect is active and the log ends with two turns without
    tool calls after a tool result: three trailing messages without tool
    calls. *)
Definition architect_three_idle : AgentState :=
  {| messages :=
       [HumanMessage "Analyse the repository.";
        AIMessage "Searching."
          [ {| tc_name := "grep_codebase";
               tc_args := [("patterns", PList [PStr "docker"])];
               tc_id := "call-1" |} ];
        ToolMessage "Dockerfile:1: FROM python" "call-1";
        AIMessage "Thinking about compute." [];
        AIMessage "Thinking about storage." []];
     active_specialist := "architect";
     fuzzy_parse_count := 0;
     ledger := PDict [];
     structure_map := "";
     verbose := false |}.

(** The integrator is active and the log ends with five turns without
    tool calls after a tool result that holds the word of a completion
    marker. *)
Definition integrator_six_idle : AgentState :=
  {| messages :=
       [HumanMessage "Analyse the repository.";
        AIMessage "Reading."
          [ {| tc_name := "read_file";
               tc_args := [("file_path", PStr "app/billing.py")];
               tc_id := "call-2" |} ];
        ToolMessage "import stripe" "call-2";
        AIMessage "PHASE_COMPLETE: nothing else." [];
        AIMessage "Thinking." [];
        AIMessage "Thinking." [];
        AIMessage "Thinking." [];
        AIMessage "Still thinking about complete_phase." []];
     active_specialist := "integrator";
     fuzzy_parse_count := 0;
     ledger := PDict [];
     structure_map := "";
     verbose := false |}.

(** The validator's last message calls a tool and then signals
    completion. *)
Definition validator_finishing : AgentState :=
  {| messages :=
       [HumanMessage "Analyse the repository.";
        AIMessage "Checked the prices."
          [ {| tc_name := "check_price_knowledge";
               tc_args := [("metric", PStr "tokens")];
               tc_id := "call-7" |};
            {| tc_name := "complete_phase";
               tc_args := [("summary", PStr "All volumes known.")];
               tc_id := "call-8" |} ]];
     active_specialist := "validator";
     fuzzy_parse_count := 0;
     ledger := PDict [];
     structure_map := "";
     verbose := false |}.

(** A reply that is a JSON object naming a tool that does not exist. *)
Definition hallucinated_call_text : string :=
  "{" ++ Json.quote "thought" ++ ": " ++ Json.quote "I will wipe the cache with drop_tables"
  ++ ", " ++ Json.quote "action_type" ++ ": " ++ Json.quote "call_tool"
  ++ ", " ++ Json.quote "tool_name" ++ ": " ++ Json.quote "drop_tables"
  ++ ", " ++ Json.quote "tool_args" ++ ": {}}".

(** The example text, and the same sentence ending in [patterns]. *)
Definition search_configuration_text : string :=
  "I will search for docker and s3 configuration".

Definition search_patterns_text : string :=
  "I will search for docker and s3 patterns".

(** A process with an API key and without the [outlines] library, whose
    model answers the structured request as [structured] says and the raw
    request with [raw]. *)
Definition env_without_outlines
    (structured : nat -> list Message -> result (option (list (string * PyValue))))
    (raw : result RawContent) : Env :=
  {| GOOGLE_API_KEY := Some "test-api-key";
     client_model_name := None;
     model_dump_json := fun _ => "{}";
     str_format := fun template ledger_dump last_summary structure_map =>
                     template ++ ledger_dump ++ last_summary ++ structure_map;
     outlines_generate := fun _ _ => Raise (ImportError "No module named 'outlines'");
     with_structured_output_invoke := structured;
     invoke := fun _ => raw;
     uuid4 := "3f2b8c1e-0000-4000-8000-000000000001" |}.

(** A state at the start of the architect phase with a given retry
    counter. *)
Definition state_with_count (n : Z) : AgentState :=
  {| messages := [HumanMessage "Analyse the repository."];
     active_specialist := "architect";
     fuzzy_parse_count := n;
     ledger := PDict [];
     structure_map := "src/";
     verbose := false |}.

(** The model answers the first structured request with a valid search
    action. *)
Definition env_structured_success : Env :=
  env_without_outlines
    (fun _ _ =>
       Ok (Some [("thought", PStr "Look for container definitions.");
                 ("action_type", PStr "call_tool");
                 ("tool_name", PStr "grep_codebase");
                 ("tool_args", PDict [("patterns", PList [PStr "docker"])])]))
    (Raise (OtherException "unused")).

(** The model answers the first structured request with a tool call that
    lacks its tool name, which the schema rejects. *)
Definition env_schema_violation : Env :=
  env_without_outlines
    (fun _ _ =>
       Ok (Some [("thought", PStr "Look for container definitions.");
                 ("action_type", PStr "call_tool")]))
    (Raise (OtherException "unused")).

(** The update tier 2 returns in [env_structured_success]. *)
Definition structured_success_update : Update :=
  {| u_messages :=
       [AIMessage "Look for container definitions."
          [ {| tc_name := "grep_codebase";
               tc_args := [("patterns", PList [PStr "docker"])];
               tc_id := "3f2b8c1e-0000-4000-8000-000000000001" |} ]];
     u_active_specialist := "architect";
     u_fuzzy_parse_count := None |}.

(** A repository without files: the ignore files are read, every pattern
    compiles, nothing matches. *)
Definition readable_ignore (root : string) : result (list string) := Ok [].
Definition no_compile_error (pattern : string) : option string := None.
Definition empty_walk (root : string) (ignore_patterns patterns : list string)
  : (string -> list PyValue) * Z := (fun _ => [], 0).
Definition no_dir_error (directory root : string) : option string := None.
Definition empty_listing (directory root : string) (ignore_patterns : list string)
  : string :=
  "Contents of " ++ directory ++ ":" ++ Py.nl.



(** [submit] over that repository. *)
Definition submit_empty_repo :=
  submit readable_ignore no_compile_error empty_walk no_dir_error empty_listing.

(** One payload written with its keys in two orders. *)
Definition grep_docker_payload : list (string * PyValue) :=
  [("patterns", PList [PStr "docker"]); ("root_path", PStr ".")].

Definition grep_docker_payload_reordered : list (string * PyValue) :=
  [("root_path", PStr "."); ("patterns", PList [PStr "docker"])].

(** Two payloads that Python holds equal ([1 == True]) and that differ in
    the type of one value. *)
Definition list_depth_int_payload : list (string * PyValue) :=
  [("directory", PStr "."); ("depth", PInt 1)].

Definition list_depth_bool_payload : list (string * PyValue) :=
  [("directory", PStr "."); ("depth", PBool true)].

(** What the search for [docker] returns there, and the broker that has
    cached it. *)
Definition grep_docker_result : PyValue :=
  PDict [("results",
          PList [PDict [("pattern", PStr "docker"); ("matches", PList []);
                        ("error", PNone)]]);
         ("files_scanned", PInt 0)].

Definition broker_after_grep : TaskBroker :=
  {| repo_root := ".";
     cache := <[_task_key "grep" grep_docker_payload := grep_docker_result]> ∅ |}.


(** A scan during which the validator asks for the monthly budget. *)
Definition scan_with_question : Scan :=
  {| repo_url := "https://github.com/acme/shop";
     clone_ok := true;
     setup := Ok tt;
     steps :=
       [Yield 12 [AIMessage "Architect: searching." []];
        Raises (HumanInputNeeded "What is the monthly API budget?")] |}.

(** A scan that is still running after the run-time limit. *)
Definition scan_past_deadline : Scan :=
  {| repo_url := "https://github.com/acme/shop";
     clone_ok := true;
     setup := Ok tt;
     steps :=
       [Yield 12 [AIMessage "Architect: searching." []];
        Yield 841 [AIMessage "Intelligence: tracing." []]] |}.

(** The answer to the question comes back. *)
Definition resume_with_answer : Resume :=
  {| scan_id := "scan-42";
     answer := "2000 USD";
     repo_name := "shop";
     resume_repo_url := "https://github.com/acme/shop";
     repo_dir_exists := true;
     resume_clone_ok := true;
     resume_setup := Ok tt;
     snapshot_found := true;
     resume_steps := [Yield 3 [AIMessage "Validator: done." []]] |}.

End Inputs.

(* ===================================================================== *)
(** * The edges of the workflow ([build_graph]) *)
(* ===================================================================== *)

Module Workflow.
Import Graph.

(** The keys of the mapping [build_graph] gives [add_conditional_edges]
    for the node of a specialist phase: the node itself, the tool node,
    and the next node. *)
Definition conditional_edges (p : Phase) : list string :=
  match p with
  | ARCHITECT => ["architect"; "tools"; "intelligence"]
  | INTELLIGENCE => ["intelligence"; "tools"; "integrator"]
  | INTEGRATOR => ["integrator"; "tools"; "validator"]
  | VALIDATOR => ["validator"; "tools"; "reporter"]
  end.

End Workflow.

(* ===================================================================== *)
(** * [os.path] on a POSIX system *)
(* ===================================================================== *)

Module Path.

(** [s.split("/")] *)
Fixpoint split (s : string) : list string :=
  match s with
  | EmptyString => [EmptyString]
  | String c r =>
      if Ascii.eqb c "/" then EmptyString :: split r
      else
        match split r with
        | x :: xs => String c x :: xs
        | [] => [String c EmptyString]
        end
  end.

(** [os.path.join(a, b)] *)
Definition join (a b : string) : string :=
  if Py.startswith b "/" then b
  else if String.eqb a "" || Py.endswith a "/" then a ++ b
  else a ++ "/" ++ b.

(** [os.path.join(x, *xs)] *)
Definition join_all (x : string) (xs : list string) : string :=
  fold_left join xs x.

(** One or two leading slashes are kept, three or more count as one. *)
Definition initial_slashes (path : string) : nat :=
  if Py.startswith path "/" then
    if Py.startswith path "//" && negb (Py.startswith path "///") then 2%nat
    else 1%nat
  else 0%nat.

(** The body of the loop of [os.path.normpath] over the components. *)
Definition norm_step (initial : nat) (new_comps : list string) (comp : string)
  : list string :=
  if String.eqb comp "" || String.eqb comp "." then new_comps
  else if negb (String.eqb comp "..")
          || ((initial =? 0)%nat && match new_comps with [] => true | _ => false end)
          || match last new_comps with
             | Some top => String.eqb top ".."
             | None => false
             end
  then (new_comps ++ [comp])%list
  else removelast new_comps.

Fixpoint slashes (n : nat) : string :=
  match n with
  | O => EmptyString
  | S n' => String "/" (slashes n')
  end.

(** [os.path.normpath(path)] *)
Definition normpath (path : string) : string :=
  if String.eqb path "" then "."
  else
    let initial := initial_slashes path in
    let comps := fold_left (norm_step initial) (split path) [] in
    let path := slashes initial ++ Py.join "/" comps in
    if String.eqb path "" then "." else path.

(** [os.path.abspath(path)] in a process whose working directory is
    [cwd]. *)
Definition abspath (cwd path : string) : string :=
  if Py.startswith path "/" then normpath path else normpath (join cwd path).

Definition nonempty (s : string) : bool := negb (String.eqb s "").

(** The length of the longest common prefix of two lists of
    components. *)
Fixpoint common_prefix_len (a b : list string) : nat :=
  match a, b with
  | x :: a', y :: b' => if String.eqb x y then S (common_prefix_len a' b') else O
  | _, _ => O
  end.

(** [os.path.relpath(path, start)] *)
Definition relpath (cwd path start : string) : result string :=
  if String.eqb path "" then Raise (ValueError "no path specified")
  else
    let start_list := List.filter nonempty (split (abspath cwd start)) in
    let path_list := List.filter nonempty (split (abspath cwd path)) in
    let i := common_prefix_len start_list path_list in
    let rel_list := (repeat ".." (length start_list - i) ++ skipn i path_list)%list in
    match rel_list with
    | [] => Ok "."
    | x :: xs => Ok (join_all x xs)
    end.

(** [os.path.basename(p)]: the text after the last slash. *)
Definition basename (p : string) : string := default "" (last (split p)).

(** The part of [s] from its last dot on. *)
Fixpoint from_last_dot (s : string) : option string :=
  match s with
  | EmptyString => None
  | String c r =>
      match from_last_dot r with
      | Some e => Some e
      | None => if Ascii.eqb c "." then Some s else None
      end
  end.

(** [os.path.splitext(p)[1]]: the last dot of the base name and what
    follows it, unless only dots precede that dot. *)
Definition splitext_ext (p : string) : string :=
  let name := basename p in
  match from_last_dot name with
  | Some ext =>
      let stem := Py.take (String.length name - String.length ext) name in
      if existsb (fun c => negb (Ascii.eqb c ".")) (list_ascii_of_string stem)
      then ext else ""
  | None => ""
  end.

End Path.

(* ===================================================================== *)
(** * [core/ignore_handler.py] and the checks of the file tools *)
(* ===================================================================== *)

Module Ignore.

Definition DEFAULT_DIR_IGNORE : list string :=
  [".git"; "node_modules"; "venv"; "__pycache__"; ".pytest_cache";
   "build"; "dist"; ".aws-sam"; ".serverless"; ".terraform";
   "cdk.out"; "target"; "vendor";
   "tmp"; "temp"; "logs"].

Definition DEFAULT_FILE_EXT_IGNORE : list string :=
  [".zip"; ".tar"; ".gz"; ".rar"; ".7z"; ".iso"; ".dmg"; ".exe"; ".msi";
   ".png"; ".jpg"; ".jpeg"; ".gif"; ".bmp"; ".svg"; ".ico";
   ".mp3"; ".mp4"; ".avi"; ".mov"; ".wav";
   ".pdf"; ".doc"; ".docx"; ".xls"; ".xlsx"; ".ppt"; ".pptx";
   ".db"; ".sqlite"; ".sqlite3";
   ".min.js"; ".bundle.js"; ".js.map"; ".css.map";
   ".o"; ".so"; ".dll"; ".bin"; ".class"; ".pyc"].

(** The first rule of [is_ignored], on the path relative to the root. *)
Definition in_ignored_dir (rel_path : string) : bool :=
  existsb
    (fun ignore_dir =>
       String.eqb rel_path ignore_dir
       || Py.startswith rel_path (ignore_dir ++ "/")
       || Py.contains rel_path ("/" ++ ignore_dir ++ "/"))
    DEFAULT_DIR_IGNORE.

(** The second rule. *)
Definition has_ignored_ext (rel_path : string) : bool :=
  let ext := Py.lower (Path.splitext_ext rel_path) in
  existsb (String.eqb ext) DEFAULT_FILE_EXT_IGNORE.

Section IgnoreHandler.

(** [cwd]: the working directory of the process; [fnmatch]:
    [fnmatch.fnmatch(name, pattern)]; [isdir]: [os.path.isdir]. *)
Variable cwd : string.
Variable fnmatch : string -> string -> bool.
Variable isdir : string -> bool.

(** [IgnoreHandler.is_ignored]; [root_path] and [ignore_patterns] are the
    fields of the handler: the absolute root the constructor stored and
    the patterns it loaded. *)
Definition is_ignored (root_path : string) (ignore_patterns : list string)
    (file_path : string) : result bool :=
  let abs_file_path := Path.abspath cwd (Path.join root_path file_path) in
  rel_path ← Path.relpath cwd abs_file_path root_path;
  if in_ignored_dir rel_path then Ok true
  else if has_ignored_ext rel_path then Ok true
  else
    let name := Path.basename file_path in
    Ok (existsb
          (fun pattern =>
             if Py.endswith pattern "/" then
               isdir abs_file_path
               && (fnmatch name (Py.drop_end 1 pattern)
                   || fnmatch rel_path (Py.drop_end 1 pattern))
             else fnmatch name pattern || fnmatch rel_path pattern)
          ignore_patterns).

End IgnoreHandler.

(** The security check of [execute_list_files] (and, with the file in
    place of the directory, of [read_file_safe]): the target must start
    with the absolute root. *)
Definition target_of (cwd root_path directory : string) : string :=
  Path.abspath cwd (Path.join (Path.abspath cwd root_path) directory).

Definition access_denied (cwd root_path directory : string) : bool :=
  negb (Py.startswith (target_of cwd root_path directory)
          (Path.abspath cwd root_path)).

End Ignore.

(* ===================================================================== *)
(** * [core/task_broker.py]: the memory of listed directories *)
(* ===================================================================== *)

Module Visited.

(** The fields of [TaskBroker] that [is_dir_visited] and
    [mark_dir_visited] use. *)
Record Bouncer : Type := {
  repo_root : string;
  visited_dirs : gset string
}.

(** [TaskBroker(repo_root=...)] in a process whose working directory is
    [cwd]. *)
Definition new_bouncer (cwd repo_root : string) : Bouncer :=
  {| repo_root := Path.abspath cwd repo_root; visited_dirs := ∅ |}.

Definition rel_path_of (cwd : string) (b : Bouncer) (path : string) : result string :=
  let abs_path := Path.abspath cwd (Path.join (repo_root b) path) in
  Path.relpath cwd abs_path (repo_root b).

(** [is_dir_visited]; a [ValueError] gives [False]. *)
Definition is_dir_visited (cwd : string) (b : Bouncer) (path : string) : bool :=
  match rel_path_of cwd b path with
  | Ok rel_path => bool_decide (rel_path ∈ visited_dirs b)
  | Raise _ => false
  end.

(** [mark_dir_visited]; a [ValueError] is passed over. *)
Definition mark_dir_visited (cwd : string) (b : Bouncer) (path : string) : Bouncer :=
  match rel_path_of cwd b path with
  | Ok rel_path =>
      {| repo_root := repo_root b; visited_dirs := {[rel_path]} ∪ visited_dirs b |}
  | Raise _ => b
  end.

End Visited.

(* ===================================================================== *)
(** * [lambda_entrypoint.py]: names, records and answers *)
(* ===================================================================== *)

Module Entry.
Import Lambda.

(** ** The name of the repository

    [re.search(r'/([^/]+?)(\.git)?$', repo_url)] and the clean-up
    [re.sub(r'[^a-zA-Z0-9\-_]', '', repo_name)]. *)

(** [$] without [re.MULTILINE]: the end of the text, or the place before
    a line feed that ends the text. *)
Definition at_end (s : string) : bool :=
  String.eqb s "" || String.eqb s Py.nl.

(** [(\.git)?$] at the head of [s]: the suffix is tried first, then
    nothing. *)
Definition suffix_then_end (s : string) : bool :=
  (Py.startswith s ".git" && at_end (Py.drop 4 s)) || at_end s.

(** [([^/]+?)(\.git)?$] at the head of [s]: the group takes one
    character that is not a slash and grows one character at a time until
    the rest of the pattern fits. *)
Fixpoint lazy_group (s : string) : option string :=
  match s with
  | EmptyString => None
  | String c r =>
      if Ascii.eqb c "/" then None
      else if suffix_then_end r then Some (String c EmptyString)
      else
        match lazy_group r with
        | Some g => Some (String c g)
        | None => None
        end
  end.

(** [re.search]: the leftmost slash from which the pattern fits; the
    result is group 1. *)
Fixpoint search_repo_name (s : string) : option string :=
  match s with
  | EmptyString => None
  | String c r =>
      if Ascii.eqb c "/" then
        match lazy_group r with
        | Some g => Some g
        | None => search_repo_name r
        end
      else search_repo_name r
  end.

Definition is_name_char (c : ascii) : bool :=
  Py.is_lower c || Py.is_upper c || Py.is_digit c
  || Ascii.eqb c "-" || Ascii.eqb c "_".

(** [re.sub(r'[^a-zA-Z0-9\-_]', '', name)] *)
Fixpoint keep_name_chars (s : string) : string :=
  match s with
  | EmptyString => EmptyString
  | String c r =>
      if is_name_char c then String c (keep_name_chars r) else keep_name_chars r
  end.

(** The [repo_name] of [handle_scan] (and of [LocalRunner.run_scan]). *)
Definition repo_name_of (repo_url : string) : string :=
  let repo_name :=
    match search_repo_name repo_url with
    | Some group1 => group1
    | None => "unknown_repo"
    end in
  keep_name_chars repo_name.

(** ** The record of a scan in the table

    [update_scan_status] always sets [status] and [message]; it sets
    [current_question] only when the question is not empty, so [SET]
    leaves the attribute of the stored item as it was otherwise. *)
Record Item : Type := {
  item_status : string;
  item_message : string;
  item_current_question : option string
}.

Definition write_item (item : option Item) (w : StatusRecord) : option Item :=
  Some {| item_status := status w;
          item_message := message w;
          item_current_question :=
            if String.eqb (current_question w) ""
            then match item with
                 | Some old => item_current_question old
                 | None => None
                 end
            else Some (current_question w) |}.

(** The item after the writes of a history, oldest first. *)
Definition item_after (table : list StatusRecord) : option Item :=
  fold_left write_item table None.

(** ** The answer put into a paused run ([handle_resume]) *)

(** The loop over [last_message.tool_calls]: [tool_call_id] takes the
    id of a call of [ask_human] or [ask_human_lambda]; the loop stops at
    the first such call whose id is not empty.  A missing id is the empty
    string here. *)
Fixpoint ask_human_call_id (tool_calls : list ToolCall) (tool_call_id : option string)
  : option string :=
  match tool_calls with
  | [] => tool_call_id
  | tc :: rest =>
      if String.eqb (tc_name tc) "ask_human"
         || String.eqb (tc_name tc) "ask_human_lambda" then
        if String.eqb (tc_id tc) "" then ask_human_call_id rest (Some (tc_id tc))
        else Some (tc_id tc)
      else ask_human_call_id rest tool_call_id
  end.

(** The message given to [app.update_state], and whether it is written
    [as_node="tools"]. *)
Definition answer_message (last_message : Message) (answer : string)
  : Message * bool :=
  let fallback :=
    (HumanMessage ("Here is the answer to your question: " ++ answer), false) in
  if no_tool_calls last_message then fallback
  else
    match ask_human_call_id (tool_calls_of last_message) None with
    | Some tool_call_id =>
        if String.eqb tool_call_id "" then fallback
        else (ToolMessage ("User Answer: " ++ answer) tool_call_id, true)
    | None => fallback
    end.

(** The same step in [LocalRunner.run_scan]: the id of the first tool
    call, whatever its name. *)
Definition local_answer_message (last_message : Message) (resume_answer : string)
  : Message * bool :=
  match tool_calls_of last_message with
  | tc :: _ => (ToolMessage ("User Answer: " ++ resume_answer) (tc_id tc), true)
  | [] => (HumanMessage ("Answer: " ++ resume_answer), false)
  end.

End Entry.

(* ===================================================================== *)
(** * [core/pricing.py]: the lookup of a price *)
(* ===================================================================== *)

Module Pricing.

(** [s.replace(old, new)] for two single characters. *)
Fixpoint replace_char (old new : ascii) (s : string) : string :=
  match s with
  | EmptyString => EmptyString
  | String c r =>
      String (if Ascii.eqb c old then new else c) (replace_char old new r)
  end.

(** [metric.lower().replace(" ", "-").replace("_", "-")] *)
Definition normalize (metric : string) : string :=
  replace_char "_" "-" (replace_char " " "-" (Py.lower metric)).

Definition generic_keys : list string :=
  ["tokens"; "gb-month"; "invocations"; "hours"].

(** [for key, data in pricing_cache.items(): if test(key): return data] *)
Fixpoint first_match {V} (test : string -> bool) (pricing_cache : list (string * V))
  : option V :=
  match pricing_cache with
  | [] => None
  | (key, data) :: rest => if test key then Some data else first_match test rest
  end.

(** [fuzzy_match_metric], over the pricing cache that
    [_load_pricing_from_kb] returns: a dict from metric keys to entries,
    in insertion order. *)
Definition fuzzy_match_metric {V} (pricing_cache : list (string * V))
    (metric : string) : option V :=
  let normalized := normalize metric in
  match Dict.get pricing_cache normalized with
  | Some data => Some data
  | None =>
      match first_match (fun key => Py.contains key normalized) pricing_cache with
      | Some data => Some data
      | None =>
          match first_match (fun key => Py.contains normalized key) pricing_cache with
          | Some data => Some data
          | None =>
              match List.filter
                      (fun generic => Py.contains normalized generic
                                      && Dict.mem pricing_cache generic)
                      generic_keys with
              | generic :: _ => Dict.get pricing_cache generic
              | [] => None
              end
          end
      end
  end.

End Pricing.

(* ===================================================================== *)
(** * Notions used in the further statements *)
(* ===================================================================== *)

Module Shapes.
Import Schema Specialists Graph.

(** What an action holds once the schema has accepted it: a tool call
    names its tool and carries an argument dict, a search carries a
    non-empty list of patterns, a question and a summary are not empty. *)
Definition well_formed (a : AgentAction) : Prop :=
  match action_type a with
  | call_tool =>
      (exists name, tool_name a = Some name /\ name <> "")
      /\ exists args,
          tool_args a = Some args
          /\ (tool_name a = Some "grep_codebase" ->
              exists p ps, Dict.get args "patterns" = Some (PList (p :: ps)))
  | ask_human => exists q, human_question a = Some q /\ q <> ""
  | finish_phase => exists s, phase_summary a = Some s /\ s <> ""
  end.

(** An update that appends one assistant message carrying exactly one
    tool call, with the given id, and names the role as the active
    specialist. *)
Definition single_tool_call (id role : string) (u : Update) : Prop :=
  u_active_specialist u = role
  /\ exists content tc, u_messages u = [AIMessage content [tc]] /\ tc_id tc = id.

(** The message is a [HumanMessage]. *)
Definition is_human (m : Message) : bool :=
  match m with HumanMessage _ => true | _ => false end.

(** Every character of the text is one a repository name may hold:
    a letter, a digit, a hyphen or an underscore. *)
Definition name_chars_only (s : string) : bool :=
  forallb Entry.is_name_char (list_ascii_of_string s).

(** The tool call asks the human. *)
Definition asks_human (tc : ToolCall) : bool :=
  String.eqb (tc_name tc) "ask_human" || String.eqb (tc_name tc) "ask_human_lambda".

(** The text holds no slash. *)
Definition no_slash (s : string) : bool :=
  forallb (fun c => negb (Ascii.eqb c "/")) (list_ascii_of_string s).

(** A component that names a file or a directory: not empty, without a
    slash, and neither [.] nor [..]. *)
Definition plain (s : string) : bool :=
  no_slash s && negb (String.eqb s "") && negb (String.eqb s ".")
  && negb (String.eqb s "..").

(** The number of dots of a text. *)
Fixpoint dots (s : string) : nat :=
  match s with
  | EmptyString => 0%nat
  | String c r => ((if Ascii.eqb c "." then 1 else 0) + dots r)%nat
  end.

(** A text that holds a slash. *)
Fixpoint has_slash (s : string) : bool :=
  match s with
  | EmptyString => false
  | String c r => Ascii.eqb c "/" || has_slash r
  end.

(** An absolute path written with its components. *)
Definition rooted (rs : list string) : string := String "/" (Py.join "/" rs).


(** The question on the item of a scan after a history of writes. *)
Definition question_of (table : list Lambda.StatusRecord) : option string :=
  match Entry.item_after table with
  | Some item => Entry.item_current_question item
  | None => None
  end.

(** The two signals that send every phase to the reporter. *)
Definition is_exit_signal (name : string) : bool :=
  String.eqb name "complete_validation" || String.eqb name "emergency_exit".

(** The broker after a list of requests has been submitted in order,
    whatever each of them returned. *)
Fixpoint after_requests
    (load_ignore_patterns : string -> result (list string))
    (re_compile_error : string -> option string)
    (grep_walk : string -> list string -> list string -> (string -> list PyValue) * Z)
    (dir_error : string -> string -> option string)
    (list_dir : string -> string -> list string -> string)
    (requests : list (string * list (string * PyValue)))
    (b : Broker.TaskBroker) : Broker.TaskBroker :=
  match requests with
  | [] => b
  | (task_type, payload) :: rest =>
      after_requests load_ignore_patterns re_compile_error grep_walk dir_error
        list_dir rest
        (snd (fst (Broker.submit load_ignore_patterns re_compile_error grep_walk
                     dir_error list_dir b task_type payload)))
  end.

End Shapes.

(* ===================================================================== *)
(** * Further concrete inputs *)
(* ===================================================================== *)

Module Cases.
Import Schema Specialists Graph Inputs.

(** A process with an API key whose model side is down: the structured
    request and the raw request both time out. *)
Definition env_model_down : Env :=
  env_without_outlines
    (fun _ _ => Raise (OtherException "504 Deadline Exceeded"))
    (Raise (OtherException "504 Deadline Exceeded")).

(** A reply that is a JSON object whose thought is a number. *)
Definition numeric_thought_text : string :=
  "{" ++ Json.quote "thought" ++ ": 5}".

(** A reply of four nested lists. *)
Definition nested_list_text : string := "[[[[1]]]]".

(** The architect's last message calls [complete_validation], a tool
    registered for every specialist. *)
Definition architect_calls_complete_validation : AgentState :=
  {| messages :=
       [HumanMessage "Analyse the repository.";
        AIMessage "Nothing left to check."
          [ {| tc_name := "complete_validation"; tc_args := []; tc_id := "call-3" |} ]];
     active_specialist := "architect";
     fuzzy_parse_count := 0;
     ledger := PDict [];
     structure_map := "";
     verbose := false |}.

(** Two logs that differ only before their last ten messages. *)
Definition ten_idle_turns : list Message :=
  repeat (AIMessage "Thinking." []) 10.

Definition long_log (older : list Message) : AgentState :=
  {| messages := (older ++ ten_idle_turns)%list;
     active_specialist := "integrator";
     fuzzy_parse_count := 0;
     ledger := PDict [];
     structure_map := "";
     verbose := false |}.

(** The repository after a container definition was added: the search
    for [docker] now has a match. *)
Definition walk_with_dockerfile (root : string) (ignore_patterns patterns : list string)
  : (string -> list PyValue) * Z :=
  (fun _ => [PDict [("file", PStr "Dockerfile"); ("lineno", PInt 1);
                    ("snippet", PStr "FROM python:3.12")]], 1).

(** A resume request whose checkpoint holds no state. *)
Definition resume_without_snapshot : Lambda.Resume :=
  {| Lambda.scan_id := "scan-42";
     Lambda.answer := "2000 USD";
     Lambda.repo_name := "shop";
     Lambda.resume_repo_url := "https://github.com/acme/shop";
     Lambda.repo_dir_exists := true;
     Lambda.resume_clone_ok := true;
     Lambda.resume_setup := Ok tt;
     Lambda.snapshot_found := false;
     Lambda.resume_steps := [] |}.

End Cases.

(* ===================================================================== *)
(** * Properties of the router *)
(* ===================================================================== *)

Module GraphFacts.
Import Graph Notions Inputs.

Lemma count_non_tool_le (l : list Message) : (count_non_tool l <= length l)%nat.
Proof.
  induction l as [|m l IH]; simpl; [lia|].
  destruct (no_tool_calls m); simpl; lia.
Qed.

Lemma count_non_tool_firstn (n : nat) (l : list Message) :
  count_non_tool (firstn n l) = Nat.min n (count_non_tool l).
Proof.
  revert n. induction l as [|m l IH]; intros [|n]; simpl; try reflexivity.
  destruct (no_tool_calls m); simpl; [now rewrite IH | reflexivity].
Qed.

Lemma rev_last_messages (n : nat) (ms : list Message) :
  rev (last_messages n ms) = firstn n (rev ms).
Proof.
  unfold last_messages.
  destruct (Nat.le_gt_cases (length ms) n) as [Hle|Hgt].
  - replace (length ms - n)%nat with 0%nat by lia. simpl.
    symmetry. apply firstn_all2. rewrite length_rev. exact Hle.
  - set (k := (length ms - n)%nat).
    assert (Hms : rev ms = (rev (skipn k ms) ++ rev (firstn k ms))%list).
    { rewrite <- rev_app_distr. now rewrite firstn_skipn. }
    rewrite Hms.
    assert (Hlen : length (rev (skipn k ms)) = n).
    { rewrite length_rev, length_skipn. unfold k. lia. }
    rewrite firstn_app, Hlen, Nat.sub_diag. simpl.
    rewrite app_nil_r. symmetry. apply firstn_all2. lia.
Qed.

(** The count of the router is the count over the whole log, capped at
    ten. *)
Lemma non_tool_count_whole_log (ms : list Message) :
  non_tool_count ms = Nat.min 10 (count_non_tool (rev ms)).
Proof.
  unfold non_tool_count.
  rewrite rev_last_messages. apply count_non_tool_firstn.
Qed.

Lemma no_tool_calls_spec (m : Message) :
  no_tool_calls m = true <-> tool_calls_of m = [].
Proof.
  unfold no_tool_calls. destruct (tool_calls_of m); split; congruence.
Qed.

(** Over a run of messages without tool calls the loop counts every
    message and goes on behind the run. *)
Lemma count_non_tool_free_run (run rest : list Message) :
  Forall (fun m => tool_calls_of m = []) run ->
  count_non_tool (run ++ rest) = (length run + count_non_tool rest)%nat.
Proof.
  induction 1 as [|m run Hm _ IH]; [reflexivity|].
  cbn [app count_non_tool length].
  rewrite (proj2 (no_tool_calls_spec m) Hm), IH. reflexivity.
Qed.

(** The loop stops at a message with tool calls. *)
Lemma count_non_tool_stops (pre : list Message) :
  (forall m, last pre = Some m -> tool_calls_of m <> []) ->
  count_non_tool (rev pre) = 0%nat.
Proof.
  intros Hlast. destruct (rev pre) as [|m rest] eqn:Hrev; [reflexivity|].
  assert (Hpre : pre = (rev rest ++ [m])%list).
  { rewrite <- (rev_involutive pre), Hrev. reflexivity. }
  cbn [count_non_tool]. destruct (no_tool_calls m) eqn:Hm; [|reflexivity].
  exfalso. apply (Hlast m); [rewrite Hpre; apply last_snoc|].
  now apply no_tool_calls_spec.
Qed.

Lemma last_rev_head (ms : list Message) (m : Message) :
  last ms = Some m -> exists rest, rev ms = m :: rest.
Proof.
  intros H. apply last_Some in H. destruct H as [l' ->].
  rewrite rev_app_distr. simpl. eauto.
Qed.

Lemma non_tool_count_zero (ms : list Message) (m : Message) :
  last ms = Some m -> no_tool_calls m = false -> non_tool_count ms = 0%nat.
Proof.
  intros Hl Hm. rewrite non_tool_count_whole_log.
  destruct (last_rev_head _ _ Hl) as [rest ->]. simpl. now rewrite Hm.
Qed.

Lemma non_tool_count_pos (ms : list Message) :
  (0 < non_tool_count ms)%nat -> exists m, last ms = Some m.
Proof.
  destruct ms as [|a l]; [unfold non_tool_count; simpl; lia|].
  intros _. destruct (last (a :: l)) eqn:E; [eauto|].
  apply last_None in E. discriminate.
Qed.

Lemma force_transition_phase (P : Phase) :
  force_transition (phase_name P) = successor P.
Proof. destruct P; reflexivity. Qed.

Lemma phase_transition_phase (P : Phase) :
  phase_transition (phase_name P) = successor P.
Proof. destruct P; reflexivity. Qed.

(** C2 -- loop detection.  For a specialist phase [P] that is the
    active one and a log that ends with a run of messages none of which
    carries a tool call: when the run holds at least 5 messages,
    [route_specialist] returns the fixed successor of [P], whatever the
    messages contain and whatever precedes the run; when the run holds
    fewer than 5 messages, is not empty (the last message has no tool
    calls) and is the whole trailing run (the log begins with it, or the
    message before it carries a tool call), the router returns [P]
    itself. *)
Theorem route_specialist_loop_detection (st : AgentState) (P : Phase)
    (pre run : list Message) :
  active_specialist st = phase_name P ->
  messages st = (pre ++ run)%list ->
  Forall (fun m => tool_calls_of m = []) run ->
  ((5 <= length run)%nat -> route_specialist st = successor P)
  /\ ((length run < 5)%nat -> run <> [] ->
      (forall m, last pre = Some m -> tool_calls_of m <> []) ->
      route_specialist st = phase_name P).
Proof.
  intros Hact Hlog Hfree.
  assert (Hcount : non_tool_count (messages st)
                   = Nat.min 10 (length run + count_non_tool (rev pre))).
  { rewrite non_tool_count_whole_log, Hlog, rev_app_distr.
    rewrite count_non_tool_free_run, length_rev; [reflexivity|].
    apply Forall_rev. exact Hfree. }
  split.
  - intros H5. unfold route_specialist.
    destruct (non_tool_count_pos (messages st)) as [m Hm]; [lia|].
    rewrite Hm.
    destruct (Nat.leb_spec 5 (non_tool_count (messages st))); [|lia].
    rewrite Hact. apply force_transition_phase.
  - intros Hlt Hne Hbefore. rewrite (count_non_tool_stops pre Hbefore) in Hcount.
    destruct (exists_last Hne) as (run' & m & Hrun).
    assert (Hm : tool_calls_of m = []).
    { rewrite Hrun in Hfree. apply Forall_app in Hfree.
      destruct Hfree as [_ Hm]. now inversion Hm. }
    unfold route_specialist.
    assert (Hlast : last (messages st) = Some m).
    { rewrite Hlog, Hrun, app_assoc. apply last_snoc. }
    rewrite Hlast.
    destruct (Nat.leb_spec 5 (non_tool_count (messages st))); [lia|].
    rewrite (proj2 (no_tool_calls_spec m) Hm). exact Hact.
Qed.

(** The example of the specification (ARCHITECT active, three trailing
    turns without tool calls), and a log whose last five messages carry
    no tool call. *)
Lemma route_specialist_loop_detection_witness :
  route_specialist architect_three_idle = "architect"
  /\ route_specialist integrator_six_idle = "validator".
Proof.
  split.
  - refine (proj2 (route_specialist_loop_detection architect_three_idle ARCHITECT
                     (firstn 2 (messages architect_three_idle))
                     (skipn 2 (messages architect_three_idle))
                     eq_refl eq_refl _) _ _ _).
    + repeat constructor.
    + simpl. lia.
    + discriminate.
    + intros m [= <-]. discriminate.
  - refine (proj1 (route_specialist_loop_detection integrator_six_idle INTEGRATOR
                     (firstn 3 (messages integrator_six_idle))
                     (skipn 3 (messages integrator_six_idle))
                     eq_refl eq_refl _) _).
    + repeat constructor.
    + simpl. lia.
Defined.

(** ** Completion signals *)

Lemma scan_no_signal (active : string) (pre rest : list ToolCall) :
  no_signal pre = true ->
  scan_tool_calls active (pre ++ rest) = scan_tool_calls active rest.
Proof.
  induction pre as [|tc pre IH]; simpl; [reflexivity|].
  intros H. apply andb_prop in H. destruct H as [Htc Hpre].
  unfold is_signal in Htc.
  apply negb_true_iff in Htc.
  apply orb_false_iff in Htc. destruct Htc as [Htc H3].
  apply orb_false_iff in Htc. destruct Htc as [H1 H2].
  rewrite H1, H2, H3. now apply IH.
Qed.

Lemma route_with_tool_calls (st : AgentState) (m : Message) :
  last (messages st) = Some m ->
  tool_calls_of m <> [] ->
  route_specialist st = scan_tool_calls (active_specialist st) (tool_calls_of m).
Proof.
  intros Hl Hne. unfold route_specialist. rewrite Hl.
  assert (Hm : no_tool_calls m = false).
  { unfold no_tool_calls. destruct (tool_calls_of m); [congruence | reflexivity]. }
  rewrite (non_tool_count_zero _ _ Hl Hm). simpl. now rewrite Hm.
Qed.

(** C7 -- completion signals.  When the last message carries a tool
    call and the active phase is the specialist phase [P], the first
    completion signal among its tool calls decides: [complete_phase]
    gives the fixed successor of [P], [complete_validation] and
    [emergency_exit] give the reporter; with no completion signal among
    the tool calls the router returns [tools]. *)
Theorem route_specialist_completion_signals
    (st : AgentState) (P : Phase) (m : Message) :
  active_specialist st = phase_name P ->
  last (messages st) = Some m ->
  tool_calls_of m <> [] ->
  (forall pre tc post,
      tool_calls_of m = (pre ++ tc :: post)%list -> no_signal pre = true ->
      (tc_name tc = "complete_phase" -> route_specialist st = successor P)
      /\ (tc_name tc = "complete_validation" -> route_specialist st = "reporter")
      /\ (tc_name tc = "emergency_exit" -> route_specialist st = "reporter"))
  /\ (no_signal (tool_calls_of m) = true -> route_specialist st = "tools").
Proof.
  intros Hact Hl Hne. rewrite (route_with_tool_calls st m Hl Hne). split.
  - intros pre tc post Hsplit Hpre. rewrite Hsplit, (scan_no_signal _ _ _ Hpre).
    simpl. repeat split; intros ->; simpl.
    + rewrite Hact. apply phase_transition_phase.
    + reflexivity.
    + reflexivity.
  - intros Hnone.
    rewrite <- (app_nil_r (tool_calls_of m)), (scan_no_signal _ _ _ Hnone).
    reflexivity.
Qed.

Lemma route_specialist_completion_signals_witness :
  active_specialist validator_finishing = phase_name VALIDATOR
  /\ route_specialist validator_finishing = "reporter".
Proof.
  split; [reflexivity|].
  refine (proj1 (proj1 (route_specialist_completion_signals
                   validator_finishing VALIDATOR _ eq_refl eq_refl _)
                   [ {| tc_name := "check_price_knowledge";
                        tc_args := [("metric", PStr "tokens")];
                        tc_id := "call-7" |} ]
                   {| tc_name := "complete_phase";
                      tc_args := [("summary", PStr "All volumes known.")];
                      tc_id := "call-8" |}
                   [] eq_refl eq_refl) eq_refl).
  simpl. discriminate.
Defined.

End GraphFacts.

(* ===================================================================== *)
(** * Properties of the decoder *)
(* ===================================================================== *)

Module SpecialistsFacts.
Import Schema Specialists Notions Inputs.

Lemma append_nonempty_r (s t : string) : t <> "" -> s ++ t <> "".
Proof. destruct s; simpl; [auto | discriminate]. Qed.

Lemma append_nonempty_l (s t : string) : s <> "" -> s ++ t <> "".
Proof. destruct s; simpl; [congruence | discriminate]. Qed.

Lemma falsy_str_nonempty (s : string) : s <> "" -> falsy_str (Some s) = false.
Proof. intros H. simpl. now apply String.eqb_neq. Qed.

Lemma string_or_nonempty (s dflt : string) : s <> "" -> string_or (Some s) dflt = s.
Proof. intros H. unfold string_or. now rewrite (falsy_str_nonempty s H). Qed.

Lemma take_nonempty (n : nat) (s : string) :
  (0 < n)%nat -> s <> "" -> Py.take n s <> "".
Proof. destruct n, s; simpl; try lia; congruence. Qed.

(** A finish action built from a thought and a non-empty summary passes
    the schema. *)
Lemma init_finish_phase (th summary : string) :
  summary <> "" ->
  AgentAction_init
    [("thought", PStr th); ("action_type", PStr "finish_phase");
     ("phase_summary", PStr summary)]
  = Ok {| thought := th; action_type := finish_phase; tool_name := None;
          tool_args := None; human_question := None;
          phase_summary := Some summary |}.
Proof.
  intros H. apply String.eqb_neq in H.
  unfold AgentAction_init. cbn. now rewrite H.
Qed.

(** A search action with at least one pattern passes the schema. *)
Lemma init_grep_codebase (th : string) (p : string) (ps : list string) :
  AgentAction_init
    [("thought", PStr th); ("action_type", PStr "call_tool");
     ("tool_name", PStr "grep_codebase");
     ("tool_args", PDict [("patterns", PList (map PStr (p :: ps)))])]
  = Ok {| thought := th; action_type := call_tool;
          tool_name := Some "grep_codebase";
          tool_args := Some [("patterns", PList (map PStr (p :: ps)))];
          human_question := None; phase_summary := None |}.
Proof. reflexivity. Qed.

(** A read action passes the schema. *)
Lemma init_read_file (th path : string) :
  AgentAction_init
    [("thought", PStr th); ("action_type", PStr "call_tool");
     ("tool_name", PStr "read_file");
     ("tool_args", PDict [("file_path", PStr path)])]
  = Ok {| thought := th; action_type := call_tool;
          tool_name := Some "read_file";
          tool_args := Some [("file_path", PStr path)];
          human_question := None; phase_summary := None |}.
Proof. reflexivity. Qed.

(** The heuristic tier always returns an action; a tool call it returns
    names the search tool or the read tool. *)
Lemma heuristic_tier_total (response_text role : string) :
  exists a, heuristic_tier response_text role = Ok a
            /\ (action_type a = call_tool ->
                tool_name a = Some "grep_codebase" \/ tool_name a = Some "read_file").
Proof.
  unfold heuristic_tier.
  destruct (List.filter (fun kw => Py.contains (Py.lower response_text) kw)
              infrastructure_keywords) as [|p ps] eqn:Hfound.
  - rewrite andb_false_r.
    match goal with
    | |- context [match ?fm with Some _ => _ | None => _ end] => destruct fm as [path|]
    end.
    + rewrite init_read_file. eexists; split; [reflexivity|]. intros _. now right.
    + match goal with
      | |- context [if ?b then _ else _] => destruct b
      end.
      * rewrite init_finish_phase.
        -- eexists; split; [reflexivity|]. discriminate.
        -- destruct (Nat.ltb_spec 100 (String.length response_text)) as [Hlen|Hlen].
           ++ apply take_nonempty; [lia|]. intros ->. simpl in Hlen. lia.
           ++ apply append_nonempty_r. discriminate.
      * rewrite init_finish_phase.
        -- eexists; split; [reflexivity|]. discriminate.
        -- apply append_nonempty_r, append_nonempty_l. discriminate.
  - rewrite andb_true_r.
    match goal with
    | |- context [if ?b then _ else _] => destruct b
    end.
    + change (firstn 5 (p :: ps)) with (p :: firstn 4 ps).
      rewrite init_grep_codebase. eexists; split; [reflexivity|]. intros _. now left.
    + match goal with
      | |- context [match ?fm with Some _ => _ | None => _ end] => destruct fm as [path|]
      end.
      * rewrite init_read_file. eexists; split; [reflexivity|]. intros _. now right.
      * match goal with
        | |- context [if ?b then _ else _] => destruct b
        end.
        -- rewrite init_finish_phase.
           ++ eexists; split; [reflexivity|]. discriminate.
           ++ destruct (Nat.ltb_spec 100 (String.length response_text)) as [Hlen|Hlen].
              ** apply take_nonempty; [lia|]. intros ->. simpl in Hlen. lia.
              ** apply append_nonempty_r. discriminate.
        -- rewrite init_finish_phase.
           ++ eexists; split; [reflexivity|]. discriminate.
           ++ apply append_nonempty_r, append_nonempty_l. discriminate.
Qed.

Section FuzzyParse.

Variable json_loads : string -> result PyValue.

Lemma smart_fuzzy_parse_short (response_text role : string) :
  (String.eqb response_text ""
   || (String.length (Py.strip response_text) <? 5)%nat) = true ->
  smart_fuzzy_parse json_loads response_text role
  = Ok {| thought := "Empty response from " ++ role; action_type := finish_phase;
          tool_name := None; tool_args := None; human_question := None;
          phase_summary :=
            Some (Py.capitalize role ++ " completed with limited findings") |}.
Proof.
  intros H. unfold smart_fuzzy_parse. rewrite H.
  apply init_finish_phase, append_nonempty_r. discriminate.
Qed.

(** The constructor takes the tool name from its keyword argument. *)
Lemma init_tool_name (kwargs : list (string * PyValue)) (a : AgentAction) :
  AgentAction_init kwargs = Ok a ->
  field_opt_str (Dict.get kwargs "tool_name") = Ok (tool_name a)
  /\ (action_type a = call_tool -> exists name, tool_name a = Some name).
Proof.
  unfold AgentAction_init.
  destruct (field_str _) as [th|]; [|discriminate].
  destruct (field_action_type _) as [ty|]; [|discriminate].
  destruct (field_opt_str (Dict.get kwargs "tool_name")) as [tn|]; [|discriminate].
  destruct (field_opt_dict _) as [ta|]; [|discriminate].
  destruct (field_opt_str (Dict.get kwargs "human_question")) as [hq|]; [|discriminate].
  destruct (field_opt_str (Dict.get kwargs "phase_summary")) as [ps|]; [|discriminate].
  cbn [mbind result_bind]. unfold validate_action. cbn [action_type tool_name
    tool_args human_question phase_summary thought].
  destruct ty, tn as [name|]; cbn [falsy_str];
    repeat match goal with
           | |- context [if ?b then _ else _] => destruct b
           end;
    cbn [wrap_validator]; intros [= <-];
    (split; [reflexivity|]); cbn [action_type tool_name];
    try discriminate; eauto.
Qed.

(** An action the JSON tier returns was rebuilt from a decoded object
    with a [thought], and its tool name is the entry [tool_name] of that
    object. *)
Lemma json_tier_tool_name (response_text role : string) (a : AgentAction) :
  json_tier json_loads response_text role = Some (Ok a) ->
  exists data,
    json_loads (json_candidate response_text) = Ok (PDict data)
    /\ Dict.mem data "thought" = true
    /\ field_opt_str (Some (Dict.get_default data "tool_name" PNone))
       = Ok (tool_name a)
    /\ (action_type a = call_tool -> exists name, tool_name a = Some name).
Proof.
  unfold json_tier.
  destruct (json_loads (json_candidate response_text)) as [v|e];
    cbn [mbind result_bind].
  - destruct v as [| | | | | |data]; try discriminate.
    destruct (Dict.mem data "thought") eqn:Hmem; [|discriminate].
    destruct (slice_500 _) as [th|e]; cbn [mbind result_bind].
    + match goal with
      | |- context [AgentAction_init ?kw] =>
          destruct (AgentAction_init kw) as [a'|e] eqn:Hinit
      end; cbn [mbind result_bind].
      * intros [= <-]. exists data. split; [reflexivity|]. split; [exact Hmem|].
        exact (init_tool_name _ _ Hinit).
      * destruct (is_ValueError e); discriminate.
    + destruct (is_ValueError e); discriminate.
  - destruct (is_ValueError e); discriminate.
Qed.

(** C4, as amended -- where the tool name of a parsed tool call comes
    from.  For every text and role: when [smart_fuzzy_parse] returns a
    tool call, either its tool name is [grep_codebase] or [read_file],
    written in the parser and a member of the registered tools, or the
    text decoded to a JSON object with a [thought] and the tool name is
    the text found under [tool_name] in that object, which nothing
    compares with the registered tools. *)
Theorem smart_fuzzy_parse_tool_names (response_text role : string) (a : AgentAction) :
  smart_fuzzy_parse json_loads response_text role = Ok a ->
  action_type a = call_tool ->
  ((tool_name a = Some "grep_codebase" \/ tool_name a = Some "read_file")
   /\ exists name, tool_name a = Some name /\ In name SPECIALIST_TOOLS)
  \/ (exists data name,
        json_loads (json_candidate response_text) = Ok (PDict data)
        /\ Dict.mem data "thought" = true
        /\ Dict.get data "tool_name" = Some (PStr name)
        /\ tool_name a = Some name).
Proof.
  intros Hparse Hcall.
  destruct (String.eqb response_text ""
            || (String.length (Py.strip response_text) <? 5)%nat) eqn:Hshort.
  - rewrite (smart_fuzzy_parse_short _ _ Hshort) in Hparse.
    injection Hparse as <-. discriminate Hcall.
  - unfold smart_fuzzy_parse in Hparse. rewrite Hshort in Hparse.
    destruct (json_tier json_loads response_text role) as [r|] eqn:Hjson.
    + subst r. right.
      destruct (json_tier_tool_name _ _ _ Hjson)
        as (data & Hload & Hmem & Hname & Hsome).
      destruct (Hsome Hcall) as [name Hn]. exists data, name.
      split; [exact Hload|]. split; [exact Hmem|]. split; [|exact Hn].
      rewrite Hn in Hname. unfold Dict.get_default in Hname.
      destruct (Dict.get data "tool_name") as [[]|]; simpl in Hname;
        congruence.
    + left. destruct (heuristic_tier_total response_text role) as (a' & Ha & Hname).
      rewrite Ha in Hparse. injection Hparse as ->.
      destruct (Hname Hcall) as [Hn|Hn]; (split; [tauto|]);
        eexists; (split; [exact Hn|]); simpl; tauto.
Qed.

End FuzzyParse.

(** C4 fails as stated: on a text that is a JSON object with a [thought]
    key, the returned tool call carries the tool name found in the text,
    here one that is not registered. *)
Lemma smart_fuzzy_parse_json_tool_name_from_text :
  exists a,
    smart_fuzzy_parse Json.loads hallucinated_call_text "architect" = Ok a
    /\ action_type a = call_tool
    /\ tool_name a = Some "drop_tables"
    /\ ~ In "drop_tables" SPECIALIST_TOOLS.
Proof.
  eexists. split; [vm_compute; reflexivity|].
  split; [reflexivity|]. split; [reflexivity|].
  simpl. intros H. repeat destruct H as [H|H]; try discriminate H; exact H.
Qed.

Lemma smart_fuzzy_parse_tool_names_witness :
  exists a,
    smart_fuzzy_parse Json.loads "I will grep the docker patterns" "architect" = Ok a
    /\ action_type a = call_tool
    /\ tool_name a = Some "grep_codebase".
Proof.
  eexists. split; [vm_compute; reflexivity|]. split; [reflexivity|].
  destruct (smart_fuzzy_parse_tool_names Json.loads
              "I will grep the docker patterns" "architect" _ eq_refl eq_refl)
    as [_|(data & name & Hload & _)]; [reflexivity|].
  vm_compute in Hload. discriminate Hload.
Defined.

(** ** The example text of the specification *)

Section ExampleTexts.

Variable json_loads : string -> result PyValue.

(** The text speaks of searching and names two keywords, but not the word
    [pattern]: the search heuristic does not fire and the default finish is
    returned. *)
Lemma fuzzy_parse_configuration_text (role : string) :
  json_loads (json_candidate search_configuration_text) = Raise JSONDecodeError ->
  smart_fuzzy_parse json_loads search_configuration_text role
  = Ok {| thought := "Unable to parse " ++ role ++ " output clearly";
          action_type := finish_phase; tool_name := None; tool_args := None;
          human_question := None;
          phase_summary :=
            Some (Py.capitalize role ++ " completed. Output: "
                  ++ search_configuration_text) |}.
Proof.
  intros H. unfold smart_fuzzy_parse, json_tier. rewrite H.
  change (String.eqb search_configuration_text ""
          || (String.length (Py.strip search_configuration_text) <? 5)%nat)
    with false. cbv iota.
  etransitivity; [|apply init_finish_phase].
  - reflexivity.
  - apply append_nonempty_r. discriminate.
Qed.

Lemma fuzzy_parse_patterns_text (role : string) :
  json_loads (json_candidate search_patterns_text) = Raise JSONDecodeError ->
  smart_fuzzy_parse json_loads search_patterns_text role
  = Ok {| thought := search_patterns_text;
          action_type := call_tool; tool_name := Some "grep_codebase";
          tool_args := Some [("patterns", PList [PStr "docker"; PStr "s3"])];
          human_question := None; phase_summary := None |}.
Proof.
  intros H. unfold smart_fuzzy_parse, json_tier. rewrite H. reflexivity.
Qed.

(** C5, as amended -- the search example.  The text of the specification,
    not decodable as JSON, lacks the word [pattern] that the search
    heuristic requires next to [grep] or [search for]: the parser returns
    the default finish, whose summary quotes the text.  The same sentence
    ending in [patterns] returns the tool call [grep_codebase] with
    patterns exactly [docker] and [s3]. *)
Theorem smart_fuzzy_parse_search_example (role : string) :
  json_loads (json_candidate search_configuration_text) = Raise JSONDecodeError ->
  json_loads (json_candidate search_patterns_text) = Raise JSONDecodeError ->
  smart_fuzzy_parse json_loads search_configuration_text role
  = Ok {| thought := "Unable to parse " ++ role ++ " output clearly";
          action_type := finish_phase; tool_name := None; tool_args := None;
          human_question := None;
          phase_summary :=
            Some (Py.capitalize role ++ " completed. Output: "
                  ++ search_configuration_text) |}
  /\ smart_fuzzy_parse json_loads search_patterns_text role
     = Ok {| thought := search_patterns_text;
             action_type := call_tool; tool_name := Some "grep_codebase";
             tool_args := Some [("patterns", PList [PStr "docker"; PStr "s3"])];
             human_question := None; phase_summary := None |}.
Proof.
  intros H1 H2. split.
  - now apply fuzzy_parse_configuration_text.
  - now apply fuzzy_parse_patterns_text.
Qed.

End ExampleTexts.

Lemma smart_fuzzy_parse_search_example_witness :
  Json.loads (json_candidate search_configuration_text) = Raise JSONDecodeError
  /\ Json.loads (json_candidate search_patterns_text) = Raise JSONDecodeError
  /\ smart_fuzzy_parse Json.loads search_patterns_text "architect"
     = Ok {| thought := search_patterns_text;
             action_type := call_tool; tool_name := Some "grep_codebase";
             tool_args := Some [("patterns", PList [PStr "docker"; PStr "s3"])];
             human_question := None; phase_summary := None |}.
Proof.
  split; [reflexivity|]. split; [reflexivity|].
  exact (proj2 (smart_fuzzy_parse_search_example Json.loads "architect"
                  eq_refl eq_refl)).
Defined.

(** C5 fails as stated: on the text of the specification the parser
    returns a finish, not a tool call. *)
Lemma smart_fuzzy_parse_search_example_finishes :
  smart_fuzzy_parse Json.loads search_configuration_text "architect"
  = Ok {| thought := "Unable to parse architect output clearly";
          action_type := finish_phase; tool_name := None; tool_args := None;
          human_question := None;
          phase_summary :=
            Some "Architect completed. Output: I will search for docker and s3 configuration" |}.
Proof. exact (fuzzy_parse_configuration_text Json.loads "architect" eq_refl). Qed.

(** ** The tiers of [run_specialist] *)

Section Tiers.

Variable json_loads : string -> result PyValue.
Variable env : Env.

Lemma get_llm_raises_ValueError (e : exn) :
  get_llm env = Raise e -> is_ValueError e = true.
Proof.
  unfold get_llm. destruct (falsy_str (GOOGLE_API_KEY env)); [|discriminate].
  intros [= <-]. reflexivity.
Qed.

Lemma tier1_returned (msgs : list Message) (role : string)
    (r : result Update) (calls : list OracleCall) :
  tier1 env msgs role = (Returned r, calls) -> structured_result env role r.
Proof.
  unfold tier1. destruct (get_llm env) as [llm|e] eqn:Hllm.
  - destruct (try_constrained_decoding env _ msgs) as [[action|e] calls'].
    + intros [= <- _]. left. eauto.
    + destruct (is_ValueError e) eqn:He; [|discriminate].
      intros [= <- _]. right. eauto.
  - rewrite (get_llm_raises_ValueError e Hllm). intros [= <- _]. right.
    eauto using get_llm_raises_ValueError.
Qed.

Lemma tier1_binds_llm (msgs : list Message) (role : string)
    (calls : list OracleCall) :
  tier1 env msgs role <> (Passed None, calls).
Proof.
  unfold tier1. destruct (get_llm env) as [llm|e] eqn:Hllm.
  - destruct (try_constrained_decoding env _ msgs) as [[action|e] calls'].
    + discriminate.
    + destruct (is_ValueError e); discriminate.
  - rewrite (get_llm_raises_ValueError e Hllm). discriminate.
Qed.

Lemma tier2_returned (role : string) (attempts : list nat) :
  forall (msgs : list Message) (r : result Update) (calls : list OracleCall),
    tier2 env role attempts msgs = (Returned r, calls) ->
    structured_result env role r.
Proof.
  induction attempts as [|attempt rest IH]; intros msgs r calls; simpl.
  - discriminate.
  - destruct (structured_invoke env attempt msgs) as [[action|]|e].
    + intros [= <- _]. left. eauto.
    + destruct (tier2 env role rest _) as [[r'|msgs'] calls'] eqn:Hrest;
        [|discriminate].
      intros [= <- _]. eapply IH, Hrest.
    + destruct (is_ValueError e) eqn:He.
      * intros [= <- _]. right. eauto.
      * destruct (is_ValidationError e);
          (destruct (tier2 env role rest _) as [[r'|msgs'] calls'] eqn:Hrest;
           [|discriminate]);
          intros [= <- _]; eapply IH, Hrest.
Qed.

Lemma tier3_returned (fuzzy_count : Z) (role : string) (msgs : list Message)
    (r : result Update) (calls : list OracleCall) :
  tier3 json_loads env fuzzy_count role msgs = (Returned r, calls) ->
  exists u, r = Ok u /\ u_fuzzy_parse_count u = Some (fuzzy_count + 1)
            /\ u_active_specialist u = role.
Proof.
  unfold tier3. destruct (get_llm env); [|discriminate].
  match goal with
  | |- context [match ?a with Ok _ => _ | Raise _ => _ end] =>
      destruct a as [[u|]|e] eqn:Hattempt
  end; try discriminate.
  intros [= <- _]. exists u. split; [reflexivity|].
  destruct (invoke env msgs) as [raw|]; [|discriminate]. cbn in Hattempt.
  destruct (response_text_of raw) as [text|]; [|discriminate]. cbn in Hattempt.
  destruct (String.eqb text ""); [discriminate|].
  destruct (smart_fuzzy_parse json_loads text role) as [action|]; [|discriminate].
  cbn in Hattempt. injection Hattempt as <-. split; reflexivity.
Qed.

Lemma tier4_finish (role : string) :
  tier4 env role
  = Ok {| u_messages :=
            [AIMessage ("Technical difficulties in " ++ role)
               [ {| tc_name := "complete_phase";
                    tc_args :=
                      [("summary",
                        PStr (Py.capitalize role ++ " completed with partial findings."))];
                    tc_id := uuid4 env |} ]];
          u_active_specialist := role;
          u_fuzzy_parse_count := Some 0 |}.
Proof.
  unfold tier4. rewrite init_finish_phase by (apply append_nonempty_r; discriminate).
  cbn. unfold _convert_action_to_message. cbn.
  rewrite string_or_nonempty by (apply append_nonempty_r; discriminate).
  reflexivity.
Qed.

(** What each tier can hand back. *)
Lemma run_specialist_traced_cases (state : AgentState) (prompt_template role : string)
    (r : result Update) (tier : Tier) (calls : list OracleCall) :
  run_specialist_traced json_loads env state prompt_template role = (r, tier, calls) ->
  match tier with
  | Guard => 3 <= fuzzy_parse_count state /\ r = Ok (guard_update env role) /\ calls = []
  | T1 | T2 => fuzzy_parse_count state < 3 /\ structured_result env role r
  | T3 => fuzzy_parse_count state < 3
          /\ exists u, r = Ok u
                       /\ u_fuzzy_parse_count u = Some (fuzzy_parse_count state + 1)
  | T4 => fuzzy_parse_count state < 3 /\ r = tier4 env role
  end.
Proof.
  unfold run_specialist_traced.
  destruct (Z.leb_spec 3 (fuzzy_parse_count state)) as [Hge|Hlt].
  - intros [= <- <- <-]. auto.
  - destruct (tier1 env _ role) as [[r1|[llm|]] calls1] eqn:H1.
    + intros [= <- <- _]. split; [lia|]. eapply tier1_returned, H1.
    + destruct (tier2 env role _ _) as [[r2|msgs'] calls2] eqn:H2.
      * intros [= <- <- _]. split; [lia|]. eapply tier2_returned, H2.
      * destruct (tier3 _ env _ role msgs') as [[r3|[]] calls3] eqn:H3.
        -- intros [= <- <- _]. split; [lia|].
           destruct (tier3_returned _ _ _ _ _ H3) as (u & -> & Hu & _). eauto.
        -- intros [= <- <- _]. split; [lia|reflexivity].
    + exfalso. eapply tier1_binds_llm, H1.
Qed.

(** The only exceptions that leave [run_specialist] are instances of
    [ValueError]. *)
Lemma run_specialist_raises_ValueError (state : AgentState)
    (prompt_template role : string) (e : exn) :
  run_specialist json_loads env state prompt_template role = Raise e ->
  is_ValueError e = true.
Proof.
  unfold run_specialist.
  destruct (run_specialist_traced _ env state prompt_template role)
    as [[r tier] calls] eqn:Hrun.
  apply run_specialist_traced_cases in Hrun. simpl. intros ->.
  destruct tier.
  - destruct Hrun as (_ & [=] & _).
  - destruct Hrun as (_ & [(a & [=])|(e' & [= <-] & He)]). exact He.
  - destruct Hrun as (_ & [(a & [=])|(e' & [= <-] & He)]). exact He.
  - destruct Hrun as (_ & u & [=] & _).
  - destruct Hrun as (_ & Hr). rewrite tier4_finish in Hr. discriminate.
Qed.

(** C6, as amended -- the retry counter after a decode.  For every call
    that returns an update: when tier 1 or tier 2 answered, the update
    carries no counter, so under every merge of the update into the state
    that leaves the counter as it is when the update does not carry it,
    the state's [fuzzy_parse_count] after the update equals its value
    before the call; the update of tier 3 carries the value before the
    call plus one; only the updates of the recursion guard and of tier 4
    carry 0. *)
Theorem run_specialist_counter_after
    (merge : AgentState -> Update -> AgentState) (state : AgentState)
    (prompt_template role : string) (u : Update) :
  keeps_absent_counter merge ->
  run_specialist json_loads env state prompt_template role = Ok u ->
  match answering_tier json_loads env state prompt_template role with
  | T1 | T2 =>
      u_fuzzy_parse_count u = None
      /\ fuzzy_parse_count (merge state u) = fuzzy_parse_count state
  | T3 => u_fuzzy_parse_count u = Some (fuzzy_parse_count state + 1)
  | Guard | T4 => u_fuzzy_parse_count u = Some 0
  end.
Proof.
  intros Hmerge. unfold run_specialist, answering_tier.
  destruct (run_specialist_traced _ env state prompt_template role)
    as [[r tier] calls] eqn:Hrun.
  apply run_specialist_traced_cases in Hrun. simpl. intros ->.
  destruct tier.
  - destruct Hrun as (_ & [= ->] & _). reflexivity.
  - destruct Hrun as (_ & [(a & [= ->])|(e' & [=] & _)]).
    split; [reflexivity | now apply Hmerge].
  - destruct Hrun as (_ & [(a & [= ->])|(e' & [=] & _)]).
    split; [reflexivity | now apply Hmerge].
  - destruct Hrun as (_ & u' & [= ->] & Hu). exact Hu.
  - destruct Hrun as (_ & Hr). rewrite tier4_finish in Hr. injection Hr as ->.
    reflexivity.
Qed.

(** C3 -- the recursion guard.  For every state whose [fuzzy_parse_count]
    is at least 3 when [run_specialist] is called: the call makes no
    request to the model side (not even [get_llm]), it returns the guard's
    update, whose single message is the one a forced finish converts to
    (one [complete_phase] tool call carrying the summary), and the
    counter of the state is 0 after the update. *)
Theorem recursion_guard_skips_oracle (state : AgentState)
    (prompt_template role : string) :
  3 <= fuzzy_parse_count state ->
  oracle_calls json_loads env state prompt_template role = []
  /\ answering_tier json_loads env state prompt_template role = Guard
  /\ run_specialist json_loads env state prompt_template role
     = Ok (guard_update env role)
  /\ u_messages (guard_update env role)
     = u_messages
         (_convert_action_to_message (uuid4 env)
            {| thought := role ++ " exhausted retry budget";
               action_type := finish_phase; tool_name := None; tool_args := None;
               human_question := None;
               phase_summary :=
                 Some (Py.capitalize role
                       ++ " completed with partial findings due to parsing errors.") |}
            role)
  /\ fuzzy_parse_count (apply_update state (guard_update env role)) = 0.
Proof.
  intros Hge.
  unfold oracle_calls, answering_tier, run_specialist, run_specialist_traced.
  destruct (Z.leb_spec 3 (fuzzy_parse_count state)) as [_|Hlt]; [|lia].
  repeat split.
  unfold _convert_action_to_message, guard_update. cbn.
  rewrite string_or_nonempty by (apply append_nonempty_r; discriminate).
  reflexivity.
Qed.

End Tiers.

(** ** Concrete runs *)

Lemma recursion_guard_skips_oracle_witness :
  3 <= fuzzy_parse_count (state_with_count 3)
  /\ oracle_calls Json.loads env_schema_violation (state_with_count 3)
       "You are the architect." "architect" = []
  /\ fuzzy_parse_count
       (apply_update (state_with_count 3)
          (guard_update env_schema_violation "architect")) = 0.
Proof.
  assert (H : 3 <= fuzzy_parse_count (state_with_count 3)) by (simpl; lia).
  split; [exact H|].
  pose proof (recursion_guard_skips_oracle Json.loads env_schema_violation
                (state_with_count 3) "You are the architect." "architect" H)
    as (Hcalls & _ & _ & _ & Hcount).
  split; [exact Hcalls | exact Hcount].
Defined.

(** C6 fails as stated: tier 2 succeeds at the first attempt on a state
    whose counter is 2; the update carries no counter, and after every
    merge that leaves an absent counter as it is the counter is still 2. *)
Lemma structured_success_leaves_counter :
  answering_tier Json.loads env_structured_success (state_with_count 2)
    "You are the architect." "architect" = T2
  /\ run_specialist Json.loads env_structured_success (state_with_count 2)
       "You are the architect." "architect" = Ok structured_success_update
  /\ u_fuzzy_parse_count structured_success_update = None
  /\ forall merge,
       keeps_absent_counter merge ->
       fuzzy_parse_count (merge (state_with_count 2) structured_success_update) = 2
       /\ fuzzy_parse_count (merge (state_with_count 2) structured_success_update)
          <> 0.
Proof.
  split; [reflexivity|]. split; [reflexivity|]. split; [reflexivity|].
  intros merge Hmerge.
  rewrite (Hmerge (state_with_count 2) structured_success_update eq_refl).
  split; [reflexivity|discriminate].
Qed.

Lemma apply_update_keeps_absent_counter : keeps_absent_counter apply_update.
Proof. intros st u Hu. unfold apply_update. simpl. now rewrite Hu. Qed.

Lemma run_specialist_counter_after_witness :
  keeps_absent_counter apply_update
  /\ run_specialist Json.loads env_structured_success (state_with_count 2)
       "You are the architect." "architect" = Ok structured_success_update
  /\ u_fuzzy_parse_count structured_success_update = None
  /\ fuzzy_parse_count (apply_update (state_with_count 2) structured_success_update)
     = fuzzy_parse_count (state_with_count 2).
Proof.
  assert (H : run_specialist Json.loads env_structured_success (state_with_count 2)
                "You are the architect." "architect" = Ok structured_success_update)
    by reflexivity.
  split; [exact apply_update_keeps_absent_counter|]. split; [exact H|].
  exact (run_specialist_counter_after Json.loads env_structured_success
           apply_update (state_with_count 2) "You are the architect." "architect"
           structured_success_update apply_update_keeps_absent_counter H).
Defined.

(** The second handler of tier 2 is never reached: every
    [ValidationError] is a [ValueError], which the first handler takes. *)
Lemma validation_error_is_value_error (e : exn) :
  is_ValidationError e = true -> is_ValueError e = true.
Proof. destruct e; simpl; congruence. Qed.

(** C1 -- the code at the failing input.  With an API key set, [outlines]
    missing, and a first structured reply that violates the schema (a tool
    call without its tool name), [run_specialist] does not retry and does
    not fall through to tiers 3 and 4: the [ValidationError] leaves the
    node through the handler for [ValueError], after a single structured
    request. *)
Theorem run_specialist_schema_violation_escapes :
  run_specialist Json.loads env_schema_violation (state_with_count 0)
    "You are the architect." "architect"
  = Raise (ValidationError "You selected 'call_tool' but forgot 'tool_name'.")
  /\ answering_tier Json.loads env_schema_violation (state_with_count 0)
       "You are the architect." "architect" = T2
  /\ length (oracle_calls Json.loads env_schema_violation (state_with_count 0)
               "You are the architect." "architect") = 3%nat.
Proof. repeat split. Qed.

End SpecialistsFacts.

(* ===================================================================== *)
(** * Properties of the broker *)
(* ===================================================================== *)

Module BrokerFacts.
Import Broker Notions Inputs.

(** ** The order of keys *)

Lemma compare_lt_trans (a b c : string) :
  String.compare a b = Lt -> String.compare b c = Lt -> String.compare a c = Lt.
Proof.
  revert b c. induction a as [|x a IH]; intros [|y b] [|z c]; simpl; try easy.
  unfold Ascii.compare.
  destruct (N.compare_spec (N_of_ascii x) (N_of_ascii y)) as [Hxy|Hxy|Hxy];
    destruct (N.compare_spec (N_of_ascii y) (N_of_ascii z)) as [Hyz|Hyz|Hyz];
    destruct (N.compare_spec (N_of_ascii x) (N_of_ascii z)) as [Hxz|Hxz|Hxz];
    try easy; try lia.
  apply IH.
Qed.

Lemma ltb_trans (a b c : string) :
  String.ltb a b = true -> String.ltb b c = true -> String.ltb a c = true.
Proof.
  unfold String.ltb. intros Hab Hbc.
  destruct (String.compare a b) eqn:Eab; try discriminate.
  destruct (String.compare b c) eqn:Ebc; try discriminate.
  now rewrite (compare_lt_trans a b c Eab Ebc).
Qed.

Lemma ltb_total (a b : string) :
  String.ltb a b = false -> String.ltb b a = false -> a = b.
Proof.
  unfold String.ltb. rewrite (String.compare_antisym b a).
  destruct (String.compare a b) eqn:E; simpl; try discriminate.
  intros _ _. now apply String.compare_eq_iff.
Qed.

Lemma ltb_asym (a b : string) :
  String.ltb a b = true -> String.ltb b a = false.
Proof.
  unfold String.ltb. rewrite (String.compare_antisym b a).
  destruct (String.compare a b); simpl; congruence.
Qed.

(** ** Sorting the items of a dict *)

Lemma insert_item_comm {V} (x y : string * V) (l : list (string * V)) :
  fst x <> fst y ->
  Json.insert_item x (Json.insert_item y l) = Json.insert_item y (Json.insert_item x l).
Proof.
  intros Hne. induction l as [|z l IH].
  - simpl.
    destruct (String.ltb (fst x) (fst y)) eqn:Hxy;
      destruct (String.ltb (fst y) (fst x)) eqn:Hyx; try reflexivity.
    + rewrite (ltb_asym _ _ Hxy) in Hyx. discriminate.
    + elim Hne. now apply ltb_total.
  - cbn [Json.insert_item].
    destruct (String.ltb (fst y) (fst z)) eqn:Hyz;
      destruct (String.ltb (fst x) (fst z)) eqn:Hxz; cbn [Json.insert_item];
      rewrite ?Hyz, ?Hxz.
    + destruct (String.ltb (fst x) (fst y)) eqn:Hxy.
      * now rewrite (ltb_asym _ _ Hxy).
      * destruct (String.ltb (fst y) (fst x)) eqn:Hyx.
        -- reflexivity.
        -- elim Hne. now apply ltb_total.
    + destruct (String.ltb (fst x) (fst y)) eqn:Hxy.
      * rewrite (ltb_trans _ _ _ Hxy Hyz) in Hxz. discriminate.
      * reflexivity.
    + destruct (String.ltb (fst y) (fst x)) eqn:Hyx.
      * rewrite (ltb_trans _ _ _ Hyx Hxz) in Hyz. discriminate.
      * reflexivity.
    + now rewrite IH.
Qed.

Lemma sort_items_perm {V} (l1 l2 : list (string * V)) :
  Permutation l1 l2 -> List.NoDup (map fst l1) ->
  Json.sort_items l1 = Json.sort_items l2.
Proof.
  induction 1 as [|x l l' Hp IH|x y l|l l' l'' H1 IH1 H2 IH2]; intros Hnd; simpl.
  - reflexivity.
  - simpl in Hnd. apply NoDup_cons_iff in Hnd as [_ Hnd]. now rewrite IH.
  - simpl in Hnd. apply NoDup_cons_iff in Hnd as [Hin _].
    apply insert_item_comm. intros Heq. apply Hin. simpl. now left.
  - rewrite IH1 by exact Hnd. apply IH2.
    eapply Permutation.Permutation_NoDup; [|exact Hnd]. now apply Permutation_map.
Qed.

(** ** Equality of payloads as maps *)

(** Induction on a value with the hypothesis for every element of a list
    and every value of a dict. *)
Lemma PyValue_nested_ind (P : PyValue -> Prop) :
  P PNone ->
  (forall b, P (PBool b)) ->
  (forall z, P (PInt z)) ->
  (forall r, P (PFloat r)) ->
  (forall s, P (PStr s)) ->
  (forall l, Forall P l -> P (PList l)) ->
  (forall d, Forall (fun kv => P (snd kv)) d -> P (PDict d)) ->
  forall v, P v.
Proof.
  intros HNone HBool HInt HFloat HStr HList HDict.
  fix IH 1.
  intros [| b | z | r | s | l | d];
    [exact HNone | apply HBool | apply HInt | apply HFloat | apply HStr | | ].
  - apply HList. induction l as [|x l IHl]; constructor; [apply IH | exact IHl].
  - apply HDict. induction d as [|kv d IHd]; constructor; [apply IH | exact IHd].
Qed.

Lemma NoDup_of_keys {V} (l : list (string * V)) :
  List.NoDup (map fst l) -> List.NoDup l.
Proof. apply List.NoDup_map_inv. Qed.

Lemma dumps_dict (d : list (string * PyValue)) :
  Json.dumps (PDict d)
  = "{" ++ Py.join ", " (map Json.render_item (Json.sort_items (map encode_item d)))
    ++ "}".
Proof. reflexivity. Qed.

Lemma dumps_list (l : list PyValue) :
  Json.dumps (PList l) = "[" ++ Py.join ", " (map Json.dumps l) ++ "]".
Proof. reflexivity. Qed.

Lemma map_dumps_equiv (l1 l2 : list PyValue) :
  Forall2 py_equiv l1 l2 ->
  Forall (fun v1 => forall v2, py_equiv v1 v2 -> Json.dumps v1 = Json.dumps v2) l1 ->
  map Json.dumps l1 = map Json.dumps l2.
Proof.
  induction 1 as [|v1 v2 l1 l2 Hv Hl IHl]; intros IH; [reflexivity|].
  inversion IH; subst. simpl. f_equal; auto.
Qed.

(** The sorted serialisation does not see the insertion order. *)
Lemma dumps_equiv (v1 : PyValue) :
  forall v2, py_equiv v1 v2 -> Json.dumps v1 = Json.dumps v2.
Proof.
  induction v1 as [| | | | |l1 IH|d1 IH] using PyValue_nested_ind;
    intros v2 Heq; inversion Heq; subst; try reflexivity.
  - rewrite !dumps_list. now rewrite (map_dumps_equiv l1 l2) by assumption.
  - rewrite !dumps_dict.
    match goal with
    | Hnd1 : List.NoDup (map fst d1), Hnd2 : List.NoDup (map fst ?d2),
      H12 : forall k v1, In (k, v1) d1 -> _,
      H21 : forall k v2, In (k, v2) ?d2 -> _ |- _ =>
        rename d2 into d2'; rename Hnd1 into Hn1; rename Hnd2 into Hn2;
        rename H12 into Hfwd; rename H21 into Hbwd
    end.
    rewrite List.Forall_forall in IH.
    assert (Hkeys : forall d, map fst (map encode_item d) = map fst d).
    { intros d. rewrite map_map. reflexivity. }
    enough (Hsort : Json.sort_items (map encode_item d1)
                    = Json.sort_items (map encode_item d2')) by now rewrite Hsort.
    apply sort_items_perm; [|now rewrite Hkeys].
    apply Permutation.NoDup_Permutation.
    + apply NoDup_of_keys. now rewrite Hkeys.
    + apply NoDup_of_keys. now rewrite Hkeys.
    + intros [k e]. rewrite !List.in_map_iff. split.
      * intros ([k1 v1] & Hx & Hin). injection Hx as <- <-.
        destruct (Hfwd _ _ Hin) as (v2 & Hin2 & Hv).
        exists (k1, v2). split; [|exact Hin2].
        unfold encode_item. simpl. f_equal. symmetry.
        exact (IH (k1, v1) Hin v2 Hv).
      * intros ([k2 v2] & Hx & Hin). injection Hx as <- <-.
        destruct (Hbwd _ _ Hin) as (v1 & Hin1 & Hv).
        exists (k2, v1). split; [|exact Hin1].
        unfold encode_item. simpl. f_equal.
        exact (IH (k2, v1) Hin1 v2 Hv).
Qed.

(** Reordering the items of a dict gives the same map. *)
Lemma py_equiv_reordered (d1 d2 : list (string * PyValue)) :
  Permutation d1 d2 -> List.NoDup (map fst d1) ->
  Forall (fun kv => py_equiv (snd kv) (snd kv)) d1 ->
  py_equiv (PDict d1) (PDict d2).
Proof.
  intros Hp Hnd Hrefl. rewrite List.Forall_forall in Hrefl.
  apply equiv_dict.
  - exact Hnd.
  - eapply Permutation.Permutation_NoDup; [|exact Hnd]. now apply Permutation_map.
  - intros k v Hin. exists v. split.
    + eapply Permutation_in; eauto.
    + exact (Hrefl (k, v) Hin).
  - intros k v Hin. exists v.
    assert (Hin1 : In (k, v) d1) by (eapply Permutation_in; [symmetry|]; eauto).
    split; [exact Hin1 | exact (Hrefl (k, v) Hin1)].
Qed.

(** ** The broker *)

Section Submit.

Variable load_ignore_patterns : string -> result (list string).
Variable re_compile_error : string -> option string.
Variable grep_walk :
  string -> list string -> list string -> (string -> list PyValue) * Z.
Variable dir_error : string -> string -> option string.
Variable list_dir : string -> string -> list string -> string.

(** Whatever the execute branch returns is a non-empty dict. *)
Lemma execute_truthy (b : TaskBroker) (task_type : string)
    (payload : list (string * PyValue)) (r : PyValue) :
  execute load_ignore_patterns re_compile_error grep_walk dir_error list_dir
    b task_type payload = Ok r ->
  truthy r = true.
Proof.
  unfold execute.
  destruct (String.eqb task_type "grep").
  - unfold execute_safe_grep.
    destruct (load_ignore_patterns (repo_root b)) as [ignore|e]; [|discriminate].
    cbn [mbind result_bind].
    match goal with
    | |- mbind _ ?m = _ -> _ => destruct m as [items|e]; [|discriminate]
    end.
    cbn [mbind result_bind].
    destruct (compile_patterns re_compile_error items) as [[valid errors]|e];
      [|discriminate].
    cbn [mbind result_bind]. destruct valid.
    + intros [= <-]. reflexivity.
    + destruct (grep_walk _ _ _). intros [= <-]. reflexivity.
  - destruct (String.eqb task_type "list_files").
    + destruct (execute_list_files load_ignore_patterns dir_error list_dir _ _);
        [|discriminate].
      cbn [mbind result_bind]. intros [= <-]. reflexivity.
    + intros [= <-]. reflexivity.
Qed.

(** After a call that returned, the cache holds the result under the key
    of the task, and at most one execution was made. *)
Lemma submit_returned (b b1 : TaskBroker) (task_type : string)
    (payload : list (string * PyValue)) (r1 : PyValue) (ex1 : list Execution) :
  submit load_ignore_patterns re_compile_error grep_walk dir_error list_dir b task_type payload = (Ok r1, b1, ex1) ->
  cache b1 !! _task_key task_type payload = Some r1
  /\ truthy r1 = true
  /\ (ex1 = [] \/ ex1 = [Executed task_type payload])
  /\ (cache b !! _task_key task_type payload = None ->
      ex1 = [Executed task_type payload]).
Proof.
  unfold submit.
  generalize (_task_key task_type payload) as key. intros key.
  destruct (cache b !! key) as [cached|] eqn:Hc; cbn [from_option default].
  - destruct (truthy cached) eqn:Ht.
    + intros [= <- <- <-]. repeat split; auto; discriminate.
    + destruct (execute load_ignore_patterns re_compile_error grep_walk dir_error list_dir b task_type payload) as [r|e] eqn:He; [|discriminate].
      intros [= <- <- <-]. cbn [cache]. rewrite lookup_insert_eq.
      repeat split; eauto using execute_truthy; discriminate.
  - destruct (execute load_ignore_patterns re_compile_error grep_walk dir_error list_dir b task_type payload) as [r|e] eqn:He; [|discriminate].
    intros [= <- <- <-]. cbn [cache]. rewrite lookup_insert_eq.
    repeat split; eauto using execute_truthy.
Qed.

(** A call whose key is cached with a truthy value is served from the
    cache. *)
Lemma submit_hit (b : TaskBroker) (task_type : string)
    (payload : list (string * PyValue)) (r : PyValue) :
  cache b !! _task_key task_type payload = Some r -> truthy r = true ->
  submit load_ignore_patterns re_compile_error grep_walk dir_error list_dir b task_type payload = (Ok r, b, []).
Proof.
  unfold submit.
  generalize (_task_key task_type payload) as key. intros key Hc Ht.
  rewrite Hc. cbn [from_option default]. now rewrite Ht.
Qed.


(** C10, as amended -- the key of a task.  For every task type and every
    two payloads that are the same map with values of the same type and
    content at every level (whatever the order their keys were inserted
    in): [_task_key], the MD5 digest of the JSON text with sorted keys,
    gives the same key; so once [submit] has returned a result for one
    payload, [submit] with the other is served that result from the cache
    and executes nothing. *)
Theorem task_key_insertion_order (task_type : string)
    (payload1 payload2 : list (string * PyValue)) :
  py_equiv (PDict payload1) (PDict payload2) ->
  Json.dumps (PDict [("type", PStr task_type); ("payload", PDict payload1)])
  = Json.dumps (PDict [("type", PStr task_type); ("payload", PDict payload2)])
  /\ _task_key task_type payload1 = _task_key task_type payload2
  /\ forall b b1 r1 ex1,
      submit load_ignore_patterns re_compile_error grep_walk dir_error list_dir b task_type payload1 = (Ok r1, b1, ex1) ->
      submit load_ignore_patterns re_compile_error grep_walk dir_error list_dir b1 task_type payload2 = (Ok r1, b1, []).
Proof.
  intros Heq.
  assert (Hdumps :
    Json.dumps (PDict [("type", PStr task_type); ("payload", PDict payload1)])
    = Json.dumps (PDict [("type", PStr task_type); ("payload", PDict payload2)])).
  { rewrite !dumps_dict. unfold encode_item. cbn [map fst snd].
    now rewrite (dumps_equiv _ _ Heq). }
  assert (Hkey : _task_key task_type payload1 = _task_key task_type payload2).
  { unfold _task_key. now rewrite Hdumps. }
  split; [exact Hdumps|]. split; [exact Hkey|].
  intros b b1 r1 ex1 H1.
  destruct (submit_returned _ _ _ _ _ _ H1) as (Hc & Ht & _).
  apply submit_hit; [|exact Ht]. now rewrite <- Hkey.
Qed.

End Submit.

(** ** Concrete brokers *)

Lemma submit_grep_docker :
  submit_empty_repo (new_broker ".") "grep" grep_docker_payload
  = (Ok grep_docker_result, broker_after_grep,
     [Executed "grep" grep_docker_payload]).
Proof. vm_compute. reflexivity. Qed.




(** C10 fails as stated: two payloads that are equal as Python dicts,
    one holding the integer [1] where the other holds [True], serialise
    to different texts and get different keys, so the second is not
    served from the cache entry of the first. *)
Lemma task_key_equal_payloads_differ :
  py_eq (PDict list_depth_int_payload) (PDict list_depth_bool_payload)
  /\ Json.dumps (PDict list_depth_int_payload)
     = "{" ++ Json.quote "depth" ++ ": 1, " ++ Json.quote "directory" ++ ": "
       ++ Json.quote "." ++ "}"
  /\ Json.dumps (PDict list_depth_bool_payload)
     = "{" ++ Json.quote "depth" ++ ": true, " ++ Json.quote "directory" ++ ": "
       ++ Json.quote "." ++ "}"
  /\ _task_key "list_files" list_depth_int_payload
     <> _task_key "list_files" list_depth_bool_payload
  /\ snd (submit_empty_repo
            (snd (fst (submit_empty_repo (new_broker ".") "list_files"
                         list_depth_int_payload)))
            "list_files" list_depth_bool_payload)
     = [Executed "list_files" list_depth_bool_payload].
Proof.
  split; [|split; [reflexivity|split; [reflexivity|split]]].
  - apply eq_dict.
    + simpl. repeat constructor; simpl; intuition discriminate.
    + simpl. repeat constructor; simpl; intuition discriminate.
    + intros k v [[= <- <-]|[[= <- <-]|[]]].
      * exists (PStr "."). split; [now left | constructor].
      * exists (PBool true). split; [right; now left | exact (eq_int_bool true)].
    + intros k v [[= <- <-]|[[= <- <-]|[]]].
      * exists (PStr "."). split; [now left | constructor].
      * exists (PInt 1). split; [right; now left | exact (eq_int_bool true)].
  - intros H. vm_compute in H. discriminate H.
  - vm_compute. reflexivity.
Qed.

Lemma grep_docker_payloads_equiv :
  py_equiv (PDict grep_docker_payload) (PDict grep_docker_payload_reordered).
Proof.
  apply py_equiv_reordered.
  - apply perm_swap.
  - simpl. repeat constructor; simpl; intuition discriminate.
  - repeat constructor.
Defined.

Lemma task_key_insertion_order_witness :
  py_equiv (PDict grep_docker_payload) (PDict grep_docker_payload_reordered)
  /\ _task_key "grep" grep_docker_payload
     = _task_key "grep" grep_docker_payload_reordered.
Proof.
  split; [exact grep_docker_payloads_equiv|].
  exact (proj1 (proj2 (task_key_insertion_order readable_ignore no_compile_error
                         empty_walk no_dir_error empty_listing "grep" grep_docker_payload
                         grep_docker_payload_reordered grep_docker_payloads_equiv))).
Defined.

End BrokerFacts.

(* ===================================================================== *)
(** * Properties of the run loop *)
(* ===================================================================== *)

Module LambdaFacts.
Import Lambda Notions Inputs.

Lemma update_scan_status_app (table : list StatusRecord) (st msg q : string) :
  update_scan_status table st msg q
  = (table ++ [ {| status := st; message := msg; current_question := q |} ])%list.
Proof. reflexivity. Qed.

Ltac code_status := unfold writes_code_status; simpl; auto 10.

Lemma on_exception_writes (table : list StatusRecord) (e : exn) :
  exists r, snd (on_exception table e) = (table ++ [r])%list /\ writes_code_status r.
Proof.
  destruct e; simpl; eexists; (split; [reflexivity|]); code_status.
Qed.

Lemma stream_loop_writes (events : list StepEvent) :
  forall table,
    exists written,
      snd (stream_loop table events) = (table ++ written)%list
      /\ Forall writes_code_status written.
Proof.
  induction events as [|ev rest IH]; intros table; cbn [stream_loop].
  - eexists. split; [reflexivity|]. constructor; [code_status | constructor].
  - destruct ev as [elapsed step_messages|e].
    + destruct (max_runtime <? elapsed).
      * eexists. split; [reflexivity|]. constructor; [code_status | constructor].
      * destruct (last step_messages) as [last_msg|].
        -- destruct (IH (update_scan_status table "RUNNING"
                           (Py.take 60 (content_of last_msg)) ""))
             as (written & Hw & Hall).
           rewrite Hw, update_scan_status_app, <- app_assoc.
           eexists. split; [reflexivity|]. constructor; [code_status | exact Hall].
        -- apply IH.
    + destruct (on_exception_writes table e) as (r & Hr & Hs).
      exists [r]. split; [exact Hr|]. now constructor.
Qed.

Lemma on_resume_exception_writes (table : list StatusRecord) (e : exn) :
  exists r,
    snd (on_resume_exception table e) = (table ++ [r])%list /\ writes_code_status r.
Proof.
  destruct e; simpl; eexists; (split; [reflexivity|]); code_status.
Qed.

Lemma resume_loop_writes (events : list StepEvent) :
  forall table,
    exists written,
      snd (resume_loop table events) = (table ++ written)%list
      /\ Forall writes_code_status written.
Proof.
  induction events as [|ev rest IH]; intros table; cbn [resume_loop].
  - eexists. split; [reflexivity|]. constructor; [code_status | constructor].
  - destruct ev as [elapsed step_messages|e].
    + destruct (last step_messages) as [last_msg|].
      * destruct (IH (update_scan_status table "RUNNING"
                        (Py.take 60 (content_of last_msg)) ""))
          as (written & Hw & Hall).
        rewrite Hw, update_scan_status_app, <- app_assoc.
        eexists. split; [reflexivity|]. constructor; [code_status | exact Hall].
      * apply IH.
    + destruct (on_resume_exception_writes table e) as (r & Hr & Hs).
      exists [r]. split; [exact Hr|]. now constructor.
Qed.

Lemma handle_resume_writes (table : list StatusRecord) (req : Resume) :
  exists written,
    snd (handle_resume table req) = (table ++ written)%list
    /\ Forall writes_code_status written.
Proof.
  unfold handle_resume.
  destruct (String.eqb (scan_id req) "" || String.eqb (answer req) ""
            || String.eqb (repo_name req) "").
  { exists []. simpl. now rewrite app_nil_r. }
  set (msg := "Resuming with answer: " ++ Py.take 50 (answer req) ++ "...").
  assert (Hone : exists written,
             update_scan_status table "RUNNING" msg "" = (table ++ written)%list
             /\ Forall writes_code_status written).
  { eexists. split; [reflexivity|]. constructor; [code_status | constructor]. }
  destruct (negb (repo_dir_exists req) && String.eqb (resume_repo_url req) "");
    [exact Hone|].
  destruct (negb (repo_dir_exists req) && negb (resume_clone_ok req));
    [exact Hone|].
  destruct (resume_setup req) as [[]|e].
  - destruct (negb (snapshot_found req)); [exact Hone|].
    destruct (resume_loop_writes (resume_steps req)
                (update_scan_status table "RUNNING" msg ""))
      as (written & Hw & Hall).
    rewrite Hw, update_scan_status_app, <- app_assoc.
    eexists. split; [reflexivity|]. constructor; [code_status | exact Hall].
  - destruct (on_resume_exception_writes
                (update_scan_status table "RUNNING" msg "") e) as (r & Hr & Hs).
    rewrite Hr, update_scan_status_app, <- app_assoc.
    eexists. split; [reflexivity|].
    constructor; [code_status | constructor; [exact Hs | constructor]].
Qed.

(** C9, as amended -- the recorded statuses.  Every status that
    [handle_scan] and [handle_resume] write is one of RUNNING, PAUSED,
    COMPLETED and FAILED.
    A suspension for a question of the agent and a suspension at the
    run-time limit are written with the same status PAUSED: the first
    with the message [Waiting for user input] and the question, the
    second with the message [Timeout - will auto-resume] and no
    question. *)
Theorem handle_scan_statuses (table : list StatusRecord) (scan : Scan)
    (req : Resume) :
  (exists written,
      snd (handle_scan table scan) = (table ++ written)%list
      /\ Forall (fun r => In (status r) code_statuses) written)
  /\ (exists written,
        snd (handle_resume table req) = (table ++ written)%list
        /\ Forall (fun r => In (status r) code_statuses) written)
  /\ (forall question rest,
        stream_loop table (Raises (HumanInputNeeded question) :: rest)
        = ({| statusCode := 202; body_status := "paused" |},
           (table ++ [ {| status := "PAUSED"; message := "Waiting for user input";
                          current_question := question |} ])%list))
  /\ (forall elapsed step_messages rest,
        (max_runtime <? elapsed) = true ->
        stream_loop table (Yield elapsed step_messages :: rest)
        = ({| statusCode := 202; body_status := "timeout_pause" |},
           (table ++ [ {| status := "PAUSED"; message := "Timeout - will auto-resume";
                          current_question := "" |} ])%list)).
Proof.
  split; [|split; [apply handle_resume_writes|split]].
  - unfold handle_scan. destruct (String.eqb (repo_url scan) "").
    + exists []. simpl. now rewrite app_nil_r.
    + destruct (clone_ok scan); simpl.
      * destruct (setup scan) as [[]|e].
        -- destruct (stream_loop_writes (steps scan)
                       (update_scan_status table "RUNNING" "Cloning repository..." ""))
             as (written & Hw & Hall).
           rewrite Hw, update_scan_status_app, <- app_assoc.
           eexists. split; [reflexivity|]. constructor; [code_status | exact Hall].
        -- destruct (on_exception_writes
                       (update_scan_status table "RUNNING" "Cloning repository..." "") e)
             as (r & Hr & Hs).
           rewrite Hr, update_scan_status_app, <- app_assoc.
           eexists. split; [reflexivity|].
           constructor; [code_status | constructor; [exact Hs | constructor]].
      * rewrite !update_scan_status_app, <- app_assoc.
        eexists. split; [reflexivity|].
        constructor; [code_status | constructor; [code_status | constructor]].
  - reflexivity.
  - intros elapsed step_messages rest Hlate. simpl. now rewrite Hlate.
Qed.

(** C9 fails as stated: the status written for a question of the agent
    and the status written at the run-time limit are both PAUSED, which
    is not a name of the specification's list, and the two are not
    distinct. *)
Lemma handle_scan_pause_statuses :
  map status (snd (handle_scan [] scan_with_question))
  = ["RUNNING"; "RUNNING"; "PAUSED"]
  /\ map status (snd (handle_scan [] scan_past_deadline))
     = ["RUNNING"; "RUNNING"; "PAUSED"]
  /\ ~ In "PAUSED" spec_statuses.
Proof.
  split; [reflexivity|]. split; [reflexivity|].
  simpl. intros H. repeat destruct H as [H|H]; try discriminate H; exact H.
Qed.

Lemma handle_scan_statuses_witness :
  (max_runtime <? 841) = true
  /\ stream_loop [] [Yield 841 [AIMessage "Intelligence: tracing." []]]
     = ({| statusCode := 202; body_status := "timeout_pause" |},
        [ {| status := "PAUSED"; message := "Timeout - will auto-resume";
             current_question := "" |} ]).
Proof.
  split; [reflexivity|].
  exact (proj2 (proj2 (proj2 (handle_scan_statuses [] scan_past_deadline
                                resume_with_answer)))
           841 [AIMessage "Intelligence: tracing." []] [] eq_refl).
Defined.

End LambdaFacts.

(* ===================================================================== *)
(** * Further properties of the action schema *)
(* ===================================================================== *)

Module SchemaProps.
Import Schema Specialists Shapes.

Lemma falsy_str_false (o : option string) :
  falsy_str o = false -> exists s, o = Some s /\ s <> "".
Proof.
  destruct o as [s|]; simpl; [|discriminate].
  intros H. exists s. split; [reflexivity|]. now apply String.eqb_neq.
Qed.

Lemma falsy_dict_false {V} (o : option (list (string * V))) :
  falsy_dict o = false -> exists kv rest, o = Some (kv :: rest).
Proof. destruct o as [[|kv rest]|]; simpl; try discriminate. eauto. Qed.

Lemma bad_patterns_false (o : option PyValue) :
  bad_patterns o = false -> exists p ps, o = Some (PList (p :: ps)).
Proof.
  destruct o as [v|]; simpl; [|discriminate].
  destruct v as [| | | | |[|p ps]|]; simpl; try discriminate;
    rewrite ?orb_true_r; try discriminate.
  eauto.
Qed.

(** The validator accepts an action only in a well-formed state. *)
Lemma validate_action_well_formed (a a' : AgentAction) :
  validate_action a = Ok a' -> well_formed a'.
Proof.
  destruct a as [th ty tn ta hq ps]. unfold validate_action, well_formed.
  destruct ty; simpl.
  - destruct tn as [name|]; simpl; [|discriminate].
    destruct (String.eqb name "") eqn:Hne; [discriminate|].
    apply String.eqb_neq in Hne.
    destruct (String.eqb name "grep_codebase") eqn:Hgrep; simpl.
    + destruct ta as [[|kv rest]|]; simpl; try discriminate.
      destruct (bad_patterns _) eqn:Hpat; [discriminate|].
      intros [= <-]. simpl. split; [eauto|].
      eexists. split; [reflexivity|]. intros _. now apply bad_patterns_false.
    + apply String.eqb_neq in Hgrep.
      destruct ta as [[|kv rest]|]; simpl; intros [= <-]; simpl;
        (split; [eauto|]); eexists; (split; [reflexivity|]);
        intros [= ->]; congruence.
  - destruct (falsy_str hq) eqn:Hq; [discriminate|].
    intros [= <-]. now apply falsy_str_false.
  - destruct (falsy_str ps) eqn:Hs; [discriminate|].
    intros [= <-]. now apply falsy_str_false.
Qed.

Lemma wrap_validator_ok {A} (r : result A) (a : A) :
  wrap_validator r = Ok a -> r = Ok a.
Proof. destruct r as [x|[]]; simpl; congruence. Qed.

Lemma bind_ok {A B} (m : result A) (k : A -> result B) (b : B) :
  (x ← m; k x) = Ok b -> exists a, m = Ok a /\ k a = Ok b.
Proof. destruct m as [a|e]; cbn; [eauto | discriminate]. Qed.

Lemma init_well_formed (kwargs : list (string * PyValue)) (a : AgentAction) :
  AgentAction_init kwargs = Ok a -> well_formed a.
Proof.
  unfold AgentAction_init. intros H.
  repeat (apply bind_ok in H; destruct H as (? & _ & H)).
  apply wrap_validator_ok in H. eapply validate_action_well_formed, H.
Qed.

(** X1 -- what the schema guarantees.  Every action the constructor
    [AgentAction] returns is well formed: a tool call has a non-empty
    tool name and an argument dict (never [None]), a call of
    [grep_codebase] has a non-empty list under [patterns], a question
    and a summary are non-empty strings. *)
Theorem AgentAction_init_well_formed
    (kwargs : list (string * PyValue)) (a : AgentAction) :
  AgentAction_init kwargs = Ok a -> well_formed a.
Proof. exact (init_well_formed kwargs a). Qed.

Lemma AgentAction_init_well_formed_witness :
  exists a,
    AgentAction_init
      [("action_type", PStr "call_tool"); ("tool_name", PStr "read_file")] = Ok a
    /\ tool_args a = Some []
    /\ well_formed a.
Proof.
  eexists. split; [reflexivity|]. split; [reflexivity|].
  apply (AgentAction_init_well_formed
           [("action_type", PStr "call_tool"); ("tool_name", PStr "read_file")]).
  reflexivity.
Defined.

(** X2 -- validation is idempotent.  An action that [validate_action]
    returned passes [validate_action] again and comes back unchanged; the
    only field a validation ever changes is [tool_args], from a missing
    or empty value to the empty dict. *)
Theorem validate_action_idempotent (a a' : AgentAction) :
  validate_action a = Ok a' ->
  validate_action a' = Ok a'
  /\ thought a' = thought a /\ action_type a' = action_type a
  /\ tool_name a' = tool_name a /\ human_question a' = human_question a
  /\ phase_summary a' = phase_summary a
  /\ (tool_args a' = tool_args a
      \/ (falsy_dict (tool_args a) = true /\ tool_args a' = Some [])).
Proof.
  destruct a as [th ty tn ta hq ps]. unfold validate_action at 1.
  destruct ty; simpl.
  - destruct (falsy_str tn) eqn:Hname; [discriminate|].
    destruct (String.eqb (default "" tn) "grep_codebase") eqn:Hgrep; simpl.
    + destruct (falsy_dict ta) eqn:Hargs; [discriminate|].
      destruct (bad_patterns _) eqn:Hpat; [discriminate|].
      intros [= <-]. unfold validate_action. simpl.
      rewrite Hname, Hgrep, Hargs, Hpat. simpl. tauto.
    + destruct (falsy_dict ta) eqn:Hargs; intros [= <-];
        unfold validate_action; simpl; rewrite Hname, Hgrep; simpl;
        rewrite ?Hargs; tauto.
  - destruct (falsy_str hq) eqn:Hq; [discriminate|].
    intros [= <-]. unfold validate_action. simpl. rewrite Hq. tauto.
  - destruct (falsy_str ps) eqn:Hs; [discriminate|].
    intros [= <-]. unfold validate_action. simpl. rewrite Hs. tauto.
Qed.

Lemma validate_action_idempotent_witness :
  validate_action
    {| thought := "Open the manifest."; action_type := call_tool;
       tool_name := Some "read_file"; tool_args := None;
       human_question := None; phase_summary := None |}
  = Ok {| thought := "Open the manifest."; action_type := call_tool;
          tool_name := Some "read_file"; tool_args := Some [];
          human_question := None; phase_summary := None |}
  /\ validate_action
       {| thought := "Open the manifest."; action_type := call_tool;
          tool_name := Some "read_file"; tool_args := Some [];
          human_question := None; phase_summary := None |}
     = Ok {| thought := "Open the manifest."; action_type := call_tool;
             tool_name := Some "read_file"; tool_args := Some [];
             human_question := None; phase_summary := None |}.
Proof.
  split; [reflexivity|].
  exact (proj1 (validate_action_idempotent
                  {| thought := "Open the manifest."; action_type := call_tool;
                     tool_name := Some "read_file"; tool_args := None;
                     human_question := None; phase_summary := None |}
                  _ eq_refl)).
Defined.

(** The conversion of a well-formed action. *)
Lemma convert_well_formed (id role : string) (a : AgentAction) :
  well_formed a ->
  exists tc,
    _convert_action_to_message id a role
    = {| u_messages := [AIMessage (thought a) [tc]];
         u_active_specialist := role;
         u_fuzzy_parse_count := None |}
    /\ tc_id tc = id
    /\ match action_type a with
       | call_tool =>
           exists name,
             tool_name a = Some name
             /\ tc_name tc = (if Py.contains name ":" then after_last_colon name
                              else name)
             /\ tool_args a = Some (tc_args tc)
       | ask_human =>
           tc_name tc = "ask_human"
           /\ exists q, human_question a = Some q /\ tc_args tc = [("question", PStr q)]
       | finish_phase =>
           tc_name tc = "complete_phase"
           /\ exists s, phase_summary a = Some s /\ tc_args tc = [("summary", PStr s)]
       end.
Proof.
  destruct a as [th ty tn ta hq ps].
  unfold well_formed, _convert_action_to_message. destruct ty; simpl.
  - intros ((name & -> & Hne) & args & -> & _). simpl.
    apply String.eqb_neq in Hne. rewrite Hne.
    eexists. split; [reflexivity|]. split; [reflexivity|].
    exists name. split; [reflexivity|]. split; [reflexivity|].
    destruct args; reflexivity.
  - intros (q & -> & Hne). unfold string_or. simpl.
    apply String.eqb_neq in Hne. rewrite Hne.
    eexists. split; [reflexivity|]. split; [reflexivity|].
    split; [reflexivity|]. eauto.
  - intros (s & -> & Hne). unfold string_or. simpl.
    apply String.eqb_neq in Hne. rewrite Hne.
    eexists. split; [reflexivity|]. split; [reflexivity|].
    split; [reflexivity|]. eauto.
Qed.

(** X3 -- one tool call per action.  The message built from an action
    the schema accepted carries the thought as its content and exactly
    one tool call: the named tool (without a prefix up to a colon) with
    the action's arguments, [ask_human] with the question, or
    [complete_phase] with the summary; the defaults written in
    [_convert_action_to_message] for a missing question or summary are
    never used. *)
Theorem convert_validated_action
    (kwargs : list (string * PyValue)) (a : AgentAction) (id role : string) :
  AgentAction_init kwargs = Ok a ->
  exists tc,
    _convert_action_to_message id a role
    = {| u_messages := [AIMessage (thought a) [tc]];
         u_active_specialist := role;
         u_fuzzy_parse_count := None |}
    /\ tc_id tc = id
    /\ match action_type a with
       | call_tool =>
           exists name,
             tool_name a = Some name
             /\ tc_name tc = (if Py.contains name ":" then after_last_colon name
                              else name)
             /\ tool_args a = Some (tc_args tc)
       | ask_human =>
           tc_name tc = "ask_human"
           /\ exists q, human_question a = Some q /\ tc_args tc = [("question", PStr q)]
       | finish_phase =>
           tc_name tc = "complete_phase"
           /\ exists s, phase_summary a = Some s /\ tc_args tc = [("summary", PStr s)]
       end.
Proof. intros H. apply convert_well_formed, (init_well_formed kwargs a H). Qed.

Lemma convert_validated_action_witness :
  exists a tc,
    AgentAction_init
      [("thought", PStr "The budget is not in the repository.");
       ("action_type", PStr "ask_human");
       ("human_question", PStr "What is the monthly budget?")] = Ok a
    /\ u_messages (_convert_action_to_message "call_1" a "architect")
       = [AIMessage "The budget is not in the repository." [tc]]
    /\ tc_name tc = "ask_human"
    /\ tc_args tc = [("question", PStr "What is the monthly budget?")].
Proof.
  assert (H : AgentAction_init
                [("thought", PStr "The budget is not in the repository.");
                 ("action_type", PStr "ask_human");
                 ("human_question", PStr "What is the monthly budget?")]
              = Ok {| thought := "The budget is not in the repository.";
                      action_type := ask_human; tool_name := None;
                      tool_args := None;
                      human_question := Some "What is the monthly budget?";
                      phase_summary := None |}) by reflexivity.
  destruct (convert_validated_action _ _ "call_1" "architect" H)
    as (tc & Hmsg & _ & Hname & q & Hq & Hargs).
  eexists; exists tc. split; [exact H|]. split; [now rewrite Hmsg|].
  split; [exact Hname|]. injection Hq as <-. exact Hargs.
Defined.

End SchemaProps.

(* ===================================================================== *)
(** * Further properties of the specialist nodes *)
(* ===================================================================== *)

Module NodeProps.
Import Schema Specialists Graph Notions Inputs Shapes Cases SchemaProps.

(** ** The history sent to the model *)

Lemma drop_until_human_split (ms : list Message) :
  (exists pre c post,
      ms = (pre ++ HumanMessage c :: post)%list
      /\ forallb (fun m => negb (is_human m)) pre = true
      /\ drop_until_human ms = HumanMessage c :: post)
  \/ (forallb (fun m => negb (is_human m)) ms = true /\ drop_until_human ms = []).
Proof.
  induction ms as [|m ms IH]; [right; split; reflexivity|].
  assert (Hother : is_human m = false ->
                   drop_until_human (m :: ms) = drop_until_human ms)
    by (destruct m; simpl; congruence).
  destruct (is_human m) eqn:Hm.
  - destruct m; try discriminate. left. eexists [], _, ms. simpl. auto.
  - rewrite (Hother eq_refl).
    destruct IH as [(pre & c' & post & -> & Hpre & Hd)|[Hall Hd]].
    + left. exists (m :: pre), c', post. simpl. rewrite Hm, Hpre. auto.
    + right. simpl. rewrite Hm, Hall. auto.
Qed.

Lemma first_human_unique (pre pre' post post' : list Message) (c c' : string) :
  (pre ++ HumanMessage c :: post)%list = (pre' ++ HumanMessage c' :: post')%list ->
  forallb (fun m => negb (is_human m)) pre = true ->
  forallb (fun m => negb (is_human m)) pre' = true ->
  c = c' /\ post = post'.
Proof.
  revert pre'. induction pre as [|m pre IH]; intros [|m' pre']; simpl.
  - intros [= -> ->]. auto.
  - intros [= <- _] _ H. simpl in H. discriminate.
  - intros [= -> _] H _. simpl in H. discriminate.
  - intros [= _ H] H1 H2.
    apply andb_prop in H1, H2. eapply IH; [exact H|tauto|tauto].
Qed.

(** X4 -- the history starts at the first human message.
    [sanitize_history] returns a non-empty list that begins with a
    [HumanMessage]: the log from its first human message on, with every
    later message kept in order, or the single message
    [Resume analysis.] when the log holds no human message. *)
Theorem sanitize_history_from_first_human (ms : list Message) :
  (exists c rest, sanitize_history ms = HumanMessage c :: rest)
  /\ (forall pre c post,
         ms = (pre ++ HumanMessage c :: post)%list ->
         forallb (fun m => negb (is_human m)) pre = true ->
         sanitize_history ms = HumanMessage c :: post)
  /\ (forallb (fun m => negb (is_human m)) ms = true ->
      sanitize_history ms = [HumanMessage "Resume analysis."]).
Proof.
  assert (Hs : sanitize_history ms
               = match drop_until_human ms with
                 | [] => [HumanMessage "Resume analysis."]
                 | clean => clean
                 end) by (destruct ms; reflexivity).
  destruct (drop_until_human_split ms)
    as [(pre & c & post & Hms & Hpre & Hd)|[Hall Hd]]; rewrite Hs, Hd.
  - split; [eauto|]. split.
    + intros pre' c' post' Hms' Hpre'. rewrite Hms in Hms'.
      destruct (first_human_unique _ _ _ _ _ _ Hms' Hpre Hpre') as [-> ->].
      reflexivity.
    + intros Hall. rewrite Hms, forallb_app in Hall. simpl in Hall.
      rewrite andb_false_r in Hall. discriminate.
  - split; [eauto|]. split; [|reflexivity].
    intros pre c post Hms _. rewrite Hms, forallb_app in Hall. simpl in Hall.
    rewrite andb_false_r in Hall. discriminate.
Qed.

(** ** The parser's failures *)

Section Parse.

Variable json_loads : string -> result PyValue.

Lemma heuristic_tier_well_formed (text role : string) (a : AgentAction) :
  heuristic_tier text role = Ok a -> well_formed a.
Proof.
  unfold heuristic_tier.
  repeat match goal with
         | |- context [if ?b then _ else _] => destruct b
         | |- context [match ?o with Some _ => _ | None => _ end] => destruct o
         end; apply init_well_formed.
Qed.

Lemma bind_raise {A B} (m : result A) (k : A -> result B) (e : exn) :
  (x ← m; k x) = Raise e -> m = Raise e \/ exists a, m = Ok a /\ k a = Raise e.
Proof. destruct m as [a|e']; cbn; [eauto | intros [= ->]; auto]. Qed.

(** The constructor fails with a [ValidationError] only. *)
Lemma init_raises_validation (kwargs : list (string * PyValue)) (e : exn) :
  AgentAction_init kwargs = Raise e -> is_ValidationError e = true.
Proof.
  assert (Hstr : forall v e, field_str v = Raise e -> is_ValidationError e = true)
    by (intros [] ?; simpl; intros [= <-]; reflexivity).
  assert (Hopt : forall v e, field_opt_str v = Raise e -> is_ValidationError e = true)
    by (intros [[]|] ?; simpl; intros [= <-]; reflexivity).
  assert (Hdict : forall v e, field_opt_dict v = Raise e -> is_ValidationError e = true)
    by (intros [[]|] ?; simpl; intros [= <-]; reflexivity).
  assert (Hty : forall v e, field_action_type v = Raise e -> is_ValidationError e = true).
  { intros [[]|] ?; simpl; try (intros [= <-]; reflexivity).
    repeat match goal with |- context [if ?b then _ else _] => destruct b end;
      intros [= <-]; reflexivity. }
  assert (Hval : forall a e, wrap_validator (validate_action a) = Raise e ->
                             is_ValidationError e = true).
  { intros a e'. unfold validate_action.
    repeat match goal with
           | |- context [match ?x with call_tool => _ | _ => _ end] => destruct x
           | |- context [if ?b then _ else _] => destruct b
           end; simpl; intros [= <-]; reflexivity. }
  unfold AgentAction_init. intros H.
  repeat (apply bind_raise in H; destruct H as [H|(? & _ & H)]; [eauto|]).
  eauto.
Qed.

Lemma json_tier_cases (text role : string) (r : result AgentAction) :
  json_tier json_loads text role = Some r ->
  (exists e,
      json_loads (json_candidate text) = Raise e
      /\ is_ValueError e = false /\ r = Raise e)
  \/ (exists data v,
        json_loads (json_candidate text) = Ok (PDict data)
        /\ Dict.get data "thought" = Some v
        /\ ((exists a, r = Ok a /\ well_formed a)
            \/ (r = Raise TypeError /\ slice_500 v = Raise TypeError))).
Proof.
  unfold json_tier.
  destruct (json_loads (json_candidate text)) as [[| | | | | |data]|e];
    cbn [mbind result_bind]; try discriminate.
  - destruct (Dict.mem data "thought") eqn:Hmem; [|discriminate].
    unfold Dict.mem in Hmem.
    destruct (Dict.get data "thought") as [v|] eqn:Hth; [|discriminate].
    replace (Dict.get_default data "thought" (PStr "Continuing analysis")) with v
      by (unfold Dict.get_default; now rewrite Hth).
    intros H. right. exists data, v. split; [reflexivity|]. split; [exact Hth|].
    destruct (slice_500 v) as [th|e] eqn:Hslice; cbn [mbind result_bind] in H.
    + match type of H with
      | context [AgentAction_init ?kw] =>
          destruct (AgentAction_init kw) as [a|e] eqn:Hinit
      end; cbn [mbind result_bind] in H.
      * injection H as <-. left. exists a. split; [reflexivity|].
        eapply init_well_formed, Hinit.
      * apply init_raises_validation in Hinit.
        destruct e; try discriminate Hinit. discriminate H.
    + assert (He : e = TypeError)
        by (destruct v; simpl in Hslice; congruence).
      subst e. simpl in H. injection H as <-. right. auto.
  - destruct (is_ValueError e) eqn:He; [discriminate|].
    intros [= <-]. left. eauto.
Qed.

Lemma smart_fuzzy_parse_cases (text role : string) :
  (exists a, smart_fuzzy_parse json_loads text role = Ok a /\ well_formed a)
  \/ (exists e,
        smart_fuzzy_parse json_loads text role = Raise e
        /\ ((json_loads (json_candidate text) = Raise e /\ is_ValueError e = false)
            \/ (e = TypeError
                /\ exists data v,
                    json_loads (json_candidate text) = Ok (PDict data)
                    /\ Dict.get data "thought" = Some v
                    /\ slice_500 v = Raise TypeError))).
Proof.
  unfold smart_fuzzy_parse.
  destruct (String.eqb text "" || (String.length (Py.strip text) <? 5)%nat).
  - left. match goal with |- context [AgentAction_init ?kw] =>
            destruct (AgentAction_init kw) as [a|e] eqn:Hinit end.
    + eauto using init_well_formed.
    + exfalso. revert Hinit. rewrite SpecialistsFacts.init_finish_phase;
        [discriminate|]. apply SpecialistsFacts.append_nonempty_r. discriminate.
  - destruct (json_tier json_loads text role) as [r|] eqn:Hjson.
    + destruct (json_tier_cases _ _ _ Hjson)
        as [(e & Hload & He & ->)
           |(data & v & Hload & Hth & [(a & -> & Hwf)|[-> Hslice]])].
      * right. exists e. split; [reflexivity|]. left. auto.
      * left. eauto.
      * right. exists TypeError. split; [reflexivity|]. right.
        split; [reflexivity|]. eauto.
    + left. destruct (SpecialistsFacts.heuristic_tier_total text role) as (a & Ha & _).
      exists a. split; [exact Ha|]. eapply heuristic_tier_well_formed, Ha.
Qed.

(** X5 -- the two failures of the fuzzy parser.  [smart_fuzzy_parse]
    returns an action for every text, with two exceptions.  An exception
    of [json.loads] that is no [ValueError] leaves the parser as it is
    ([RecursionError] on a text nested too deeply); and when the text
    decodes to a JSON object whose [thought] is neither a string nor a
    list, slicing the thought raises [TypeError].  Neither is caught by
    the parser's handler.  Schema violations of a decoded object are
    absorbed and the heuristics answer instead. *)
Theorem smart_fuzzy_parse_failures (text role : string) (e : exn) :
  smart_fuzzy_parse json_loads text role = Raise e ->
  (json_loads (json_candidate text) = Raise e /\ is_ValueError e = false)
  \/ (e = TypeError
      /\ exists data v,
          json_loads (json_candidate text) = Ok (PDict data)
          /\ Dict.get data "thought" = Some v
          /\ match v with PStr _ | PList _ => False | _ => True end).
Proof.
  intros H.
  destruct (smart_fuzzy_parse_cases text role)
    as [(a & Ha & _)|(e' & Hr & Hcase)]; [congruence|].
  assert (e' = e) by congruence. subst e'.
  destruct Hcase as [Hdec|(-> & data & v & Hload & Hth & Hslice)]; [now left|].
  right. split; [reflexivity|]. exists data, v. split; [exact Hload|].
  split; [exact Hth|]. destruct v; simpl in Hslice; try discriminate; exact I.
Qed.

End Parse.

Lemma smart_fuzzy_parse_failures_witness :
  smart_fuzzy_parse Json.loads numeric_thought_text "architect" = Raise TypeError
  /\ smart_fuzzy_parse (Json.loads_within 3) nested_list_text "architect"
     = Raise RecursionError
  /\ Json.loads_within 3 (json_candidate nested_list_text) = Raise RecursionError.
Proof.
  assert (H : smart_fuzzy_parse (Json.loads_within 3) nested_list_text "architect"
              = Raise RecursionError) by reflexivity.
  split; [reflexivity|]. split; [exact H|].
  destruct (smart_fuzzy_parse_failures (Json.loads_within 3) _ _ _ H)
    as [[Hload _]|[Hty _]]; [exact Hload | discriminate Hty].
Defined.

(** ** What a node returns *)

Section Node.

Variable json_loads : string -> result PyValue.
Variable env : Env.

Lemma convert_single (role : string) (a : AgentAction) :
  well_formed a ->
  single_tool_call (uuid4 env) role (_convert_action_to_message (uuid4 env) a role).
Proof.
  intros Hwf.
  destruct (convert_well_formed (uuid4 env) role a Hwf) as (tc & -> & Hid & _).
  split; [reflexivity|]. eauto.
Qed.

Lemma constrained_well_formed (name : string) (msgs : list Message)
    (a : AgentAction) (calls : list OracleCall) :
  try_constrained_decoding env name msgs = (Ok a, calls) -> well_formed a.
Proof.
  unfold try_constrained_decoding.
  match goal with
  | |- context [match ?g with Ok _ => _ | Raise _ => _ end] =>
      destruct g as [a'|e] eqn:Hgen
  end.
  - intros [= <- _]. apply bind_ok in Hgen. destruct Hgen as (kw & _ & Hinit).
    eapply init_well_formed, Hinit.
  - destruct (is_ImportError e); discriminate.
Qed.


Lemma tier1_single (msgs : list Message) (role : string) (u : Update)
    (calls : list OracleCall) :
  tier1 env msgs role = (Returned (Ok u), calls) ->
  single_tool_call (uuid4 env) role u.
Proof.
  unfold tier1. destruct (get_llm env) as [llm|e].
  - destruct (try_constrained_decoding env _ msgs) as [[a|e] calls'] eqn:Hdec.
    + intros [= <- _]. eapply convert_single, constrained_well_formed, Hdec.
    + destruct (is_ValueError e); discriminate.
  - destruct (is_ValueError e); discriminate.
Qed.

Lemma structured_invoke_well_formed (attempt : nat) (msgs : list Message)
    (a : AgentAction) :
  structured_invoke env attempt msgs = Ok (Some a) -> well_formed a.
Proof.
  unfold structured_invoke. intros H. apply bind_ok in H.
  destruct H as ([kw|] & _ & H); [|discriminate].
  apply bind_ok in H. destruct H as (a' & Hinit & [= <-]).
  eapply init_well_formed, Hinit.
Qed.

Lemma tier2_single (role : string) (attempts : list nat) :
  forall (msgs : list Message) (u : Update) (calls : list OracleCall),
    tier2 env role attempts msgs = (Returned (Ok u), calls) ->
    single_tool_call (uuid4 env) role u.
Proof.
  induction attempts as [|attempt rest IH]; intros msgs u calls; simpl;
    [discriminate|].
  destruct (structured_invoke env attempt msgs) as [[a|]|e] eqn:Hinv.
  - intros [= <- _]. eapply convert_single, structured_invoke_well_formed, Hinv.
  - destruct (tier2 env role rest _) as [[r'|msgs'] calls'] eqn:Hrest;
      [|discriminate].
    intros [= -> _]. eapply IH, Hrest.
  - destruct (is_ValueError e); [discriminate|].
    destruct (is_ValidationError e);
      (destruct (tier2 env role rest _) as [[r'|msgs'] calls'] eqn:Hrest;
       [|discriminate]);
      intros [= -> _]; eapply IH, Hrest.
Qed.

Lemma tier3_single (fuzzy_count : Z) (role : string) (msgs : list Message)
    (r : result Update) (calls : list OracleCall) :
  tier3 json_loads env fuzzy_count role msgs = (Returned r, calls) ->
  exists u, r = Ok u /\ single_tool_call (uuid4 env) role u.
Proof.
  unfold tier3. destruct (get_llm env); [|discriminate].
  match goal with
  | |- context [match ?a with Ok _ => _ | Raise _ => _ end] =>
      destruct a as [[u|]|e] eqn:Hattempt
  end; try discriminate.
  intros [= <- _]. exists u. split; [reflexivity|].
  destruct (invoke env msgs) as [raw|]; [|discriminate]. cbn in Hattempt.
  destruct (response_text_of raw) as [text|]; [|discriminate]. cbn in Hattempt.
  destruct (String.eqb text ""); [discriminate|].
  destruct (smart_fuzzy_parse_cases json_loads text role)
    as [(act & Ha & Hwf)|(e & Hr & _)]; rewrite ?Ha, ?Hr in Hattempt;
    [|discriminate].
  cbn in Hattempt. injection Hattempt as <-.
  destruct (convert_single role act Hwf) as (Hrole & c & tc & Hm & Hid).
  split; [exact Hrole|]. simpl. eauto.
Qed.

Lemma run_specialist_traced_single (state : AgentState)
    (prompt_template role : string) (u : Update) (tier : Tier)
    (calls : list OracleCall) :
  run_specialist_traced json_loads env state prompt_template role
  = (Ok u, tier, calls) ->
  single_tool_call (uuid4 env) role u.
Proof.
  unfold run_specialist_traced.
  destruct (3 <=? fuzzy_parse_count state).
  - intros [= <- _ _]. split; [reflexivity|]. simpl. eauto.
  - destruct (tier1 env _ role) as [[r1|[llm|]] calls1] eqn:H1.
    + intros [= -> _ _]. eapply tier1_single, H1.
    + destruct (tier2 env role _ _) as [[r2|msgs'] calls2] eqn:H2.
      * intros [= -> _ _]. eapply tier2_single, H2.
      * destruct (tier3 _ env _ role msgs') as [[r3|[]] calls3] eqn:H3.
        -- intros [= -> _ _].
           destruct (tier3_single _ _ _ _ _ H3) as (u' & [= <-] & Hu). exact Hu.
        -- rewrite SpecialistsFacts.tier4_finish. intros [= <- _ _].
           split; [reflexivity|]. simpl. eauto.
    + discriminate.
Qed.


Lemma scan_single_call (active : string) (tc : ToolCall) :
  scan_tool_calls active [tc] = "tools"
  \/ scan_tool_calls active [tc] = phase_transition active
  \/ scan_tool_calls active [tc] = "reporter".
Proof.
  simpl.
  repeat match goal with |- context [if ?b then _ else _] => destruct b end;
    auto.
Qed.

(** X7 -- the router after a specialist turn.  When the log ends with
    the messages of an update that [run_specialist] returned for the
    phase [P], and the update's role is the active specialist, the router
    sends control to the tool node, to the successor of [P] or to the
    reporter; it never hands the turn straight back to the specialist, so
    its count of turns without tool calls stays at zero. *)
Theorem route_after_specialist_turn (state : AgentState)
    (prompt_template : string) (P : Phase) (u : Update) (st' : AgentState) :
  run_specialist json_loads env state prompt_template (phase_name P) = Ok u ->
  (exists before, messages st' = (before ++ u_messages u)%list) ->
  active_specialist st' = u_active_specialist u ->
  In (route_specialist st') ["tools"; successor P; "reporter"]
  /\ route_specialist st' <> phase_name P
  /\ non_tool_count (messages st') = 0%nat.
Proof.
  intros Hrun [before Hms] Hact.
  unfold run_specialist in Hrun.
  destruct (run_specialist_traced _ env state prompt_template (phase_name P))
    as [[r tier] calls] eqn:Htr.
  simpl in Hrun. subst r.
  destruct (run_specialist_traced_single _ _ _ _ _ _ Htr)
    as (Hrole & content & tc & Hu & _).
  rewrite Hu in Hms. rewrite Hrole in Hact.
  assert (Hlast : last (messages st') = Some (AIMessage content [tc]))
    by (rewrite Hms; apply last_snoc).
  assert (Hroute : route_specialist st' = scan_tool_calls (phase_name P) [tc]).
  { rewrite (GraphFacts.route_with_tool_calls st' _ Hlast); simpl;
      [now rewrite Hact | discriminate]. }
  assert (Hin : In (route_specialist st') ["tools"; successor P; "reporter"]).
  { rewrite Hroute.
    destruct (scan_single_call (phase_name P) tc) as [->|[->| ->]]; simpl; auto.
    rewrite GraphFacts.phase_transition_phase. auto. }
  split; [exact Hin|]. split.
  - intros Heq. rewrite Heq in Hin. simpl in Hin.
    destruct P; simpl in Hin; intuition discriminate.
  - eapply GraphFacts.non_tool_count_zero; [exact Hlast | reflexivity].
Qed.




(** X27 -- who writes the retry counter.  The recursion guard answers
    exactly when the counter of the state is at least 3.  Of the updates
    [run_specialist] returns, those of tier 1 and tier 2 do not carry
    the key [fuzzy_parse_count]; the update of tier 3 carries the
    counter of the state plus one; the updates of the guard and of tier 4
    carry 0. *)
Theorem run_specialist_counter_key (state : AgentState)
    (prompt_template role : string) (u : Update) :
  run_specialist json_loads env state prompt_template role = Ok u ->
  (answering_tier json_loads env state prompt_template role = Guard
   <-> 3 <= fuzzy_parse_count state)
  /\ u_fuzzy_parse_count u
     = match answering_tier json_loads env state prompt_template role with
       | T1 | T2 => None
       | T3 => Some (fuzzy_parse_count state + 1)
       | Guard | T4 => Some 0
       end.
Proof.
  unfold run_specialist, answering_tier.
  destruct (run_specialist_traced _ env state prompt_template role)
    as [[r tier] calls] eqn:Hrun.
  apply SpecialistsFacts.run_specialist_traced_cases in Hrun. simpl. intros ->.
  destruct tier.
  - destruct Hrun as (Hge & [= ->] & _). split; [tauto | reflexivity].
  - destruct Hrun as (Hlt & [(a & [= ->])|(e' & [=] & _)]).
    split; [split; [discriminate | lia] | reflexivity].
  - destruct Hrun as (Hlt & [(a & [= ->])|(e' & [=] & _)]).
    split; [split; [discriminate | lia] | reflexivity].
  - destruct Hrun as (Hlt & u' & [= ->] & Hu).
    split; [split; [discriminate | lia] | exact Hu].
  - destruct Hrun as (Hlt & Hr). rewrite SpecialistsFacts.tier4_finish in Hr.
    injection Hr as ->. split; [split; [discriminate | lia] | reflexivity].
Qed.

End Node.


Lemma route_after_specialist_turn_witness :
  run_specialist Json.loads env_structured_success (state_with_count 2)
    "You are the architect." (phase_name ARCHITECT) = Ok structured_success_update
  /\ route_specialist (apply_update (state_with_count 2) structured_success_update)
     = "tools"
  /\ route_specialist (apply_update (state_with_count 2) structured_success_update)
     <> phase_name ARCHITECT.
Proof.
  assert (H : run_specialist Json.loads env_structured_success (state_with_count 2)
                "You are the architect." (phase_name ARCHITECT)
              = Ok structured_success_update) by reflexivity.
  split; [exact H|]. split; [reflexivity|].
  refine (proj1 (proj2 (route_after_specialist_turn Json.loads env_structured_success
                          (state_with_count 2) "You are the architect." ARCHITECT
                          structured_success_update
                          (apply_update (state_with_count 2) structured_success_update)
                          H _ eq_refl))).
  exists (messages (state_with_count 2)). reflexivity.
Defined.


Lemma run_specialist_counter_key_witness :
  exists u,
    run_specialist Json.loads env_model_down (state_with_count 1)
      "You are the architect." "architect" = Ok u
    /\ answering_tier Json.loads env_model_down (state_with_count 1)
         "You are the architect." "architect" = T4
    /\ u_fuzzy_parse_count u = Some 0.
Proof.
  eexists. split; [vm_compute; reflexivity|]. split; [reflexivity|].
  exact (proj2 (run_specialist_counter_key Json.loads env_model_down
                  (state_with_count 1) "You are the architect." "architect"
                  _ eq_refl)).
Defined.

End NodeProps.

(* ===================================================================== *)
(** * The arguments the heuristic parser writes *)
(* ===================================================================== *)

Module HeuristicProps.
Import Schema Specialists Shapes.

Lemma startswith_split (s p : string) :
  Py.startswith s p = true -> exists rest, s = p ++ rest.
Proof.
  revert s. induction p as [|a p IH]; intros s.
  - intros _. exists s. reflexivity.
  - destruct s as [|b s]; cbn [Py.startswith]; [discriminate|].
    destruct (Ascii.eqb a b) eqn:E; [|discriminate].
    apply Ascii.eqb_eq in E. subst b.
    intros H. destruct (IH s H) as [rest ->]. exists rest. reflexivity.
Qed.

Lemma ext_at_spec (s e' : string) :
  ext_at s = Some e' ->
  exists e rest, e' = "." ++ e /\ In e extensions /\ s = e' ++ rest.
Proof.
  unfold ext_at. destruct s as [|c r]; [discriminate|].
  destruct (Ascii.eqb c ".") eqn:Hc;
    [apply Ascii.eqb_eq in Hc; subst c | apply Ascii.eqb_neq in Hc].
  - destruct (List.filter (fun e => Py.startswith r e) extensions) as [|e l] eqn:Hf;
      [discriminate|].
    intros [= <-].
    assert (Hin : In e (List.filter (fun e => Py.startswith r e) extensions))
      by (rewrite Hf; left; reflexivity).
    apply filter_In in Hin. destruct Hin as [Hin Hsw].
    destruct (startswith_split _ _ Hsw) as [rest ->].
    exists e, rest. auto.
  - destruct c as [[] [] [] [] [] [] [] []]; try discriminate. congruence.
Qed.

Lemma extension_chars (e : string) :
  In e extensions -> forallb is_path_char (list_ascii_of_string e) = true.
Proof.
  intros H. simpl in H.
  repeat (destruct H as [<-|H]; [reflexivity|]). destruct H.
Qed.

(** A match of the file-name pattern at the head of a text: a run of
    path characters, a dot, one of the extensions. *)
Lemma match_at_spec (s m : string) :
  match_at s = Some m ->
  (exists rest, s = m ++ rest)
  /\ (exists stem e, m = stem ++ "." ++ e /\ stem <> "" /\ In e extensions)
  /\ forallb is_path_char (list_ascii_of_string m) = true.
Proof.
  revert m. induction s as [|c r IH]; intros m; simpl; [discriminate|].
  destruct (is_path_char c) eqn:Hc; [|discriminate].
  destruct (match_at r) as [m'|].
  - intros [= <-].
    destruct (IH m' eq_refl) as ((rest & ->) & (stem & e & -> & _ & He) & Hall).
    split; [exists rest; reflexivity|]. split.
    + exists (String c stem), e. split; [reflexivity|]. split; [discriminate|exact He].
    + simpl. now rewrite Hc, Hall.
  - destruct (ext_at r) as [e'|] eqn:Hext; [|discriminate].
    intros [= <-].
    destruct (ext_at_spec _ _ Hext) as (e & rest & -> & He & ->).
    split; [exists rest; reflexivity|]. split.
    + exists (String c ""), e. split; [reflexivity|]. split; [discriminate|exact He].
    + simpl. rewrite Hc. simpl. apply (extension_chars e He).
Qed.

Lemma re_search_file_spec (s m : string) :
  re_search_file s = Some m ->
  (exists pre post, s = pre ++ m ++ post)
  /\ (exists stem e, m = stem ++ "." ++ e /\ stem <> "" /\ In e extensions)
  /\ forallb is_path_char (list_ascii_of_string m) = true.
Proof.
  induction s as [|c r IH].
  - simpl. discriminate.
  - cbn [re_search_file].
    destruct (match_at (String c r)) as [m'|] eqn:Hm.
    + intros [= <-]. destruct (match_at_spec _ _ Hm) as ((rest & Hs) & Hshape).
      split; [|exact Hshape]. exists "", rest. exact Hs.
    + intros H. destruct (IH H) as ((pre & post & ->) & Hshape).
      split; [|exact Hshape]. exists (String c pre), post. reflexivity.
Qed.

Lemma firstn_incl {A} (n : nat) (l : list A) (x : A) :
  In x (firstn n l) -> In x l.
Proof.
  revert l. induction n as [|n IH]; intros [|y l]; simpl; try tauto.
  intros [->|H]; auto.
Qed.

(** X9 -- the arguments of a heuristic tool call.  When the heuristic
    tier answers with a tool call, its arguments come from the reply in a
    fixed way: a search carries between one and five patterns, each one
    of the twelve infrastructure keywords and each occurring in the
    lower-cased reply; a read carries as path a piece of the reply made
    of path characters only that ends in a dot and one of the seven
    extensions. *)
Theorem heuristic_tier_arguments (text role : string) (a : AgentAction) :
  heuristic_tier text role = Ok a ->
  action_type a = call_tool ->
  (exists kws,
      tool_name a = Some "grep_codebase"
      /\ tool_args a = Some [("patterns", PList (map PStr kws))]
      /\ (1 <= length kws <= 5)%nat
      /\ forall k, In k kws ->
           In k infrastructure_keywords /\ Py.contains (Py.lower text) k = true)
  \/ (exists path,
        tool_name a = Some "read_file"
        /\ tool_args a = Some [("file_path", PStr path)]
        /\ (exists pre post, text = pre ++ path ++ post)
        /\ (exists stem e, path = stem ++ "." ++ e /\ stem <> "" /\ In e extensions)
        /\ forallb is_path_char (list_ascii_of_string path) = true).
Proof.
  unfold heuristic_tier.
  set (found := List.filter (fun kw => Py.contains (Py.lower text) kw)
                  infrastructure_keywords).
  assert (Hfound : forall k, In k found ->
            In k infrastructure_keywords /\ Py.contains (Py.lower text) k = true)
    by (intros k Hk; apply filter_In in Hk; exact Hk).
  assert (Hfinish : forall th summary,
            summary <> "" ->
            AgentAction_init
              [("thought", PStr th); ("action_type", PStr "finish_phase");
               ("phase_summary", PStr summary)] = Ok a ->
            action_type a = call_tool -> False).
  { intros th summary Hne. rewrite (SpecialistsFacts.init_finish_phase _ _ Hne).
    intros [= <-]. discriminate. }
  match goal with
  | |- context [if ?g then _ else match ?fm with Some _ => _ | None => _ end] =>
      destruct g eqn:Hgrep; [|destruct fm as [path|] eqn:Hfile]
  end.
  - destruct found as [|p ps] eqn:Hf; [now rewrite andb_false_r in Hgrep|].
    change (firstn 5 (p :: ps)) with (p :: firstn 4 ps).
    rewrite SpecialistsFacts.init_grep_codebase. intros [= <-] _. left.
    exists (p :: firstn 4 ps). split; [reflexivity|]. split; [reflexivity|]. split.
    + simpl. pose proof (firstn_le_length 4 ps). rewrite length_firstn. lia.
    + intros k [<-|Hk]; apply Hfound; [now left|].
      right. eapply firstn_incl, Hk.
  - rewrite SpecialistsFacts.init_read_file. intros [= <-] _. right.
    exists path. split; [reflexivity|]. split; [reflexivity|].
    apply re_search_file_spec.
    revert Hfile. match goal with |- context [if ?b then _ else _] => destruct b end;
      [auto | discriminate].
  - match goal with |- context [if ?b then _ else _] => destruct b end.
    + intros H Hty. exfalso. revert H Hty. apply Hfinish.
      destruct (Nat.ltb_spec 100 (String.length text)) as [Hlen|Hlen].
      * apply SpecialistsFacts.take_nonempty; [lia|]. intros ->. simpl in Hlen. lia.
      * apply SpecialistsFacts.append_nonempty_r. discriminate.
    + intros H Hty. exfalso. revert H Hty. apply Hfinish.
      apply SpecialistsFacts.append_nonempty_r, SpecialistsFacts.append_nonempty_l.
      discriminate.
Qed.

Lemma heuristic_tier_arguments_witness :
  exists a,
    heuristic_tier "Next I will read the file src/app/settings.yml now." "architect" = Ok a
    /\ action_type a = call_tool
    /\ tool_args a = Some [("file_path", PStr "src/app/settings.yml")].
Proof.
  assert (H : heuristic_tier "Next I will read the file src/app/settings.yml now."
                "architect"
              = Ok {| thought := "Next I will read the file src/app/settings.yml now.";
                      action_type := call_tool; tool_name := Some "read_file";
                      tool_args := Some [("file_path", PStr "src/app/settings.yml")];
                      human_question := None; phase_summary := None |})
    by reflexivity.
  eexists. split; [exact H|]. split; [reflexivity|].
  destruct (heuristic_tier_arguments _ _ _ H eq_refl)
    as [(kws & Hname & _)|(path & _ & Hargs & _)]; [discriminate Hname|].
  simpl in Hargs. simpl. exact eq_refl.
Defined.

End HeuristicProps.

(* ===================================================================== *)
(** * Further properties of the router *)
(* ===================================================================== *)

Module RouterProps.
Import Graph Notions Inputs Workflow Shapes Cases.

(** X10 -- the tool node returns to a specialist.  [route_tools]
    returns one of the four specialist nodes for every state: the active
    specialist when it is one of them, [architect] otherwise. *)
Theorem route_tools_specialist (st : AgentState) :
  In (route_tools st) valid_specialists
  /\ (In (active_specialist st) valid_specialists ->
      route_tools st = active_specialist st)
  /\ (~ In (active_specialist st) valid_specialists ->
      route_tools st = "architect").
Proof.
  unfold route_tools.
  destruct (existsb (String.eqb (active_specialist st)) valid_specialists) eqn:Hex.
  - apply existsb_exists in Hex. destruct Hex as (x & Hin & Hx).
    apply String.eqb_eq in Hx. subst x.
    split; [exact Hin|]. split; [reflexivity|]. intros Hn. contradiction.
  - split; [left; reflexivity|]. split; [|reflexivity].
    intros Hin. exfalso.
    assert (Ht : existsb (String.eqb (active_specialist st)) valid_specialists = true).
    { apply existsb_exists. exists (active_specialist st).
      split; [exact Hin | apply String.eqb_refl]. }
    congruence.
Qed.

Lemma scan_tool_calls_range (active : string) (tcs : list ToolCall) :
  scan_tool_calls active tcs = "tools"
  \/ scan_tool_calls active tcs = phase_transition active
  \/ (scan_tool_calls active tcs = "reporter"
      /\ existsb (fun tc => is_exit_signal (tc_name tc)) tcs = true).
Proof.
  induction tcs as [|tc tcs IH]; simpl; [auto|].
  unfold is_exit_signal.
  destruct (String.eqb (tc_name tc) "complete_phase"); [auto|].
  destruct (String.eqb (tc_name tc) "complete_validation"); [auto|].
  destruct (String.eqb (tc_name tc) "emergency_exit"); [auto|].
  simpl. exact IH.
Qed.

Lemma scan_exit_first (active : string) (pre post : list ToolCall) (tc : ToolCall) :
  no_signal pre = true -> is_exit_signal (tc_name tc) = true ->
  scan_tool_calls active (pre ++ tc :: post) = "reporter".
Proof.
  intros Hpre Hexit. rewrite (GraphFacts.scan_no_signal _ _ _ Hpre). simpl.
  unfold is_exit_signal in Hexit.
  destruct (String.eqb (tc_name tc) "complete_phase") eqn:H1.
  - apply String.eqb_eq in H1. rewrite H1 in Hexit. discriminate.
  - destruct (String.eqb (tc_name tc) "complete_validation"); [reflexivity|].
    simpl in Hexit. now rewrite Hexit.
Qed.

(** X11 -- the router and the edges of the graph.  For a state whose
    active specialist is the phase [P] and whose log is not empty: the
    node [route_specialist] names is a key of the edge mapping
    [build_graph] registers for [P] whenever [P] is the validator or the
    last message calls neither [complete_validation] nor
    [emergency_exit].  For the three earlier phases a last message whose
    first completion signal is one of these two makes the router answer
    [reporter], which the mapping of the phase does not contain. *)
Theorem route_specialist_within_edges (st : AgentState) (P : Phase) (m : Message) :
  active_specialist st = phase_name P ->
  last (messages st) = Some m ->
  (P = VALIDATOR
   \/ existsb (fun tc => is_exit_signal (tc_name tc)) (tool_calls_of m) = false ->
   In (route_specialist st) (conditional_edges P))
  /\ (P <> VALIDATOR ->
      forall pre tc post,
        tool_calls_of m = (pre ++ tc :: post)%list ->
        no_signal pre = true -> is_exit_signal (tc_name tc) = true ->
        route_specialist st = "reporter"
        /\ ~ In "reporter" (conditional_edges P)).
Proof.
  intros Hact Hlast. split.
  - intros Hcond. unfold route_specialist. rewrite Hlast, Hact.
    destruct (5 <=? non_tool_count (messages st))%nat.
    { rewrite GraphFacts.force_transition_phase. destruct P; simpl; auto. }
    destruct (no_tool_calls m); [destruct P; simpl; auto|].
    destruct (scan_tool_calls_range (phase_name P) (tool_calls_of m))
      as [->|[->|[-> Hexit]]].
    + destruct P; simpl; auto.
    + rewrite GraphFacts.phase_transition_phase. destruct P; simpl; auto.
    + destruct Hcond as [->|Hnone]; [simpl; auto | congruence].
  - intros HP pre tc post Hsplit Hpre Hexit. split.
    + rewrite (GraphFacts.route_with_tool_calls st m Hlast)
        by (rewrite Hsplit; destruct pre; discriminate).
      rewrite Hsplit. now apply scan_exit_first.
    + destruct P; simpl; try congruence; intuition discriminate.
Qed.

Lemma route_specialist_within_edges_witness :
  active_specialist architect_calls_complete_validation = phase_name ARCHITECT
  /\ route_specialist architect_calls_complete_validation = "reporter"
  /\ ~ In "reporter" (conditional_edges ARCHITECT).
Proof.
  split; [reflexivity|].
  refine (proj2 (route_specialist_within_edges
                   architect_calls_complete_validation ARCHITECT _ eq_refl eq_refl)
            _ []
            {| tc_name := "complete_validation"; tc_args := []; tc_id := "call-3" |}
            [] eq_refl eq_refl eq_refl).
  discriminate.
Defined.

Lemma last_app_nonempty {A} (l1 l2 : list A) :
  l2 <> [] -> last (l1 ++ l2) = last l2.
Proof.
  intros Hne. destruct (exists_last Hne) as (l & x & ->).
  rewrite app_assoc, !last_snoc. reflexivity.
Qed.

Lemma non_tool_count_recent (older recent : list Message) :
  (10 <= length recent)%nat ->
  non_tool_count (older ++ recent) = non_tool_count recent.
Proof.
  intros Hlen. unfold non_tool_count.
  rewrite !GraphFacts.rev_last_messages, rev_app_distr, firstn_app.
  replace (10 - length (rev recent))%nat with 0%nat
    by (rewrite length_rev; lia).
  simpl. now rewrite app_nil_r.
Qed.

(** X12 -- the router reads the last ten messages.  Two states with
    the same active specialist whose logs end in the same ten (or more)
    messages are routed alike: nothing older than the last ten messages
    of the log influences [route_specialist]. *)
Theorem route_specialist_last_ten (st st' : AgentState)
    (older older' recent : list Message) :
  active_specialist st = active_specialist st' ->
  messages st = (older ++ recent)%list ->
  messages st' = (older' ++ recent)%list ->
  (10 <= length recent)%nat ->
  route_specialist st = route_specialist st'.
Proof.
  intros Hact Hms Hms' Hlen. unfold route_specialist.
  assert (Hne : recent <> []) by (destruct recent; simpl in Hlen; [lia|discriminate]).
  rewrite Hms, Hms', !(last_app_nonempty _ _ Hne),
    !(non_tool_count_recent _ _ Hlen), Hact.
  reflexivity.
Qed.

Lemma route_specialist_last_ten_witness :
  route_specialist (long_log [HumanMessage "Analyse the repository."])
  = route_specialist (long_log [])
  /\ route_specialist (long_log []) = "validator".
Proof.
  split; [|reflexivity].
  apply (route_specialist_last_ten _ _ [HumanMessage "Analyse the repository."] []
           ten_idle_turns); [reflexivity | reflexivity | reflexivity |].
  unfold ten_idle_turns. rewrite repeat_length. lia.
Defined.

End RouterProps.

(* ===================================================================== *)
(** * Further properties of the broker *)
(* ===================================================================== *)

Module CacheProps.
Import Broker Inputs Shapes Cases.

Section Worlds.

Variable load_ignore_patterns load_ignore_patterns' : string -> result (list string).
Variable re_compile_error re_compile_error' : string -> option string.
Variable grep_walk grep_walk' :
  string -> list string -> list string -> (string -> list PyValue) * Z.
Variable dir_error dir_error' : string -> string -> option string.
Variable list_dir list_dir' : string -> string -> list string -> string.

(** A truthy entry of the cache survives every [submit]. *)
Lemma submit_keeps_entry (b : TaskBroker) (task_type : string)
    (payload : list (string * PyValue)) (k : string) (v : PyValue) :
  cache b !! k = Some v -> truthy v = true ->
  cache (snd (fst (submit load_ignore_patterns' re_compile_error' grep_walk'
                     dir_error' list_dir' b task_type payload))) !! k = Some v.
Proof.
  intros Hk Hv. unfold submit.
  generalize (_task_key task_type payload) as key. intros key.
  destruct (decide (key = k)) as [->|Hne].
  - rewrite Hk. cbn [from_option default]. rewrite Hv. exact Hk.
  - destruct (from_option truthy false (cache b !! key)); [exact Hk|].
    destruct (execute _ _ _ _ _ b task_type payload); cbn [fst snd cache];
      [|exact Hk].
    now rewrite lookup_insert_ne.
Qed.

Lemma after_requests_keeps_entry
    (requests : list (string * list (string * PyValue))) :
  forall (b : TaskBroker) (k : string) (v : PyValue),
    cache b !! k = Some v -> truthy v = true ->
    cache (after_requests load_ignore_patterns' re_compile_error' grep_walk'
             dir_error' list_dir' requests b) !! k = Some v.
Proof.
  induction requests as [|[t p] rest IH]; intros b k v Hk Hv; simpl;
    [exact Hk|].
  apply IH; [|exact Hv]. now apply submit_keeps_entry.
Qed.

(** X13 -- a cached result is permanent.  Once [submit] has returned a
    result for a task, every later [submit] of that task returns the same
    result and executes nothing, whatever requests were submitted in
    between and however the repository has changed since (the later calls
    may see a different file system): the cache is never invalidated and
    no entry is ever replaced. *)
Theorem cached_result_is_permanent (b b1 : TaskBroker) (task_type : string)
    (payload : list (string * PyValue)) (r : PyValue) (ex : list Execution)
    (requests : list (string * list (string * PyValue))) :
  submit load_ignore_patterns re_compile_error grep_walk dir_error list_dir
    b task_type payload = (Ok r, b1, ex) ->
  let b2 := after_requests load_ignore_patterns' re_compile_error' grep_walk'
              dir_error' list_dir' requests b1 in
  submit load_ignore_patterns' re_compile_error' grep_walk' dir_error' list_dir'
    b2 task_type payload = (Ok r, b2, []).
Proof.
  intros H b2.
  destruct (BrokerFacts.submit_returned _ _ _ _ _ _ _ _ _ _ _ H) as (Hc & Ht & _).
  apply BrokerFacts.submit_hit; [|exact Ht].
  now apply after_requests_keeps_entry.
Qed.

End Worlds.

Lemma cached_result_is_permanent_witness :
  submit readable_ignore no_compile_error empty_walk no_dir_error empty_listing
    (new_broker ".") "grep" grep_docker_payload
  = (Ok grep_docker_result, broker_after_grep, [Executed "grep" grep_docker_payload])
  /\ execute readable_ignore no_compile_error walk_with_dockerfile no_dir_error
       empty_listing broker_after_grep "grep" grep_docker_payload
     <> Ok grep_docker_result
  /\ fst (fst (submit readable_ignore no_compile_error walk_with_dockerfile
                 no_dir_error empty_listing
                 (after_requests readable_ignore no_compile_error
                    walk_with_dockerfile no_dir_error empty_listing
                    [("list_files", [("directory", PStr ".")])] broker_after_grep)
                 "grep" grep_docker_payload))
     = Ok grep_docker_result.
Proof.
  split; [exact BrokerFacts.submit_grep_docker|]. split; [discriminate|].
  rewrite (cached_result_is_permanent readable_ignore readable_ignore
             no_compile_error no_compile_error empty_walk walk_with_dockerfile
             no_dir_error no_dir_error empty_listing empty_listing
             (new_broker ".") broker_after_grep "grep" grep_docker_payload
             grep_docker_result [Executed "grep" grep_docker_payload]
             [("list_files", [("directory", PStr ".")])]
             BrokerFacts.submit_grep_docker).
  reflexivity.
Defined.

End CacheProps.

(* ===================================================================== *)
(** * Further properties of the run loop *)
(* ===================================================================== *)

Module EntryProps.
Import Lambda Entry Notions Inputs Shapes Cases.

(** ** The name of the repository *)

Lemma has_slash_app (x y : string) : has_slash (x ++ String "/" y) = true.
Proof.
  induction x as [|c x IH]; simpl; [reflexivity|].
  rewrite IH. apply orb_true_r.
Qed.

Lemma at_end_cases (s : string) : at_end s = true -> s = "" \/ s = Py.nl.
Proof.
  unfold at_end. intros H. apply orb_prop in H.
  destruct H as [H|H]; apply String.eqb_eq in H; auto.
Qed.

Lemma suffix_then_end_no_slash (s : string) :
  suffix_then_end s = true -> has_slash s = false.
Proof.
  unfold suffix_then_end. intros H. apply orb_prop in H. destruct H as [H|H].
  - apply andb_prop in H. destruct H as [Hsw Hend].
    destruct s as [|c1 [|c2 [|c3 [|c4 r]]]];
      cbn [Py.startswith] in Hsw;
      repeat match type of Hsw with
             | (if Ascii.eqb ?a ?b then _ else _) = true =>
                 let E := fresh "E" in
                 destruct (Ascii.eqb a b) eqn:E;
                 [apply Ascii.eqb_eq in E; subst b | discriminate Hsw]
             end; try discriminate Hsw.
    cbn [Py.drop] in Hend. destruct (at_end_cases _ Hend) as [-> | ->]; reflexivity.
  - destruct (at_end_cases _ H) as [-> | ->]; reflexivity.
Qed.

Lemma lazy_group_slash (x y : string) : lazy_group (x ++ String "/" y) = None.
Proof.
  induction x as [|c x IH]; simpl; [reflexivity|].
  destruct (Ascii.eqb c "/"); [reflexivity|].
  destruct (suffix_then_end (x ++ String "/" y)) eqn:Hs.
  - apply suffix_then_end_no_slash in Hs. rewrite has_slash_app in Hs. discriminate.
  - now rewrite IH.
Qed.

(** Only the last slash of a text can start a match. *)
Lemma search_last_slash (pre rest : string) :
  search_repo_name (pre ++ String "/" rest)
  = match lazy_group rest with
    | Some g => Some g
    | None => search_repo_name rest
    end.
Proof.
  induction pre as [|c pre IH]; simpl; [reflexivity|].
  rewrite IH. destruct (Ascii.eqb c "/"); [|reflexivity].
  now rewrite lazy_group_slash.
Qed.

Lemma name_char_plain (c : ascii) :
  is_name_char c = true ->
  Ascii.eqb c "/" = false /\ Ascii.eqb "." c = false /\ (Py.ord c =? 10)%nat = false.
Proof.
  destruct c as [[] [] [] [] [] [] [] []]; simpl; try discriminate; auto.
Qed.

Lemma name_head_no_end (c : ascii) (r : string) :
  is_name_char c = true -> suffix_then_end (String c r) = false.
Proof.
  intros Hc. destruct (name_char_plain c Hc) as (_ & Hdot & Hnl).
  unfold suffix_then_end, at_end. cbn [Py.startswith]. rewrite Hdot.
  cbn [andb orb String.eqb]. unfold Py.nl. cbn [String.eqb].
  destruct (Ascii.eqb_spec c (ascii_of_nat 10)) as [->|]; [discriminate|].
  reflexivity.
Qed.

Lemma lazy_group_name (name tail : string) :
  name <> "" -> name_chars_only name = true -> suffix_then_end tail = true ->
  lazy_group (name ++ tail) = Some name.
Proof.
  intros Hne Hall Htail. induction name as [|c name IH]; [congruence|].
  unfold name_chars_only in Hall. simpl in Hall.
  apply andb_prop in Hall. destruct Hall as [Hc Hall].
  destruct (name_char_plain c Hc) as (Hslash & _).
  change (String c name ++ tail) with (String c (name ++ tail)).
  cbn [lazy_group]. rewrite Hslash.
  destruct name as [|c' name'].
  - change ("" ++ tail) with tail. now rewrite Htail.
  - assert (Hc' : is_name_char c' = true)
      by (simpl in Hall; now apply andb_prop in Hall).
    change ((String c' name') ++ tail) with (String c' (name' ++ tail)).
    rewrite (name_head_no_end c' _ Hc').
    change (String c' (name' ++ tail)) with ((String c' name') ++ tail).
    rewrite IH; [reflexivity | discriminate | exact Hall].
Qed.

Lemma keep_name_chars_id (s : string) :
  name_chars_only s = true -> keep_name_chars s = s.
Proof.
  unfold name_chars_only. induction s as [|c s IH]; simpl; [reflexivity|].
  intros H. apply andb_prop in H. destruct H as [Hc Hs].
  now rewrite Hc, IH.
Qed.

Lemma append_empty_r (s : string) : s ++ "" = s.
Proof.
  induction s as [|c s IH]; [reflexivity|].
  change (String c s ++ "") with (String c (s ++ "")). now rewrite IH.
Qed.

Lemma append_assoc (a b c : string) : (a ++ b) ++ c = a ++ b ++ c.
Proof.
  induction a as [|x a IH]; [reflexivity|].
  change ((String x a ++ b) ++ c) with (String x ((a ++ b) ++ c)).
  now rewrite IH.
Qed.

(** X14 -- the repository name of a URL.  A URL that ends in a slash
    followed by a non-empty name of letters, digits, hyphens and
    underscores, with or without the suffix [.git], gives that name,
    whatever precedes the slash.  With one more slash at its end the same
    URL gives [unknown_repo]: a trailing slash is not removed before the
    search. *)
Theorem repo_name_of_url (pre name : string) :
  name <> "" -> name_chars_only name = true ->
  repo_name_of (pre ++ "/" ++ name) = name
  /\ repo_name_of (pre ++ "/" ++ name ++ ".git") = name
  /\ repo_name_of (pre ++ "/" ++ name ++ "/") = "unknown_repo".
Proof.
  intros Hne Hall. unfold repo_name_of. repeat split.
  - change (pre ++ "/" ++ name) with (pre ++ String "/" name).
    rewrite search_last_slash.
    rewrite <- (append_empty_r name) at 1.
    rewrite (lazy_group_name name "" Hne Hall eq_refl).
    now apply keep_name_chars_id.
  - change (pre ++ "/" ++ name ++ ".git") with (pre ++ String "/" (name ++ ".git")).
    rewrite search_last_slash.
    rewrite (lazy_group_name name ".git" Hne Hall eq_refl).
    now apply keep_name_chars_id.
  - change (pre ++ "/" ++ name ++ "/") with (pre ++ String "/" (name ++ String "/" "")).
    rewrite search_last_slash, lazy_group_slash.
    rewrite <- (append_empty_r name) at 1. rewrite append_assoc.
    change ("" ++ String "/" "") with (String "/" "").
    rewrite search_last_slash. reflexivity.
Qed.

Lemma repo_name_of_url_witness :
  repo_name_of "https://github.com/acme/cost-engine_v2" = "cost-engine_v2"
  /\ repo_name_of "https://github.com/acme/cost-engine_v2.git" = "cost-engine_v2"
  /\ repo_name_of "https://github.com/acme/cost-engine_v2/" = "unknown_repo".
Proof.
  exact (repo_name_of_url "https://github.com/acme" "cost-engine_v2"
           ltac:(discriminate) eq_refl).
Defined.

Lemma keep_name_chars_only (s : string) : name_chars_only (keep_name_chars s) = true.
Proof.
  unfold name_chars_only. induction s as [|c s IH]; simpl; [reflexivity|].
  destruct (is_name_char c) eqn:Hc; [|exact IH].
  simpl. now rewrite Hc, IH.
Qed.

(** X15 -- the characters of a repository name.  Whatever the URL, the
    name [handle_scan] derives from it consists of letters, digits,
    hyphens and underscores only: it holds no slash, no dot and no space,
    so the storage keys built from it have the path segments the code
    writes and no others.  The name may be empty. *)
Theorem repo_name_of_chars (repo_url : string) :
  name_chars_only (repo_name_of repo_url) = true
  /\ has_slash (repo_name_of repo_url) = false.
Proof.
  assert (H : name_chars_only (repo_name_of repo_url) = true)
    by apply keep_name_chars_only.
  split; [exact H|].
  revert H. generalize (repo_name_of repo_url) as s. unfold name_chars_only.
  induction s as [|c s IH]; simpl; [reflexivity|].
  intros Hs. apply andb_prop in Hs. destruct Hs as [Hc Hs].
  destruct (name_char_plain c Hc) as (-> & _). simpl. now apply IH.
Qed.

(** ** The last status of a run *)

Lemma last_update_scan_status (table : list StatusRecord) (s m q : string) :
  last (update_scan_status table s m q)
  = Some {| status := s; message := m; current_question := q |}.
Proof. unfold update_scan_status. apply last_snoc. Qed.





(** ** What a resume leaves on the record *)

Lemma item_after_update (table : list StatusRecord) (s m q : string) :
  item_after (update_scan_status table s m q)
  = write_item (item_after table)
      {| status := s; message := m; current_question := q |}.
Proof. unfold item_after, update_scan_status. now rewrite fold_left_app. Qed.

Lemma question_after_update (table : list StatusRecord) (s m q : string) :
  question_of (update_scan_status table s m q)
  = if String.eqb q "" then question_of table else Some q.
Proof.
  unfold question_of. rewrite item_after_update. cbn.
  destruct (String.eqb q ""); [|reflexivity].
  destruct (item_after table); reflexivity.
Qed.

Lemma resume_loop_question (events : list StepEvent) :
  forall table,
    statusCode (fst (resume_loop table events)) <> 202 ->
    question_of (snd (resume_loop table events)) = question_of table.
Proof.
  induction events as [|[elapsed step_messages|e] rest IH]; intros table;
    cbn [resume_loop].
  - intros _. cbn [snd]. now rewrite question_after_update.
  - destruct (last step_messages); [|apply IH].
    intros H. rewrite (IH _ H). now rewrite question_after_update.
  - unfold on_resume_exception. destruct e; cbn [fst snd statusCode];
      intros H; try congruence; now rewrite question_after_update.
Qed.

(** X17 -- the question stays on the record.  [update_scan_status]
    writes [current_question] only when it is given a non-empty
    question, and only a pause gives one.  So for every resume request
    that does not pause again (it completes, fails or is refused), the
    item of the scan carries after [handle_resume] the same question as
    before it: the question that was answered is still on the record of
    a completed scan. *)
Theorem handle_resume_keeps_question (table : list StatusRecord) (req : Resume) :
  statusCode (fst (handle_resume table req)) <> 202 ->
  match item_after (snd (handle_resume table req)) with
  | Some item => item_current_question item
  | None => None
  end
  = match item_after table with
    | Some item => item_current_question item
    | None => None
    end.
Proof.
  change (statusCode (fst (handle_resume table req)) <> 202 ->
          question_of (snd (handle_resume table req)) = question_of table).
  unfold handle_resume.
  destruct (_ || _ || _); [reflexivity|].
  destruct (negb (repo_dir_exists req) && String.eqb (resume_repo_url req) "");
    [intros _; cbn [snd]; now rewrite question_after_update|].
  destruct (negb (repo_dir_exists req) && negb (resume_clone_ok req));
    [intros _; cbn [snd]; now rewrite question_after_update|].
  destruct (resume_setup req) as [[]|e].
  - destruct (snapshot_found req); cbn [negb].
    + intros H. rewrite (resume_loop_question _ _ H).
      now rewrite question_after_update.
    + intros _. cbn [snd]. now rewrite question_after_update.
  - unfold on_resume_exception. destruct e; cbn [fst snd statusCode];
      intros H; try congruence; rewrite !question_after_update; reflexivity.
Qed.

Lemma handle_resume_keeps_question_witness :
  statusCode (fst (handle_resume (snd (handle_scan [] scan_with_question))
                     resume_with_answer)) = 200
  /\ match item_after (snd (handle_resume (snd (handle_scan [] scan_with_question))
                              resume_with_answer)) with
     | Some item => item_current_question item
     | None => None
     end = Some "What is the monthly API budget?".
Proof.
  split; [reflexivity|].
  rewrite (handle_resume_keeps_question
             (snd (handle_scan [] scan_with_question)) resume_with_answer
             ltac:(discriminate)).
  reflexivity.
Defined.

(** X18 -- a refused resume leaves the record at RUNNING.  A resume
    request that names its scan, answer and repository is marked RUNNING
    before anything is checked.  When the handler then answers without
    running the graph (the repository is gone and no URL was given, the
    clone fails, or the checkpoint holds no state), that write is the
    last one: the record says RUNNING although nothing runs. *)
Theorem handle_resume_refused_stays_running (table : list StatusRecord) (req : Resume) :
  scan_id req <> "" -> answer req <> "" -> repo_name req <> "" ->
  In (body_status (fst (handle_resume table req)))
     ["Cannot resume without repo_url"; "Failed to restore repo for resume";
      "Scan state not found"] ->
  last (snd (handle_resume table req))
  = Some {| status := "RUNNING";
            message := "Resuming with answer: " ++ Py.take 50 (answer req) ++ "...";
            current_question := "" |}.
Proof.
  intros H1 H2 H3. apply String.eqb_neq in H1, H2, H3.
  unfold handle_resume. rewrite H1, H2, H3. cbn [orb].
  destruct (negb (repo_dir_exists req) && String.eqb (resume_repo_url req) "");
    [intros _; apply last_update_scan_status|].
  destruct (negb (repo_dir_exists req) && negb (resume_clone_ok req));
    [intros _; apply last_update_scan_status|].
  destruct (resume_setup req) as [[]|e].
  - destruct (snapshot_found req); cbn [negb];
      [|intros _; apply last_update_scan_status].
    generalize (update_scan_status table "RUNNING"
                  ("Resuming with answer: " ++ Py.take 50 (answer req) ++ "...") "").
    induction (resume_steps req) as [|[elapsed step_messages|e] rest IH];
      intros t; cbn [resume_loop].
    + cbn. intuition discriminate.
    + destruct (last step_messages); apply IH.
    + unfold on_resume_exception. destruct e; cbn; intuition discriminate.
  - unfold on_resume_exception. destruct e; cbn; intuition discriminate.
Qed.

Lemma handle_resume_refused_stays_running_witness :
  body_status (fst (handle_resume [] resume_without_snapshot)) = "Scan state not found"
  /\ option_map status (last (snd (handle_resume [] resume_without_snapshot)))
     = Some "RUNNING".
Proof.
  split; [reflexivity|].
  rewrite (handle_resume_refused_stays_running [] resume_without_snapshot);
    [reflexivity | discriminate | discriminate | discriminate |].
  simpl. auto.
Defined.

(** ** The answer put into a paused run *)

Lemma ask_human_call_id_spec (tcs : list ToolCall) :
  forall (acc : option string),
    (acc = None \/ acc = Some "") ->
    (exists pre tc post,
        tcs = (pre ++ tc :: post)%list
        /\ asks_human tc = true /\ tc_id tc <> ""
        /\ forallb (fun t => negb (asks_human t && negb (String.eqb (tc_id t) ""))) pre
           = true
        /\ ask_human_call_id tcs acc = Some (tc_id tc))
    \/ (forallb (fun t => negb (asks_human t && negb (String.eqb (tc_id t) ""))) tcs
        = true
        /\ (ask_human_call_id tcs acc = None \/ ask_human_call_id tcs acc = Some "")).
Proof.
  induction tcs as [|tc tcs IH]; intros acc Hacc; cbn [ask_human_call_id].
  - right. split; [reflexivity|exact Hacc].
  - change (String.eqb (tc_name tc) "ask_human"
            || String.eqb (tc_name tc) "ask_human_lambda") with (asks_human tc).
    destruct (asks_human tc) eqn:Hask.
    + destruct (String.eqb (tc_id tc) "") eqn:Hid.
      * apply String.eqb_eq in Hid. rewrite Hid.
        destruct (IH (Some "") (or_intror eq_refl))
          as [(pre & tc' & post & -> & Ha & Hi & Hpre & Hr)|[Hall Hr]].
        -- left. exists (tc :: pre), tc', post. cbn [forallb app].
           rewrite Hask, Hid. cbn. auto.
        -- right. cbn [forallb]. rewrite Hask, Hid. cbn. auto.
      * left. exists [], tc, tcs. apply String.eqb_neq in Hid. cbn. auto.
    + destruct (IH acc Hacc)
        as [(pre & tc' & post & -> & Ha & Hi & Hpre & Hr)|[Hall Hr]].
      * left. exists (tc :: pre), tc', post. cbn [forallb app].
        rewrite Hask. cbn. auto.
      * right. cbn [forallb]. rewrite Hask. cbn. auto.
Qed.

(** X19 -- where the answer goes.  [handle_resume] always puts the
    user's answer into the run.  It is written as the result of a tool
    call exactly when the last message holds a call of [ask_human] or
    [ask_human_lambda] with a non-empty id, and then it answers the first
    such call; in every other case it is written as a human message.
    [LocalRunner.run_scan] answers the first tool call whatever its name,
    so the two agree when that call is the one that asked. *)
Theorem answer_message_target (last_message : Message) (answer : string) :
  ((exists pre tc post,
       tool_calls_of last_message = (pre ++ tc :: post)%list
       /\ asks_human tc = true /\ tc_id tc <> ""
       /\ forallb (fun t => negb (asks_human t && negb (String.eqb (tc_id t) ""))) pre
          = true
       /\ answer_message last_message answer
          = (ToolMessage ("User Answer: " ++ answer) (tc_id tc), true)
       /\ (pre = [] ->
           local_answer_message last_message answer
           = answer_message last_message answer))
   \/ (forallb (fun t => negb (asks_human t && negb (String.eqb (tc_id t) "")))
         (tool_calls_of last_message) = true
       /\ answer_message last_message answer
          = (HumanMessage ("Here is the answer to your question: " ++ answer), false))).
Proof.
  unfold answer_message, no_tool_calls.
  destruct (tool_calls_of last_message) as [|tc0 tcs0] eqn:Htcs.
  - right. split; reflexivity.
  - rewrite <- Htcs.
    destruct (ask_human_call_id_spec (tool_calls_of last_message) None
                (or_introl eq_refl))
      as [(pre & tc & post & Hsplit & Ha & Hi & Hpre & Hr)|[Hall [Hr|Hr]]];
      rewrite Hr.
    + left. exists pre, tc, post.
      apply String.eqb_neq in Hi. rewrite Hi. apply String.eqb_neq in Hi.
      repeat (split; [assumption || reflexivity|]).
      intros ->. unfold local_answer_message. rewrite Hsplit. reflexivity.
    + right. split; [exact Hall|reflexivity].
    + right. split; [exact Hall|reflexivity].
Qed.

End EntryProps.

(* ===================================================================== *)
(** * Properties of the price lookup *)
(* ===================================================================== *)

Module PricingProps.
Import Pricing Cases.

Lemma startswith_refl (s : string) : Py.startswith s s = true.
Proof. induction s as [|c s IH]; simpl; [reflexivity|]. now rewrite Ascii.eqb_refl. Qed.

Lemma startswith_empty (s : string) : Py.startswith s "" = true.
Proof. destruct s; reflexivity. Qed.

Lemma contains_refl (s : string) : Py.contains s s = true.
Proof. destruct s; simpl; [reflexivity|]. now rewrite Ascii.eqb_refl, startswith_refl. Qed.

Lemma contains_empty (s : string) : Py.contains s "" = true.
Proof. destruct s; reflexivity. Qed.

Lemma get_In {V} (d : list (string * V)) (k : string) (v : V) :
  Dict.get d k = Some v -> In (k, v) d.
Proof.
  induction d as [|[k' v'] d IH]; simpl; [discriminate|].
  destruct (String.eqb_spec k' k) as [->|].
  - intros [= ->]. now left.
  - intros H. right. now apply IH.
Qed.

Lemma get_None {V} (d : list (string * V)) (k : string) :
  Dict.get d k = None -> forall v, ~ In (k, v) d.
Proof.
  induction d as [|[k' v'] d IH]; simpl; [tauto|].
  destruct (String.eqb_spec k' k) as [->|Hne]; [discriminate|].
  intros H v [[= -> _]|Hin]; [congruence | eapply IH; eauto].
Qed.

Lemma first_match_Some {V} (test : string -> bool) (d : list (string * V)) (v : V) :
  first_match test d = Some v -> exists k, In (k, v) d /\ test k = true.
Proof.
  induction d as [|[k' v'] d IH]; simpl; [discriminate|].
  destruct (test k') eqn:Ht.
  - intros [= ->]. eauto.
  - intros H. destruct (IH H) as (k & Hin & Hk). eauto.
Qed.

Lemma first_match_None {V} (test : string -> bool) (d : list (string * V)) :
  first_match test d = None <-> forall k v, In (k, v) d -> test k = false.
Proof.
  induction d as [|[k' v'] d IH]; simpl; [split; [tauto|reflexivity]|].
  destruct (test k') eqn:Ht.
  - split; [discriminate|]. intros H. specialize (H k' v' (or_introl eq_refl)).
    congruence.
  - rewrite IH. split.
    + intros H k v [[= <- <-]|Hin]; [exact Ht | eapply H, Hin].
    + intros H k v Hin. eapply H. right. exact Hin.
Qed.

(** X20 -- what the lookup returns.  [fuzzy_match_metric] returns an
    entry of the pricing cache whose key contains the normalized metric
    or is contained in it, and it returns [None] exactly when no key of
    the cache is related to the normalized metric in either way.  The
    fourth step of the function, the fallback to a generic key, is never
    the one that answers: whenever it would match, the third step has
    matched already.  The empty metric is contained in every key, so it
    finds a price in every cache that is not empty. *)
Theorem fuzzy_match_metric_related {V} (pricing_cache : list (string * V))
    (metric : string) :
  (forall data,
      fuzzy_match_metric pricing_cache metric = Some data ->
      exists key,
        In (key, data) pricing_cache
        /\ (Py.contains key (normalize metric) = true
            \/ Py.contains (normalize metric) key = true))
  /\ (fuzzy_match_metric pricing_cache metric = None <->
      forall key data,
        In (key, data) pricing_cache ->
        Py.contains key (normalize metric) = false
        /\ Py.contains (normalize metric) key = false)
  /\ (pricing_cache <> [] -> fuzzy_match_metric pricing_cache "" <> None).
Proof.
  assert (Hnone : fuzzy_match_metric pricing_cache metric = None <->
            forall key data,
              In (key, data) pricing_cache ->
              Py.contains key (normalize metric) = false
              /\ Py.contains (normalize metric) key = false).
  { unfold fuzzy_match_metric.
    destruct (Dict.get pricing_cache (normalize metric)) as [data|] eqn:Hget.
    { split; [discriminate|]. intros H.
      destruct (H _ _ (get_In _ _ _ Hget)) as [H1 _].
      rewrite contains_refl in H1. discriminate. }
    destruct (first_match (fun key => Py.contains key (normalize metric))
                pricing_cache) as [data|] eqn:H2.
    { split; [discriminate|]. intros H.
      destruct (first_match_Some _ _ _ H2) as (k & Hin & Hk).
      destruct (H _ _ Hin) as [H1 _]. congruence. }
    destruct (first_match (fun key => Py.contains (normalize metric) key)
                pricing_cache) as [data|] eqn:H3.
    { split; [discriminate|]. intros H.
      destruct (first_match_Some _ _ _ H3) as (k & Hin & Hk).
      destruct (H _ _ Hin) as [_ H1]. congruence. }
    pose proof (proj1 (first_match_None _ _) H2) as N2.
    pose proof (proj1 (first_match_None _ _) H3) as N3.
    destruct (List.filter _ generic_keys) as [|g l] eqn:Hf.
    - split; [|reflexivity]. intros _ key data Hin.
      split; [eapply N2, Hin | eapply N3, Hin].
    - exfalso.
      assert (Hg : In g (g :: l)) by (left; reflexivity).
      rewrite <- Hf in Hg. apply filter_In in Hg. destruct Hg as [_ Hg].
      apply andb_prop in Hg. destruct Hg as [Hsub Hmem].
      unfold Dict.mem in Hmem.
      destruct (Dict.get pricing_cache g) as [v|] eqn:Hgg; [|discriminate].
      pose proof (N3 _ _ (get_In _ _ _ Hgg)) as Hno. cbn beta in Hno. congruence. }
  split; [|split; [exact Hnone|]].
  - intros data. unfold fuzzy_match_metric.
    destruct (Dict.get pricing_cache (normalize metric)) as [d|] eqn:Hget.
    { intros [= ->]. exists (normalize metric).
      split; [now apply get_In | left; apply contains_refl]. }
    destruct (first_match (fun key => Py.contains key (normalize metric))
                pricing_cache) as [d|] eqn:H2.
    { intros [= ->]. destruct (first_match_Some _ _ _ H2) as (k & Hin & Hk). eauto. }
    destruct (first_match (fun key => Py.contains (normalize metric) key)
                pricing_cache) as [d|] eqn:H3.
    { intros [= ->]. destruct (first_match_Some _ _ _ H3) as (k & Hin & Hk). eauto. }
    destruct (List.filter _ generic_keys) as [|g l] eqn:Hf; [discriminate|].
    intros Hgg. exists g. split; [now apply get_In|].
    assert (Hg : In g (g :: l)) by (left; reflexivity).
    rewrite <- Hf in Hg. apply filter_In in Hg. destruct Hg as [_ Hg].
    apply andb_prop in Hg. tauto.
  - intros Hne Hnone'. destruct pricing_cache as [|[k v] rest]; [congruence|].
    unfold fuzzy_match_metric in Hnone'. change (normalize "") with "" in Hnone'.
    destruct (Dict.get ((k, v) :: rest) ""); [discriminate|].
    cbn [first_match] in Hnone'. rewrite contains_empty in Hnone'. discriminate.
Qed.

Lemma lower_upper_char (c : ascii) : Py.lower_char (Py.upper_char c) = Py.lower_char c.
Proof. destruct c as [[] [] [] [] [] [] [] []]; reflexivity. Qed.

Lemma lower_upper (s : string) : Py.lower (Py.upper s) = Py.lower s.
Proof. induction s as [|c s IH]; simpl; [reflexivity|]. now rewrite lower_upper_char, IH. Qed.

Lemma normalize_separators (old : ascii) (s : string) :
  In old [" "%char; "_"%char; "-"%char] ->
  normalize (replace_char old "-" s) = normalize s
  /\ normalize (replace_char old "_" s) = normalize s
  /\ normalize (replace_char old " " s) = normalize s.
Proof.
  intros Hold. unfold normalize.
  induction s as [|c s (IH1 & IH2 & IH3)]; [repeat split|].
  cbn [replace_char Py.lower]. rewrite IH1, IH2, IH3.
  repeat split; f_equal;
    simpl in Hold; destruct Hold as [<-|[<-|[<-|[]]]];
    destruct c as [[] [] [] [] [] [] [] []]; reflexivity.
Qed.

(** X21 -- the lookup ignores case and separators.  Two spellings of a
    metric (a text of ASCII characters, as every [str] of this model)
    that differ in the case of their letters, or in which of space,
    underscore and hyphen separates their words, find the same entry of
    every pricing cache. *)
Theorem fuzzy_match_metric_spelling {V} (pricing_cache : list (string * V))
    (metric : string) :
  fuzzy_match_metric pricing_cache (Py.upper metric)
  = fuzzy_match_metric pricing_cache metric
  /\ fuzzy_match_metric pricing_cache (Py.lower metric)
     = fuzzy_match_metric pricing_cache metric
  /\ forall old new,
      In old [" "%char; "_"%char; "-"%char] ->
      In new [" "%char; "_"%char; "-"%char] ->
      fuzzy_match_metric pricing_cache (replace_char old new metric)
      = fuzzy_match_metric pricing_cache metric.
Proof.
  assert (Hsame : forall m m', normalize m = normalize m' ->
            fuzzy_match_metric pricing_cache m = fuzzy_match_metric pricing_cache m')
    by (intros m m' H; unfold fuzzy_match_metric; now rewrite H).
  split; [|split].
  - apply Hsame. unfold normalize. now rewrite lower_upper.
  - apply Hsame. unfold normalize. f_equal. f_equal.
    induction metric as [|c s IH]; simpl; [reflexivity|]. rewrite IH. f_equal.
    destruct c as [[] [] [] [] [] [] [] []]; reflexivity.
  - intros old new Hold Hnew. apply Hsame.
    destruct (normalize_separators old metric Hold) as (H1 & H2 & H3).
    simpl in Hnew. destruct Hnew as [<-|[<-|[<-|[]]]]; assumption.
Qed.

End PricingProps.

(* ===================================================================== *)
(** * Properties of the path checks *)
(* ===================================================================== *)

Module PathProps.
Import Path Ignore Visited Shapes Cases.

(** ** Strings *)

Lemma app_cons (c : ascii) (s t : string) : String c s ++ t = String c (s ++ t).
Proof. reflexivity. Qed.

Lemma app_empty_r (s : string) : s ++ "" = s.
Proof. induction s as [|c s IH]; [reflexivity|]. now rewrite app_cons, IH. Qed.

Lemma app_assoc' (a b c : string) : (a ++ b) ++ c = a ++ b ++ c.
Proof. induction a as [|x a IH]; [reflexivity|]. now rewrite !app_cons, IH. Qed.

Lemma startswith_app (p s : string) : Py.startswith (p ++ s) p = true.
Proof.
  induction p as [|c p IH]; [destruct s; reflexivity|].
  rewrite app_cons. cbn [Py.startswith]. now rewrite Ascii.eqb_refl.
Qed.

Lemma startswith_longer (s p : string) :
  (String.length s < String.length p)%nat -> Py.startswith s p = false.
Proof.
  revert s. induction p as [|c p IH]; intros s; cbn [String.length]; [lia|].
  destruct s as [|d s]; cbn [String.length Py.startswith]; [reflexivity|].
  intros H. destruct (Ascii.eqb c d); [apply IH; lia | reflexivity].
Qed.

Lemma length_app (a b : string) :
  String.length (a ++ b) = (String.length a + String.length b)%nat.
Proof. induction a as [|c a IH]; [reflexivity|]. rewrite app_cons. simpl. now rewrite IH. Qed.

Lemma split_nonempty (s : string) : split s <> [].
Proof.
  induction s as [|c s IH]; cbn [split]; [discriminate|].
  destruct (Ascii.eqb c "/"); [discriminate|].
  destruct (split s); discriminate.
Qed.

Lemma split_app_slash (a b : string) :
  split (a ++ String "/" b) = (split a ++ split b)%list.
Proof.
  induction a as [|c a IH]; [reflexivity|].
  rewrite app_cons. cbn [split]. rewrite IH.
  destruct (Ascii.eqb c "/"); [reflexivity|].
  destruct (split a) as [|x xs] eqn:Hs; [now apply split_nonempty in Hs|].
  reflexivity.
Qed.

Lemma split_no_slash (s : string) : no_slash s = true -> split s = [s].
Proof.
  unfold no_slash. induction s as [|c s IH]; [reflexivity|].
  cbn [list_ascii_of_string forallb split]. intros H.
  apply andb_prop in H. destruct H as [Hc Hs].
  apply negb_true_iff in Hc. rewrite Hc, (IH Hs). reflexivity.
Qed.

Lemma join_cons (x y : string) (l : list string) :
  Py.join "/" (x :: y :: l) = x ++ String "/" (Py.join "/" (y :: l)).
Proof. reflexivity. Qed.

Lemma split_join (cs : list string) :
  cs <> [] -> forallb no_slash cs = true -> split (Py.join "/" cs) = cs.
Proof.
  induction cs as [|x [|y l] IH]; [congruence| |].
  - intros _ H. cbn in H. rewrite andb_true_r in H. cbn [Py.join].
    now apply split_no_slash.
  - intros _ H. cbn [forallb] in H. apply andb_prop in H. destruct H as [Hx Hl].
    rewrite join_cons, split_app_slash, (split_no_slash x Hx), IH;
      [reflexivity | discriminate | exact Hl].
Qed.

Lemma join_app (l1 l2 : list string) :
  l1 <> [] -> l2 <> [] ->
  Py.join "/" (l1 ++ l2) = Py.join "/" l1 ++ String "/" (Py.join "/" l2).
Proof.
  intros H1 H2. induction l1 as [|x [|y l] IH]; [congruence| |].
  - destruct l2 as [|z l2]; [congruence|]. reflexivity.
  - change ((x :: y :: l) ++ l2)%list with (x :: y :: (l ++ l2))%list.
    rewrite !join_cons.
    change (y :: (l ++ l2))%list with ((y :: l) ++ l2)%list.
    rewrite IH by discriminate. now rewrite app_assoc'.
Qed.

Lemma join_snoc (l : list string) (x suffix : string) :
  Py.join "/" (l ++ [x ++ suffix]) = Py.join "/" (l ++ [x]) ++ suffix.
Proof.
  destruct l as [|y l]; [reflexivity|].
  rewrite !join_app by discriminate. cbn [Py.join]. now rewrite app_assoc'.
Qed.

Lemma plain_no_slash (l : list string) :
  forallb plain l = true -> forallb no_slash l = true.
Proof.
  induction l as [|x l IH]; [reflexivity|]. cbn [forallb]. intros H.
  apply andb_prop in H. destruct H as [Hx Hl]. rewrite (IH Hl), andb_true_r.
  unfold plain in Hx. repeat (apply andb_prop in Hx; destruct Hx as [Hx ?]).
  exact Hx.
Qed.

Lemma norm_step_plain (initial : nat) (st : list string) (x : string) :
  plain x = true -> norm_step initial st x = (st ++ [x])%list.
Proof.
  unfold plain, norm_step. intros H.
  repeat (apply andb_prop in H; destruct H as [H ?]).
  repeat match goal with
         | E : negb _ = true |- _ => apply negb_true_iff in E; rewrite E
         end.
  reflexivity.
Qed.

Lemma fold_plain (initial : nat) (l st : list string) :
  forallb plain l = true ->
  fold_left (norm_step initial) l st = (st ++ l)%list.
Proof.
  revert st. induction l as [|x l IH]; intros st; cbn [forallb fold_left].
  - intros _. now rewrite app_nil_r.
  - intros H. apply andb_prop in H. destruct H as [Hx Hl].
    rewrite (norm_step_plain _ _ _ Hx), (IH _ Hl), <- app_assoc. reflexivity.
Qed.

Lemma rooted_nonempty (l : list string) : String.eqb (rooted l) "" = false.
Proof. reflexivity. Qed.

Lemma nonslash_head (x s : string) :
  no_slash x = true -> x <> "" ->
  exists c r, x ++ s = String c r /\ Ascii.eqb c "/" = false.
Proof.
  unfold no_slash. intros H Hne. destruct x as [|c x]; [congruence|].
  cbn in H. apply andb_prop in H. destruct H as [Hc _].
  apply negb_true_iff in Hc. exists c, (x ++ s). auto.
Qed.

Lemma plain_parts (x : string) :
  plain x = true ->
  no_slash x = true /\ x <> "" /\ String.eqb x "." = false
  /\ String.eqb x ".." = false.
Proof.
  unfold plain. intros H.
  repeat (apply andb_prop in H; destruct H as [H ?]).
  repeat match goal with
         | E : negb _ = true |- _ => apply negb_true_iff in E
         end.
  repeat split; auto. now apply String.eqb_neq.
Qed.

Lemma join_head (x : string) (l : list string) :
  plain x = true ->
  exists c r, Py.join "/" (x :: l) = String c r /\ Ascii.eqb c "/" = false.
Proof.
  intros Hx. destruct (plain_parts x Hx) as (Hs & Hne & _).
  destruct l as [|y l].
  - cbn [Py.join]. rewrite <- (app_empty_r x). now apply nonslash_head.
  - rewrite join_cons. now apply nonslash_head.
Qed.

Lemma initial_slashes_rooted (x : string) (l : list string) (p : string) :
  plain x = true -> initial_slashes (rooted (x :: l) ++ p) = 1%nat.
Proof.
  intros Hx. unfold rooted, initial_slashes.
  destruct (join_head x l Hx) as (c & r & -> & Hc).
  rewrite !app_cons. cbn [Py.startswith]. rewrite Ascii.eqb_refl.
  rewrite Ascii.eqb_sym in Hc. rewrite Hc. reflexivity.
Qed.

(** The normal form of a path that continues a rooted path of plain
    components: the components of the continuation are folded in. *)
Lemma normpath_continue (l : list string) (p : string) :
  l <> [] -> forallb plain l = true ->
  normpath (rooted l ++ String "/" p)
  = rooted (fold_left (norm_step 1) (split p) l).
Proof.
  intros Hne Hl. destruct l as [|x l]; [congruence|].
  assert (Hx : plain x = true) by (cbn in Hl; now apply andb_prop in Hl).
  unfold normpath.
  rewrite (initial_slashes_rooted x l _ Hx).
  change (String.eqb (rooted (x :: l) ++ String "/" p) "") with false. cbv iota.
  assert (Hsplit : split (rooted (x :: l) ++ String "/" p)
                   = ("" :: (x :: l) ++ split p)%list).
  { rewrite split_app_slash. unfold rooted.
    change (split (String "/" (Py.join "/" (x :: l))))
      with ("" :: split (Py.join "/" (x :: l))).
    rewrite split_join; [reflexivity | discriminate | now apply plain_no_slash]. }
  rewrite Hsplit. cbn [fold_left]. change (norm_step 1 [] "") with (@nil string).
  rewrite fold_left_app, (fold_plain 1 (x :: l) [] Hl). cbn [app].
  set (comps := fold_left _ (split p) _).
  change (slashes 1 ++ Py.join "/" comps) with (rooted comps).
  now rewrite rooted_nonempty.
Qed.

Lemma normpath_plain (l : list string) :
  l <> [] -> forallb plain l = true -> normpath (rooted l) = rooted l.
Proof.
  intros Hne Hl. destruct l as [|x l]; [congruence|].
  assert (Hx : plain x = true) by (cbn in Hl; now apply andb_prop in Hl).
  assert (Hi : initial_slashes (rooted (x :: l)) = 1%nat).
  { rewrite <- (app_empty_r (rooted (x :: l))). now apply initial_slashes_rooted. }
  assert (Hsplit : split (rooted (x :: l)) = "" :: x :: l).
  { unfold rooted.
    change (split (String "/" (Py.join "/" (x :: l))))
      with ("" :: split (Py.join "/" (x :: l))).
    rewrite split_join; [reflexivity|discriminate|now apply plain_no_slash]. }
  unfold normpath. rewrite rooted_nonempty, Hi, Hsplit.
  change (fold_left (norm_step 1) ("" :: x :: l) [])
    with (fold_left (norm_step 1) (x :: l) []).
  rewrite (fold_plain 1 (x :: l) [] Hl). cbn [app].
  change (slashes 1 ++ Py.join "/" (x :: l)) with (rooted (x :: l)).
  now rewrite rooted_nonempty.
Qed.

Lemma abspath_rooted (cwd : string) (l : list string) (p : string) :
  abspath cwd (rooted l ++ p) = normpath (rooted l ++ p).
Proof.
  unfold abspath, rooted. rewrite app_cons. cbn [Py.startswith].
  now rewrite Ascii.eqb_refl, PricingProps.startswith_empty.
Qed.

(** The last character of a text, as a text. *)
Lemma drop_last_app (a x : string) :
  x <> "" ->
  Py.drop (String.length (a ++ x) - 1) (a ++ x) = Py.drop (String.length x - 1) x.
Proof.
  intros Hx. induction a as [|c a IH]; [reflexivity|].
  rewrite app_cons. cbn [String.length].
  assert (Hlen : (String.length (a ++ x) = S (String.length (a ++ x) - 1))%nat).
  { rewrite length_app. destruct x; [congruence|]. cbn [String.length]. lia. }
  replace (S (String.length (a ++ x)) - 1)%nat with (String.length (a ++ x)) by lia.
  rewrite Hlen. cbn [Py.drop]. exact IH.
Qed.

Lemma drop_last_no_slash (x : string) :
  no_slash x = true -> x <> "" ->
  String.eqb (Py.drop (String.length x - 1) x) "/" = false.
Proof.
  unfold no_slash. induction x as [|c x IH]; [congruence|].
  cbn [list_ascii_of_string forallb]. intros H _.
  apply andb_prop in H. destruct H as [Hc Hx].
  destruct x as [|d x].
  - cbn. apply negb_true_iff in Hc. now rewrite Hc.
  - change (String c (String d x)) with (String c "" ++ String d x).
    rewrite drop_last_app by discriminate.
    apply IH; [exact Hx | discriminate].
Qed.

Lemma endswith_no_slash (a x : string) :
  no_slash x = true -> x <> "" -> Py.endswith (a ++ x) "/" = false.
Proof.
  intros Hs Hne. unfold Py.endswith.
  change (String.length "/") with 1%nat.
  rewrite (drop_last_app a x Hne), (drop_last_no_slash x Hs Hne).
  apply andb_false_r.
Qed.

Lemma rooted_snoc (l : list string) (x : string) :
  exists a, rooted (l ++ [x]) = a ++ x.
Proof.
  destruct l as [|y l].
  - exists "/". reflexivity.
  - exists (rooted (y :: l) ++ "/"). unfold rooted.
    rewrite join_app by discriminate. cbn [Py.join].
    now rewrite !app_cons, app_assoc'.
Qed.

Lemma rooted_no_trailing_slash (l : list string) :
  l <> [] -> forallb plain l = true -> Py.endswith (rooted l) "/" = false.
Proof.
  intros Hne Hl. destruct (exists_last Hne) as (l' & x & ->).
  rewrite forallb_app in Hl. apply andb_prop in Hl. destruct Hl as [_ Hx].
  cbn in Hx. rewrite andb_true_r in Hx.
  destruct (plain_parts x Hx) as (Hs & Hn & _).
  destruct (rooted_snoc l' x) as [a ->]. now apply endswith_no_slash.
Qed.

(** Joining a relative path to a rooted path of plain components, and
    making the result absolute. *)
Lemma join_rooted (l : list string) (p : string) :
  l <> [] -> forallb plain l = true -> Py.startswith p "/" = false ->
  join (rooted l) p = rooted l ++ String "/" p.
Proof.
  intros Hne Hl Hp. unfold join.
  now rewrite Hp, rooted_nonempty, (rooted_no_trailing_slash l Hne Hl).
Qed.

Lemma abspath_join_rooted (cwd : string) (l : list string) (p : string) :
  l <> [] -> forallb plain l = true -> Py.startswith p "/" = false ->
  abspath cwd (join (rooted l) p) = rooted (fold_left (norm_step 1) (split p) l).
Proof.
  intros Hne Hl Hp.
  now rewrite (join_rooted l p Hne Hl Hp), abspath_rooted, normpath_continue.
Qed.

Lemma abspath_plain (cwd : string) (l : list string) :
  l <> [] -> forallb plain l = true -> abspath cwd (rooted l) = rooted l.
Proof.
  intros Hne Hl. rewrite <- (app_empty_r (rooted l)) at 1.
  rewrite abspath_rooted, app_empty_r. now apply normpath_plain.
Qed.

(** ** The memory of listed directories *)

Lemma normpath_nonempty (p : string) : String.eqb (normpath p) "" = false.
Proof.
  unfold normpath. destruct (String.eqb p ""); [reflexivity|].
  match goal with |- context [if String.eqb ?x "" then _ else _] =>
    destruct (String.eqb x "") eqn:E end; [reflexivity | exact E].
Qed.

Lemma abspath_nonempty (cwd p : string) : String.eqb (abspath cwd p) "" = false.
Proof. unfold abspath. destruct (Py.startswith p "/"); apply normpath_nonempty. Qed.

Lemma relpath_returns (cwd path start : string) :
  String.eqb path "" = false -> exists rel, relpath cwd path start = Ok rel.
Proof.
  intros H. unfold relpath. rewrite H.
  match goal with |- context [match ?l with [] => _ | _ :: _ => _ end] =>
    destruct l end; eauto.
Qed.

Lemma rel_path_of_returns (cwd : string) (b : Bouncer) (path : string) :
  exists rel, rel_path_of cwd b path = Ok rel.
Proof. apply relpath_returns, abspath_nonempty. Qed.

Lemma mark_dir_visited_helper (cwd : string) (b : Bouncer) (p : string) :
  exists rel,
    rel_path_of cwd b p = Ok rel
    /\ (forall q, rel_path_of cwd (mark_dir_visited cwd b p) q = rel_path_of cwd b q)
    /\ visited_dirs (mark_dir_visited cwd b p) = {[rel]} ∪ visited_dirs b.
Proof.
  destruct (rel_path_of_returns cwd b p) as [rel Hrel]. exists rel.
  unfold mark_dir_visited. rewrite Hrel. repeat split.
Qed.

(** X22 -- marking and asking.  [mark_dir_visited] and
    [is_dir_visited] never fail and never take their [ValueError]
    branch: the path they normalize is never empty.  A directory that
    was marked is reported as visited, a mark is never lost when another
    directory is marked, and a new broker reports no directory as
    visited. *)
Theorem mark_dir_visited_then_visited (cwd : string) (b : Bouncer) (path : string) :
  is_dir_visited cwd (mark_dir_visited cwd b path) path = true
  /\ (forall other,
         is_dir_visited cwd b other = true ->
         is_dir_visited cwd (mark_dir_visited cwd b path) other = true)
  /\ (forall repo_root, is_dir_visited cwd (new_bouncer cwd repo_root) path = false)
  /\ exists rel_path,
      rel_path_of cwd b path = Ok rel_path
      /\ visited_dirs (mark_dir_visited cwd b path) = {[rel_path]} ∪ visited_dirs b.
Proof.
  destruct (mark_dir_visited_helper cwd b path) as (rel & Hrel & Hroot & Hmarks).
  repeat split.
  - unfold is_dir_visited. rewrite Hroot, Hrel, Hmarks.
    apply bool_decide_eq_true, elem_of_union. left. now apply elem_of_singleton.
  - intros other. unfold is_dir_visited. rewrite Hroot, Hmarks.
    destruct (rel_path_of cwd b other) as [r|e]; [|discriminate].
    rewrite !bool_decide_eq_true. intros H. apply elem_of_union. now right.
  - intros repo_root. unfold is_dir_visited.
    destruct (rel_path_of cwd (new_bouncer cwd repo_root) path); [|reflexivity].
    apply bool_decide_eq_false. cbn. set_solver.
  - exists rel. split; [exact Hrel | exact Hmarks].
Qed.

Lemma split_dot_slash (p : string) : split ("./" ++ p) = "." :: split p.
Proof. change ("./" ++ p) with ("." ++ String "/" p). now rewrite split_app_slash. Qed.

Lemma split_trailing_slash (p : string) : split (p ++ "/") = (split p ++ [""])%list.
Proof. change (p ++ "/") with (p ++ String "/" ""). now rewrite split_app_slash. Qed.

Lemma startswith_snoc (p t : string) :
  p <> "" -> Py.startswith p "/" = false -> Py.startswith (p ++ t) "/" = false.
Proof.
  destruct p as [|c p]; [congruence|]. intros _. rewrite app_cons.
  cbn [Py.startswith]. destruct (Ascii.eqb "/" c); [|reflexivity].
  now rewrite PricingProps.startswith_empty.
Qed.

(** X23 -- spellings of one directory.  For a broker whose root is an
    absolute path of plain components, and a relative path: the path,
    the path behind [./] and (when it is not empty) the path with a slash
    at its end name the same directory, so marking one spelling makes
    every one of them visited. *)
Theorem is_dir_visited_spellings (cwd : string) (b : Bouncer)
    (root : list string) (path : string) :
  root <> [] -> forallb plain root = true -> repo_root b = rooted root ->
  Py.startswith path "/" = false ->
  is_dir_visited cwd (mark_dir_visited cwd b path) ("./" ++ path) = true
  /\ is_dir_visited cwd (mark_dir_visited cwd b ("./" ++ path)) path = true
  /\ (path <> "" ->
      is_dir_visited cwd (mark_dir_visited cwd b path) (path ++ "/") = true
      /\ is_dir_visited cwd (mark_dir_visited cwd b (path ++ "/")) path = true).
Proof.
  intros Hne Hplain Hroot Hrel.
  assert (Hdot : rel_path_of cwd b ("./" ++ path) = rel_path_of cwd b path).
  { unfold rel_path_of. rewrite Hroot.
    rewrite !(abspath_join_rooted cwd root _ Hne Hplain) by (assumption || reflexivity).
    now rewrite split_dot_slash. }
  assert (Hslash : path <> "" ->
                   rel_path_of cwd b (path ++ "/") = rel_path_of cwd b path).
  { intros Hp. unfold rel_path_of. rewrite Hroot.
    rewrite !(abspath_join_rooted cwd root _ Hne Hplain)
      by (assumption || now apply startswith_snoc).
    now rewrite split_trailing_slash, fold_left_app. }
  assert (Hsame : forall p q,
            rel_path_of cwd b p = rel_path_of cwd b q ->
            is_dir_visited cwd (mark_dir_visited cwd b p) q = true).
  { intros p q Hpq.
    destruct (mark_dir_visited_helper cwd b p) as (rel & Hr & Hroot' & Hmarks).
    unfold is_dir_visited. rewrite Hroot', <- Hpq, Hr, Hmarks.
    apply bool_decide_eq_true, elem_of_union. left. now apply elem_of_singleton. }
  split; [now apply Hsame|]. split; [now apply Hsame|].
  intros Hp. split; apply Hsame; [symmetry|]; now apply Hslash.
Qed.

Lemma is_dir_visited_spellings_witness :
  is_dir_visited "/opt"
    (mark_dir_visited "/opt" (new_bouncer "/opt" "/srv/app") "lib/handlers")
    "./lib/handlers" = true
  /\ is_dir_visited "/opt"
       (mark_dir_visited "/opt" (new_bouncer "/opt" "/srv/app") "lib/handlers/")
       "lib/handlers" = true.
Proof.
  pose proof (is_dir_visited_spellings "/opt" (new_bouncer "/opt" "/srv/app")
                ["srv"; "app"] "lib/handlers"
                ltac:(discriminate) eq_refl eq_refl eq_refl)
    as (Hdot & _ & Hslash).
  split; [exact Hdot|]. exact (proj2 (Hslash ltac:(discriminate))).
Defined.

(** ** The check against the root *)

Lemma target_of_rooted (cwd : string) (root : list string) (directory : string) :
  root <> [] -> forallb plain root = true -> Py.startswith directory "/" = false ->
  target_of cwd (rooted root) directory
  = rooted (fold_left (norm_step 1) (split directory) root).
Proof.
  intros Hne Hl Hd. unfold target_of.
  now rewrite (abspath_plain cwd root Hne Hl), abspath_join_rooted.
Qed.

Lemma length_rooted_snoc (l : list string) (x : string) :
  x <> "" -> (String.length (rooted l) < String.length (rooted (l ++ [x])))%nat.
Proof.
  intros Hx. destruct l as [|y l].
  - destruct x; [congruence|]. cbn. lia.
  - unfold rooted. rewrite join_app by discriminate.
    cbn [String.length Py.join]. rewrite length_app. cbn [String.length]. lia.
Qed.

Lemma norm_step_up (l : list string) (x : string) :
  plain x = true -> norm_step 1 (l ++ [x]) ".." = l.
Proof.
  intros Hx. destruct (plain_parts x Hx) as (_ & _ & _ & Hdd).
  unfold norm_step. rewrite last_snoc, Hdd. cbn. apply removelast_last.
Qed.

(** X24 -- the check against the root is a test on text.  For a
    root that is an absolute path of plain components, [execute_list_files]
    (and [read_file_safe], by the same test) compares the normalized
    target with the root as texts.  A path of plain components below the
    root passes, and the parent of the root is refused; but a directory
    beside the root whose name begins with the name of the root passes
    as well, although it lies outside the root. *)
Theorem access_check_is_a_prefix_test (cwd : string) (above : list string)
    (name suffix : string) (inside : list string) :
  forallb plain (above ++ [name]) = true ->
  plain (name ++ suffix) = true ->
  inside <> [] -> forallb plain inside = true ->
  let root := rooted (above ++ [name]) in
  (target_of cwd root (Py.join "/" inside) = rooted ((above ++ [name]) ++ inside)
   /\ access_denied cwd root (Py.join "/" inside) = false)
  /\ (target_of cwd root ".." = rooted above
      /\ access_denied cwd root ".." = true)
  /\ (target_of cwd root ("../" ++ name ++ suffix) = rooted (above ++ [name ++ suffix])
      /\ access_denied cwd root ("../" ++ name ++ suffix) = false).
Proof.
  intros Hroot Hsib Hne Hin root.
  assert (Hnil : (above ++ [name])%list <> []) by (destruct above; discriminate).
  assert (Hname : plain name = true).
  { rewrite forallb_app in Hroot. apply andb_prop in Hroot.
    destruct Hroot as [_ H]. cbn in H. now rewrite andb_true_r in H. }
  assert (Habs : abspath cwd root = root) by now apply abspath_plain.
  split; [|split].
  - assert (Hrel : Py.startswith (Py.join "/" inside) "/" = false).
    { destruct inside as [|x l]; [congruence|].
      assert (Hx : plain x = true) by (cbn in Hin; now apply andb_prop in Hin).
      destruct (join_head x l Hx) as (c & r & -> & Hc).
      cbn [Py.startswith]. rewrite Ascii.eqb_sym in Hc. now rewrite Hc. }
    assert (Ht : target_of cwd root (Py.join "/" inside)
                 = rooted ((above ++ [name]) ++ inside)).
    { unfold root. rewrite target_of_rooted by assumption.
      rewrite split_join by (assumption || now apply plain_no_slash).
      now rewrite fold_plain. }
    split; [exact Ht|]. unfold access_denied. fold root. rewrite Ht, Habs.
    unfold root, rooted. rewrite join_app by assumption.
    rewrite <- app_cons, startswith_app. reflexivity.
  - assert (Ht : target_of cwd root ".." = rooted above).
    { unfold root. rewrite target_of_rooted by (assumption || reflexivity).
      change (split "..") with [".."]. cbn [fold_left].
      now rewrite norm_step_up. }
    split; [exact Ht|]. unfold access_denied. fold root. rewrite Ht, Habs.
    rewrite startswith_longer; [reflexivity|].
    apply length_rooted_snoc. now destruct (plain_parts name Hname) as (_ & ? & _).
  - assert (Hs : no_slash (name ++ suffix) = true)
      by now destruct (plain_parts _ Hsib).
    assert (Ht : target_of cwd root ("../" ++ name ++ suffix)
                 = rooted (above ++ [name ++ suffix])).
    { unfold root. rewrite target_of_rooted by (assumption || reflexivity).
      change ("../" ++ name ++ suffix) with (".." ++ String "/" (name ++ suffix)).
      rewrite split_app_slash, (split_no_slash _ Hs).
      change (split "..") with [".."]. cbn [app fold_left].
      now rewrite (norm_step_up above name Hname), norm_step_plain. }
    split; [exact Ht|]. unfold access_denied. fold root. rewrite Ht, Habs.
    unfold root, rooted. rewrite join_snoc, <- app_cons, startswith_app.
    reflexivity.
Qed.

Lemma access_check_is_a_prefix_test_witness :
  target_of "/opt" "/srv/app" "../app-secrets" = "/srv/app-secrets"
  /\ access_denied "/opt" "/srv/app" "../app-secrets" = false
  /\ access_denied "/opt" "/srv/app" ".." = true.
Proof.
  pose proof (access_check_is_a_prefix_test "/opt" ["srv"] "app" "-secrets" ["src"]
                eq_refl eq_refl ltac:(discriminate) eq_refl)
    as (_ & (_ & Hup) & (Ht & Hsib)).
  split; [exact Ht|]. split; [exact Hsib | exact Hup].
Defined.

(** ** The ignore rules *)

Lemma filter_plain (l : list string) :
  forallb plain l = true -> List.filter nonempty l = l.
Proof.
  induction l as [|x l IH]; [reflexivity|]. cbn [forallb List.filter].
  intros H. apply andb_prop in H. destruct H as [Hx Hl].
  destruct (plain_parts x Hx) as (_ & Hne & _).
  unfold nonempty at 1. apply String.eqb_neq in Hne. rewrite Hne, (IH Hl).
  reflexivity.
Qed.

Lemma split_rooted_plain (l : list string) :
  l <> [] -> forallb plain l = true -> split (rooted l) = "" :: l.
Proof.
  intros Hne Hl. unfold rooted.
  change (split (String "/" (Py.join "/" l))) with ("" :: split (Py.join "/" l)).
  rewrite split_join; [reflexivity | exact Hne | now apply plain_no_slash].
Qed.

Lemma common_prefix_len_app (l ds : list string) :
  common_prefix_len l (l ++ ds) = length l.
Proof.
  induction l as [|x l IH]; [destruct ds; reflexivity|].
  cbn [common_prefix_len app length]. now rewrite String.eqb_refl, IH.
Qed.

Lemma join_last_form (l : list string) (z : string) :
  exists a, Py.join "/" (l ++ [z]) = a ++ z.
Proof.
  destruct l as [|y l].
  - exists "". reflexivity.
  - exists (Py.join "/" (y :: l) ++ "/").
    rewrite join_app by discriminate. cbn [Py.join]. now rewrite app_assoc'.
Qed.

Lemma join_all_plain (xs : list string) :
  forall m, m <> [] -> forallb plain m = true -> forallb plain xs = true ->
  fold_left join xs (Py.join "/" m) = Py.join "/" (m ++ xs).
Proof.
  induction xs as [|y xs IH]; intros m Hne Hm Hxs; cbn [fold_left].
  - now rewrite app_nil_r.
  - cbn [forallb] in Hxs. apply andb_prop in Hxs. destruct Hxs as [Hy Hxs].
    assert (Hstep : join (Py.join "/" m) y = Py.join "/" (m ++ [y])).
    { unfold join.
      destruct (plain_parts y Hy) as (Hys & Hyn & _).
      destruct (nonslash_head y "" Hys Hyn) as (c & r & Hyc & Hc).
      rewrite app_empty_r in Hyc. rewrite Hyc at 1. cbn [Py.startswith].
      rewrite Ascii.eqb_sym in Hc. rewrite Hc.
      destruct (exists_last Hne) as (m' & z & ->).
      assert (Hz : plain z = true).
      { rewrite forallb_app in Hm. apply andb_prop in Hm. destruct Hm as [_ H].
        cbn in H. now rewrite andb_true_r in H. }
      destruct (plain_parts z Hz) as (Hzs & Hzn & _).
      destruct (join_last_form m' z) as [a Ha].
      rewrite (join_app (m' ++ [z]) [y]) by (discriminate || (destruct m'; discriminate)).
      rewrite Ha, (endswith_no_slash a z Hzs Hzn).
      assert (Hnz : String.eqb (a ++ z) "" = false).
      { apply String.eqb_neq. intros E. apply Hzn.
        destruct a; [exact E | discriminate E]. }
      rewrite Hnz. reflexivity. }
    rewrite Hstep, IH.
    + now rewrite <- app_assoc.
    + destruct m; discriminate.
    + rewrite forallb_app, Hm. cbn. now rewrite Hy.
    + exact Hxs.
Qed.

(** The path of a file below the root, relative to the root. *)
Lemma relpath_below (cwd : string) (root below : list string) :
  root <> [] -> forallb plain root = true ->
  below <> [] -> forallb plain below = true ->
  relpath cwd (rooted (root ++ below)) (rooted root) = Ok (Py.join "/" below).
Proof.
  intros Hne Hroot Hb Hbelow.
  assert (Hall : forallb plain (root ++ below) = true)
    by (rewrite forallb_app, Hroot, Hbelow; reflexivity).
  assert (Hnil : (root ++ below)%list <> []) by (destruct root; [congruence|discriminate]).
  unfold relpath. rewrite rooted_nonempty.
  rewrite !abspath_plain, !split_rooted_plain by assumption.
  cbn [List.filter]. change (nonempty "") with false. cbv iota.
  rewrite !filter_plain by assumption.
  rewrite common_prefix_len_app, Nat.sub_diag. cbn [repeat app].
  rewrite skipn_app, skipn_all, Nat.sub_diag. cbn [app skipn].
  destruct below as [|d ds]; [congruence|].
  change (skipn 0 (d :: ds)) with (d :: ds). cbv iota.
  unfold join_all.
  change (fold_left join ds d) with (fold_left join ds (Py.join "/" [d])).
  rewrite (join_all_plain ds [d]); [reflexivity | discriminate | |].
  - cbn in Hbelow. apply andb_prop in Hbelow. cbn. now rewrite (proj1 Hbelow).
  - cbn in Hbelow. now apply andb_prop in Hbelow.
Qed.

Lemma contains_app (a p b : string) : Py.contains (a ++ p ++ b) p = true.
Proof.
  induction a as [|c a IH].
  - change ("" ++ p ++ b) with (p ++ b).
    destruct (p ++ b) eqn:E; cbn [Py.contains]; rewrite <- E, startswith_app;
      reflexivity.
  - rewrite app_cons. cbn [Py.contains]. rewrite IH. apply orb_true_r.
Qed.

Lemma in_ignored_dir_below (pre post : list string) (d : string) :
  In d DEFAULT_DIR_IGNORE -> pre = [] \/ post <> [] ->
  in_ignored_dir (Py.join "/" (pre ++ d :: post)) = true.
Proof.
  intros Hd Hshape. unfold in_ignored_dir. apply existsb_exists.
  exists d. split; [exact Hd|].
  destruct pre as [|x pre].
  - destruct post as [|y post].
    + cbn [app Py.join]. now rewrite String.eqb_refl.
    + cbn [app]. rewrite join_cons.
      change (d ++ String "/" (Py.join "/" (y :: post)))
        with (d ++ "/" ++ Py.join "/" (y :: post)).
      rewrite <- app_assoc', startswith_app. now rewrite orb_true_r.
  - destruct Hshape as [Hp|Hpost]; [discriminate|].
    rewrite join_app by discriminate.
    destruct post as [|y post]; [congruence|].
    rewrite join_cons.
    change (Py.join "/" (x :: pre) ++ String "/" (d ++ String "/" (Py.join "/" (y :: post))))
      with (Py.join "/" (x :: pre) ++ "/" ++ d ++ "/" ++ Py.join "/" (y :: post)).
    replace ("/" ++ d ++ "/" ++ Py.join "/" (y :: post))
      with (("/" ++ d ++ "/") ++ Py.join "/" (y :: post))
      by (now rewrite !app_assoc').
    rewrite contains_app. apply orb_true_r.
Qed.

(** X25 -- what lies in a blacklisted directory is ignored.  For a
    handler whose root is an absolute path of plain components, and the
    absolute path of a file or directory below the root: when one of the
    sixteen directory names of [DEFAULT_DIR_IGNORE] is the first
    component below the root, or a component that is not the last one,
    [is_ignored] answers [True], whatever the loaded patterns, the
    pattern matcher and the file system say. *)
Theorem is_ignored_below_blacklisted (cwd : string)
    (fnmatch : string -> string -> bool) (isdir : string -> bool)
    (ignore_patterns : list string) (root pre post : list string) (d : string) :
  root <> [] -> forallb plain root = true ->
  forallb plain (pre ++ d :: post) = true ->
  In d DEFAULT_DIR_IGNORE -> pre = [] \/ post <> [] ->
  is_ignored cwd fnmatch isdir (rooted root) ignore_patterns
    (rooted (root ++ pre ++ d :: post)) = Ok true.
Proof.
  intros Hne Hroot Hbelow Hd Hshape. unfold is_ignored.
  assert (Hall : forallb plain (root ++ pre ++ d :: post) = true)
    by (rewrite forallb_app, Hroot, Hbelow; reflexivity).
  assert (Hnil : (root ++ pre ++ d :: post)%list <> [])
    by (destruct root; [congruence|discriminate]).
  assert (Hjoin : join (rooted root) (rooted (root ++ pre ++ d :: post))
                  = rooted (root ++ pre ++ d :: post)).
  { unfold join, rooted. cbn [Py.startswith].
    change (Ascii.eqb "/" "/") with true. cbv iota.
    now rewrite PricingProps.startswith_empty. }
  rewrite Hjoin, (abspath_plain cwd _ Hnil Hall).
  rewrite (relpath_below cwd root (pre ++ d :: post) Hne Hroot)
    by (assumption || (destruct pre; discriminate)).
  cbn [mbind result_bind].
  now rewrite (in_ignored_dir_below pre post d Hd Hshape).
Qed.

Lemma is_ignored_below_blacklisted_witness :
  is_ignored "/opt" (fun _ _ => false) (fun _ => false) "/srv/app" []
    "/srv/app/web/node_modules/left-pad/index.js" = Ok true.
Proof.
  apply (is_ignored_below_blacklisted "/opt" (fun _ _ => false) (fun _ => false) []
           ["srv"; "app"] ["web"] ["left-pad"; "index.js"] "node_modules");
    [discriminate | reflexivity | reflexivity | | right; discriminate].
  simpl. tauto.
Defined.

Lemma from_last_dot_app (s t e : string) :
  from_last_dot t = Some e -> from_last_dot (s ++ t) = Some e.
Proof.
  intros H. induction s as [|c s IH]; [exact H|].
  rewrite app_cons. cbn [from_last_dot]. now rewrite IH.
Qed.

Lemma split_app_no_slash (s t : string) :
  no_slash t = true ->
  exists l x, split s = (l ++ [x])%list /\ split (s ++ t) = (l ++ [(x ++ t)%string])%list.
Proof.
  intros Ht. induction s as [|c s IH].
  - exists [], "". split; [reflexivity|].
    change ("" ++ t) with t. now rewrite (split_no_slash t Ht).
  - destruct IH as (l & x & Hs & Hst). rewrite app_cons. cbn [split].
    rewrite Hs, Hst. destruct (Ascii.eqb c "/").
    + exists ("" :: l), x. split; reflexivity.
    + destruct l as [|y l].
      * exists [], (String c x). split; reflexivity.
      * exists (String c y :: l), x. split; reflexivity.
Qed.

Lemma basename_app (s t : string) :
  no_slash t = true -> basename (s ++ t) = basename s ++ t.
Proof.
  intros Ht. destruct (split_app_no_slash s t Ht) as (l & x & Hs & Hst).
  unfold basename. now rewrite Hs, Hst, !last_snoc.
Qed.

Lemma take_app (a e : string) :
  Py.take (String.length (a ++ e) - String.length e) (a ++ e) = a.
Proof.
  rewrite length_app.
  replace (String.length a + String.length e - String.length e)%nat
    with (String.length a) by lia.
  induction a as [|c a IH]; [destruct e; reflexivity|].
  rewrite app_cons. cbn [String.length Py.take]. now rewrite IH.
Qed.

Lemma chars_app (a b : string) :
  list_ascii_of_string (a ++ b)
  = (list_ascii_of_string a ++ list_ascii_of_string b)%list.
Proof.
  induction a as [|c a IH]; [reflexivity|].
  rewrite app_cons. cbn [list_ascii_of_string app]. now rewrite IH.
Qed.

(** The extension of a path that ends in a stem with a character other
    than a dot, followed by a dot and a run without dots. *)
Lemma splitext_ext_app (s m e : string) :
  no_slash (m ++ e) = true -> from_last_dot e = Some e ->
  existsb (fun c => negb (Ascii.eqb c ".")) (list_ascii_of_string m) = true ->
  splitext_ext (s ++ m ++ e) = e.
Proof.
  intros Hns He Hm. unfold splitext_ext.
  rewrite (basename_app s (m ++ e) Hns), <- app_assoc'.
  rewrite (from_last_dot_app (basename s ++ m) e e He).
  cbv zeta. rewrite take_app, chars_app, existsb_app, Hm, orb_true_r.
  reflexivity.
Qed.

Lemma lower_char_dot (c : ascii) :
  Ascii.eqb (Py.lower_char c) "." = Ascii.eqb c ".".
Proof. destruct c as [[] [] [] [] [] [] [] []]; vm_compute; reflexivity. Qed.

Lemma dots_lower (s : string) : dots (Py.lower s) = dots s.
Proof.
  induction s as [|c s IH]; [reflexivity|].
  cbn [Py.lower dots]. now rewrite lower_char_dot, IH.
Qed.

Lemma from_last_dot_dots (s : string) :
  match from_last_dot s with
  | Some e => dots e = 1%nat
  | None => dots s = 0%nat
  end.
Proof.
  induction s as [|c s IH]; [reflexivity|]. cbn [from_last_dot].
  destruct (from_last_dot s) as [e|]; [exact IH|].
  destruct (Ascii.eqb c ".") eqn:E; cbn [dots]; now rewrite E, IH.
Qed.

Lemma splitext_ext_dots (p : string) : (dots (splitext_ext p) <= 1)%nat.
Proof.
  unfold splitext_ext. pose proof (from_last_dot_dots (basename p)) as H.
  destruct (from_last_dot (basename p)) as [e|]; [|cbn; lia].
  cbv zeta. destruct (existsb _ _); [lia | cbn; lia].
Qed.

(** X26 -- the extension rule looks at one extension only.  The text
    compared with [DEFAULT_FILE_EXT_IGNORE] is the second component of
    [os.path.splitext], lowered: it holds at most one dot.  So the four
    entries of the list that hold two dots, [.min.js], [.bundle.js],
    [.js.map] and [.css.map], are equal to the extension of no path, and
    a path that ends in one of them is not ignored by this rule: its
    extension is [.js] or [.map], which the list does not hold. *)
Theorem double_extensions_never_match (p : string) :
  Forall (fun e => String.eqb (Py.lower (splitext_ext p)) e = false)
    [".min.js"; ".bundle.js"; ".js.map"; ".css.map"]
  /\ Forall (fun e => In e DEFAULT_FILE_EXT_IGNORE /\ has_ignored_ext (p ++ e) = false)
       [".min.js"; ".bundle.js"; ".js.map"; ".css.map"].
Proof.
  split.
  - assert (H : forall e, dots e = 2%nat ->
                 String.eqb (Py.lower (splitext_ext p)) e = false).
    { intros e He. apply String.eqb_neq. intros E.
      pose proof (splitext_ext_dots p) as Hd.
      rewrite <- (dots_lower (splitext_ext p)), E in Hd. lia. }
    repeat constructor; apply H; reflexivity.
  - assert (H : forall m e, no_slash (m ++ e) = true -> from_last_dot e = Some e ->
                 existsb (fun c => negb (Ascii.eqb c ".")) (list_ascii_of_string m) = true ->
                 existsb (String.eqb (Py.lower e)) DEFAULT_FILE_EXT_IGNORE = false ->
                 has_ignored_ext (p ++ m ++ e) = false).
    { intros m e H1 H2 H3 H4. unfold has_ignored_ext.
      now rewrite (splitext_ext_app p m e H1 H2 H3). }
    repeat (constructor; [split; [simpl; tauto|]|]).
    + apply (H ".min" ".js"); reflexivity.
    + apply (H ".bundle" ".js"); reflexivity.
    + apply (H ".js" ".map"); reflexivity.
    + apply (H ".css" ".map"); reflexivity.
    + constructor.
Qed.

End PathProps.
